(** * MarketSentimentAnalyzer: sentiment aggregation and peer ranking

    A shallow embedding of the data pipeline of
    [src/MarketSentimentAnalyzer.tsx]: [getDateRange], [formatDate],
    the fetchers, [analyzeSentiment], [processSentimentData],
    [findCompaniesBetterSentiment] and [fetchData], followed by the
    properties of the specification that concern them.

    Modelling conventions.
    - A JavaScript [number] that carries a sentiment, a score or a price is
      an exact rational ([Q]); binary64 rounding is not modelled.  Time
      values are integers ([Z], milliseconds since the epoch, as in a
      [Date]); counters are [nat].
    - [Date] follows the day-number algorithms of ECMA-262 (Day,
      DayFromYear, YearFromTime, MonthFromTime, DateFromTime, MakeDay) in
      the proleptic Gregorian calendar, with a fixed local offset
      [tzMin] (minutes east of UTC); daylight-saving changes inside the
      window are not modelled, and properties that need the days of the
      window to be of 24 hours say so.  [Zoned] holds [getDateRange] and
      [formatDate] under the rules of a zone ([Zone.t]), and tells when
      the fixed offset is exact.  Every integer is taken as a time
      value; the source has an invalid date beyond 8.64e15 milliseconds
      ([validTime]).
    - A plain object used as a dictionary is an association list in
      insertion order, which is the order [Object.entries] yields for
      keys that are not array indices.
    - [Math.random] is a stream [rng : nat -> Q] read through a counter
      that every call advances; [throw]/[catch] is an error result; the
      React state setters write a record that the run carries along.
    - The HTTP endpoints are functions from the request to what the
      component receives.  [await] and [Promise.all] are run to
      completion in list order, so concurrent calls draw from
      [Math.random] in that order.
    - The functions of the component read [selectedStock], [timeRange]
      and [companyProfile] from the closure of the render that defines
      them; these are parameters.  [fetchDataEffect] is the run the
      effect of a render starts, whose closure holds the
      [companyProfile] of the state the run starts from.  A run is
      executed alone, to its end. *)

From Stdlib Require Import ZArith QArith Qround List String Ascii Bool Lia Lqa.
From Stdlib Require Import Permutation Sorted DecimalString DecimalPos.
Import ListNotations.

Local Open Scope Z_scope.

(** ** ECMA-262 day arithmetic *)

Module JSDate.

Definition msPerDay : Z := 86400000.

Definition Day (t : Z) : Z := t / msPerDay.
Definition TimeWithinDay (t : Z) : Z := t mod msPerDay.

Definition DayFromYear (y : Z) : Z :=
  365 * (y - 1970) + (y - 1969) / 4 - (y - 1901) / 100 + (y - 1601) / 400.

Definition DaysInYear (y : Z) : Z :=
  if negb (y mod 4 =? 0) then 365
  else if negb (y mod 100 =? 0) then 366
  else if negb (y mod 400 =? 0) then 365
  else 366.

Definition InLeapYear (y : Z) : Z := if DaysInYear y =? 366 then 1 else 0.

(** YearFromTime: the largest [y] with [DayFromYear y <= d].  The
    estimate from the mean year length is off by at most one year. *)
Definition YearFromDay (d : Z) : Z :=
  let y0 := 1970 + (400 * d) / 146097 in
  if d <? DayFromYear y0 then y0 - 1
  else if DayFromYear (y0 + 1) <=? d then y0 + 1
  else y0.

Definition DayWithinYear (d : Z) : Z := d - DayFromYear (YearFromDay d).

(** MonthFromTime, on the day within the year and the leap flag. *)
Definition MonthFromDayInYear (leap dwy : Z) : Z :=
  if dwy <? 31 then 0
  else if dwy <? 59 + leap then 1
  else if dwy <? 90 + leap then 2
  else if dwy <? 120 + leap then 3
  else if dwy <? 151 + leap then 4
  else if dwy <? 181 + leap then 5
  else if dwy <? 212 + leap then 6
  else if dwy <? 243 + leap then 7
  else if dwy <? 273 + leap then 8
  else if dwy <? 304 + leap then 9
  else if dwy <? 334 + leap then 10
  else 11.

(** Day within the year on which month [m] starts. *)
Definition monthStart (leap m : Z) : Z :=
  match m with
  | 0 => 0
  | 1 => 31
  | 2 => 59 + leap
  | 3 => 90 + leap
  | 4 => 120 + leap
  | 5 => 151 + leap
  | 6 => 181 + leap
  | 7 => 212 + leap
  | 8 => 243 + leap
  | 9 => 273 + leap
  | 10 => 304 + leap
  | _ => 334 + leap
  end.

Definition DateFromDayInYear (leap dwy : Z) : Z :=
  dwy - monthStart leap (MonthFromDayInYear leap dwy) + 1.

Definition YearFromTime (t : Z) : Z := YearFromDay (Day t).
Definition MonthFromTime (t : Z) : Z :=
  MonthFromDayInYear (InLeapYear (YearFromTime t)) (DayWithinYear (Day t)).
Definition DateFromTime (t : Z) : Z :=
  DateFromDayInYear (InLeapYear (YearFromTime t)) (DayWithinYear (Day t)).

(** MakeDay for a month index in [0, 11]: the day number of the first of
    the month, plus [dt - 1]. *)
Definition MakeDay (y m dt : Z) : Z :=
  DayFromYear y + monthStart (InLeapYear y) m + dt - 1.

Definition MakeDate (day time : Z) : Z := day * msPerDay + time.

Definition MakeTime (h m s ms : Z) : Z :=
  h * 3600000 + m * 60000 + s * 1000 + ms.

(** The host's time zone: a fixed offset, in minutes east of UTC. *)
Definition LocalTZA (tzMin : Z) : Z := tzMin * 60000.
Definition LocalTime (tzMin t : Z) : Z := t + LocalTZA tzMin.
Definition UTC (tzMin t : Z) : Z := t - LocalTZA tzMin.

(** [Date.prototype.getDate], [setDate] and [setHours] on a time value. *)
Definition getDate (tzMin t : Z) : Z := DateFromTime (LocalTime tzMin t).

Definition setDate (tzMin t dt : Z) : Z :=
  let lt := LocalTime tzMin t in
  UTC tzMin
    (MakeDate (MakeDay (YearFromTime lt) (MonthFromTime lt) dt)
              (TimeWithinDay lt)).

Definition setHours (tzMin t h m s ms : Z) : Z :=
  let lt := LocalTime tzMin t in
  UTC tzMin (MakeDate (Day lt) (MakeTime h m s ms)).

End JSDate.

Import JSDate.


(** ** Small JavaScript library functions *)

Local Open Scope string_scope.
Local Open Scope Z_scope.

(** Month names of [toLocaleDateString('en-US', { month: 'short' })]. *)
Definition monthShort (m : Z) : string :=
  match m with
  | 0 => "Jan" | 1 => "Feb" | 2 => "Mar" | 3 => "Apr"
  | 4 => "May" | 5 => "Jun" | 6 => "Jul" | 7 => "Aug"
  | 8 => "Sep" | 9 => "Oct" | 10 => "Nov" | _ => "Dec"
  end.

Definition decimal (n : Z) : string := NilZero.string_of_int (Z.to_int n).

(** [l[i]] for a numeric index; [None] is [undefined]. *)
Definition index {A : Type} (l : list A) (i : Z) : option A :=
  if i <? 0 then None else nth_error l (Z.to_nat i).

(** [findIndex]: the first position whose element satisfies [p]. *)
Fixpoint findIndex {A : Type} (p : A -> bool) (l : list A) : option nat :=
  match l with
  | [] => None
  | x :: r => if p x then Some O else option_map S (findIndex p r)
  end.

(** A plain object used as a dictionary: assignment to a present key
    keeps its position, a new key goes last. *)
Definition Dict (V : Type) : Type := list (string * V).

Fixpoint dict_get {V : Type} (d : Dict V) (k : string) : option V :=
  match d with
  | [] => None
  | (k', v) :: r => if String.eqb k' k then Some v else dict_get r k
  end.

Fixpoint dict_set {V : Type} (d : Dict V) (k : string) (v : V) : Dict V :=
  match d with
  | [] => [(k, v)]
  | (k', v') :: r =>
      if String.eqb k' k then (k', v) :: r else (k', v') :: dict_set r k v
  end.

Definition dict_keys {V : Type} (d : Dict V) : list string := map fst d.

(** [Array.prototype.sort] with a comparator: a stable sort, an element
    moving behind a later one only when the comparator is positive.  For
    a consistent comparator every stable sort returns this list; for an
    inconsistent one ECMA-262 leaves the order to the implementation. *)
Fixpoint sort_insert {A : Type} (comparefn : A -> A -> Q) (x : A)
    (l : list A) : list A :=
  match l with
  | [] => [x]
  | y :: r =>
      match (comparefn x y ?= 0)%Q with
      | Gt => y :: sort_insert comparefn x r
      | _ => x :: y :: r
      end
  end.

Definition Array_sort {A : Type} (comparefn : A -> A -> Q) (l : list A)
  : list A :=
  fold_right (sort_insert comparefn) [] l.

(** [a > b] on numbers. *)
Definition gt (a b : Q) : bool :=
  match (a ?= b)%Q with Gt => true | _ => false end.

(** A number is falsy when it is zero. *)
Definition falsy (x : Q) : bool := Qeq_bool x 0.

(** [reduce((a, b) => a + b, 0)] and the mean the source computes with it. *)
Definition reduceSum (l : list Q) : Q := fold_left Qplus l 0%Q.

Definition average (l : list Q) : Q :=
  if (0 <? List.length l)%nat
  then (reduceSum l / inject_Z (Z.of_nat (List.length l)))%Q
  else 0%Q.

(** [parseFloat(x.toFixed(2))]: the nearest multiple of 1/100 of the
    absolute value, a tie going to the larger one, with the sign of [x]. *)
Definition toFixed2 (x : Q) : Q :=
  let nearest (y : Q) := (inject_Z (Qfloor (y * 100 + (1 # 2))) / 100)%Q in
  match (x ?= 0)%Q with
  | Lt => (- nearest (- x))%Q
  | _ => nearest x
  end.

(** ** Data model of the component *)

Record Sentiment := { label : string; score : Q }.

Record NewsItem := {
  datetime : Z;
  headline : string;
  source : string;
  url : string;
  sentiment : option Sentiment
}.

Module Quote.
Record t := { c : Q; h : Q; l : Q; o : Q; pc : Q; t_ : Q }.
End Quote.

Record SentimentData := {
  date : string;
  avgSentiment : Q;
  stockPrice : Q;
  volume : nat
}.

Module Company.
Record t := {
  symbol : string;
  name : string;
  sentiment : Q;
  industry : string
}.
End Company.

(** The fields of [CompanyProfile] the pipeline reads.  An absent string
    field and an empty one are both falsy under [||]; both are [""]. *)
Module Profile.
Record t := {
  name : string;
  ticker : string;
  finnhubIndustry : string;
  sector : string
}.
End Profile.

(** The value type of [dailyData]. *)
Module Bucket.
Record t := { sentiments : list Q; volume : nat }.
End Bucket.

(** The candle response: [t] and [c] are absent when the provider has no
    data. *)
Module Candles.
Record t := { c : option (list Q); t_ : option (list Z) }.
End Candles.

Record DateRange := { from : Z; to : Z; fromDate : Z; toDate : Z }.

(** The state the component writes. *)
Module State.
Record t := {
  newsData : list NewsItem;
  stockQuote : option Quote.t;
  sentimentData : list SentimentData;
  loading : bool;
  error : option string;
  showSearchResults : bool;
  companiesWithBetterSentiment : list Company.t;
  currentSentiment : Q;
  companyProfile : option Profile.t
}.
End State.

(** An HTTP exchange as the component sees it: the request fails (and
    [fetch] or [json] throws with the platform's message), the status is
    not ok, or a body is decoded. *)
Inductive Http (A : Type) : Type :=
| NetworkError (msg : string)
| NotOk
| Json (body : A).
Arguments NetworkError {A} msg.
Arguments NotOk {A}.
Arguments Json {A} body.

(** ** Effects: [Math.random], [throw] and the component state *)

(** What a run carries along: the number of [Math.random] draws made so
    far, and the component state as written so far. *)
Record Runtime := { draws : nat; ui : State.t }.

(** Results of a computation that may [throw]; [Diverge] marks a loop
    that did not finish within the model's step bound. *)
Inductive Result (A : Type) : Type :=
| Ok (a : A)
| Throw (msg : string)
| Diverge.
Arguments Ok {A} a.
Arguments Throw {A} msg.
Arguments Diverge {A}.

Definition M (A : Type) : Type := Runtime -> Result A * Runtime.

Definition ret {A : Type} (a : A) : M A := fun s => (Ok a, s).

Definition bind {A B : Type} (m : M A) (k : A -> M B) : M B :=
  fun s =>
    match m s with
    | (Ok a, s') => k a s'
    | (Throw msg, s') => (Throw msg, s')
    | (Diverge, s') => (Diverge, s')
    end.

Definition throw {A : Type} (msg : string) : M A := fun s => (Throw msg, s).

Definition diverge {A : Type} : M A := fun s => (Diverge, s).

Definition tryCatch {A : Type} (m : M A) (handler : string -> M A) : M A :=
  fun s =>
    match m s with
    | (Throw msg, s') => handler msg s'
    | r => r
    end.

Definition finally {A : Type} (m : M A) (f : M unit) : M A :=
  fun s =>
    match m s with
    | (r, s1) =>
        match f s1 with
        | (Ok _, s2) => (r, s2)
        | (Throw msg, s2) => (Throw msg, s2)
        | (Diverge, s2) => (Diverge, s2)
        end
    end.

Notation "x <- m ;; k" := (bind m (fun x => k))
  (at level 61, m at next level, right associativity).
Notation "m ;;; k" := (bind m (fun _ => k))
  (at level 61, right associativity).

(** [await Promise.all(l.map(f))], the calls run in list order. *)
Fixpoint mapM {A B : Type} (f : A -> M B) (l : list A) : M (list B) :=
  match l with
  | [] => ret []
  | x :: r => y <- f x ;; ys <- mapM f r ;; ret (y :: ys)
  end.

Definition setState (f : State.t -> State.t) : M unit :=
  fun s => (Ok tt, {| draws := draws s; ui := f (ui s) |}).

Definition setNewsData (v : list NewsItem) : M unit :=
  setState (fun u =>
    {| State.newsData := v;
       State.stockQuote := State.stockQuote u;
       State.sentimentData := State.sentimentData u;
       State.loading := State.loading u;
       State.error := State.error u;
       State.showSearchResults := State.showSearchResults u;
       State.companiesWithBetterSentiment :=
         State.companiesWithBetterSentiment u;
       State.currentSentiment := State.currentSentiment u;
       State.companyProfile := State.companyProfile u |}).

Definition setStockQuote (v : option Quote.t) : M unit :=
  setState (fun u =>
    {| State.newsData := State.newsData u;
       State.stockQuote := v;
       State.sentimentData := State.sentimentData u;
       State.loading := State.loading u;
       State.error := State.error u;
       State.showSearchResults := State.showSearchResults u;
       State.companiesWithBetterSentiment :=
         State.companiesWithBetterSentiment u;
       State.currentSentiment := State.currentSentiment u;
       State.companyProfile := State.companyProfile u |}).

Definition setSentimentData (v : list SentimentData) : M unit :=
  setState (fun u =>
    {| State.newsData := State.newsData u;
       State.stockQuote := State.stockQuote u;
       State.sentimentData := v;
       State.loading := State.loading u;
       State.error := State.error u;
       State.showSearchResults := State.showSearchResults u;
       State.companiesWithBetterSentiment :=
         State.companiesWithBetterSentiment u;
       State.currentSentiment := State.currentSentiment u;
       State.companyProfile := State.companyProfile u |}).

Definition setLoading (v : bool) : M unit :=
  setState (fun u =>
    {| State.newsData := State.newsData u;
       State.stockQuote := State.stockQuote u;
       State.sentimentData := State.sentimentData u;
       State.loading := v;
       State.error := State.error u;
       State.showSearchResults := State.showSearchResults u;
       State.companiesWithBetterSentiment :=
         State.companiesWithBetterSentiment u;
       State.currentSentiment := State.currentSentiment u;
       State.companyProfile := State.companyProfile u |}).

Definition setError (v : option string) : M unit :=
  setState (fun u =>
    {| State.newsData := State.newsData u;
       State.stockQuote := State.stockQuote u;
       State.sentimentData := State.sentimentData u;
       State.loading := State.loading u;
       State.error := v;
       State.showSearchResults := State.showSearchResults u;
       State.companiesWithBetterSentiment :=
         State.companiesWithBetterSentiment u;
       State.currentSentiment := State.currentSentiment u;
       State.companyProfile := State.companyProfile u |}).

Definition setShowSearchResults (v : bool) : M unit :=
  setState (fun u =>
    {| State.newsData := State.newsData u;
       State.stockQuote := State.stockQuote u;
       State.sentimentData := State.sentimentData u;
       State.loading := State.loading u;
       State.error := State.error u;
       State.showSearchResults := v;
       State.companiesWithBetterSentiment :=
         State.companiesWithBetterSentiment u;
       State.currentSentiment := State.currentSentiment u;
       State.companyProfile := State.companyProfile u |}).

Definition setCompaniesWithBetterSentiment (v : list Company.t) : M unit :=
  setState (fun u =>
    {| State.newsData := State.newsData u;
       State.stockQuote := State.stockQuote u;
       State.sentimentData := State.sentimentData u;
       State.loading := State.loading u;
       State.error := State.error u;
       State.showSearchResults := State.showSearchResults u;
       State.companiesWithBetterSentiment := v;
       State.currentSentiment := State.currentSentiment u;
       State.companyProfile := State.companyProfile u |}).

Definition setCurrentSentiment (v : Q) : M unit :=
  setState (fun u =>
    {| State.newsData := State.newsData u;
       State.stockQuote := State.stockQuote u;
       State.sentimentData := State.sentimentData u;
       State.loading := State.loading u;
       State.error := State.error u;
       State.showSearchResults := State.showSearchResults u;
       State.companiesWithBetterSentiment :=
         State.companiesWithBetterSentiment u;
       State.currentSentiment := v;
       State.companyProfile := State.companyProfile u |}).

Definition setCompanyProfile (v : option Profile.t) : M unit :=
  setState (fun u =>
    {| State.newsData := State.newsData u;
       State.stockQuote := State.stockQuote u;
       State.sentimentData := State.sentimentData u;
       State.loading := State.loading u;
       State.error := State.error u;
       State.showSearchResults := State.showSearchResults u;
       State.companiesWithBetterSentiment :=
         State.companiesWithBetterSentiment u;
       State.currentSentiment := State.currentSentiment u;
       State.companyProfile := v |}).

(** The ranges the time select offers ([TIME_RANGES]); [timeRange] starts
    at 7 and is only ever set from this list. *)
Definition TIME_RANGES : list (Z * string) :=
  [ (1, "1 Day"); (7, "7 Days"); (14, "14 Days"); (30, "30 Days") ].

(** ** The component's functions *)

Section Component.

(** The host: the clock read by [new Date()] and [Date.now()], the local
    offset, what [new Date(s)] makes of a string that is not in ISO
    format (the time value, or [None] for an invalid date: ECMA-262 leaves
    it to the implementation), and the draws of [Math.random]. *)
Variable now : Z.
Variable tzMin : Z.
Variable parseDate : string -> option Z.
Variable rng : nat -> Q.

(** The endpoints: company news by symbol and window, quote, daily
    candles by symbol and window, profile, peers, and the classifier's
    top result for a text ([None] when [result[0]?.[0]] is undefined). *)
Variable newsResponse : string -> Z -> Z -> Http (list NewsItem).
Variable quoteResponse : string -> Http Quote.t.
Variable candleResponse : string -> Z -> Z -> Http Candles.t.
Variable profileResponse : string -> Http Profile.t.
Variable peersResponse : string -> Http (list string).
Variable classifierResponse : string -> Http (option Sentiment).

(** Component state as the closures of one render read it. *)
Variable selectedStock : string.
Variable timeRange : Z.
Variable companyProfile : option Profile.t.

Definition random : M Q :=
  fun s => (Ok (rng (draws s)), {| draws := S (draws s); ui := ui s |}).

(** [a || b] on strings. *)
Definition orElse (a b : string) : string :=
  if String.eqb a "" then b else a.

Definition getDateRange (days : Z) : DateRange :=
  let to := now in
  let from := now in
  let from := setDate tzMin from (getDate tzMin from - days) in
  let from := setHours tzMin from 0 0 0 0 in
  let to := setHours tzMin to 23 59 59 999 in
  {| from := from / 1000; to := to / 1000; fromDate := from; toDate := to |}.

(** [timestamp] is in seconds. *)
Definition formatDate (timestamp : Z) : string :=
  let lt := LocalTime tzMin (timestamp * 1000) in
  monthShort (MonthFromTime lt) ++ " " ++ decimal (DateFromTime lt).

(** [toLocaleDateString()] of a date object, in the en-US form. *)
Definition toLocaleDateString (tv : option Z) : string :=
  match tv with
  | None => "Invalid Date"
  | Some tv =>
      let lt := LocalTime tzMin tv in
      decimal (MonthFromTime lt + 1) ++ "/" ++ decimal (DateFromTime lt)
        ++ "/" ++ decimal (YearFromTime lt)
  end.

Definition fetchCompanyProfile (symbol : string) : option Profile.t :=
  match profileResponse symbol with
  | Json data => Some data
  | _ => None
  end.

Definition fetchPeerCompanies (symbol : string) : list string :=
  let others := filter (fun s => negb (String.eqb s symbol)) in
  match peersResponse symbol with
  | Json data => others data
  | _ =>
      match companyProfile with
      | Some p =>
          let sector := orElse (Profile.finnhubIndustry p) (Profile.sector p) in
          if String.eqb sector "Technology"
          then others ["MSFT"; "GOOGL"; "AAPL"; "IBM"]
          else if String.eqb sector "Consumer Cyclical"
                  || String.eqb sector "Retail"
          then others ["AMZN"; "WMT"; "TGT"; "EBAY"]
          else if String.eqb sector "Automotive"
          then others ["TSLA"; "F"; "GM"; "TM"]
          else if String.eqb sector "Financial Services"
          then others ["JPM"; "BAC"; "GS"; "MS"]
          else []
      | None => []
      end
  end.

Definition fetchNews (symbol : string) (days : Z) : M (list NewsItem) :=
  let r := getDateRange days in
  match newsResponse symbol (from r) (to r) with
  | NetworkError msg => throw msg
  | NotOk => throw "Failed to fetch news"
  | Json data =>
      ret (firstn 50
             (filter (fun item => negb (String.eqb (headline item) "")) data))
  end.

Definition fetchStockQuote (symbol : string) : M Quote.t :=
  match quoteResponse symbol with
  | NetworkError msg => throw msg
  | NotOk => throw "Failed to fetch stock quote"
  | Json data => ret data
  end.

Definition fetchHistoricalData (symbol : string) (from to : Z)
  : option Candles.t :=
  match candleResponse symbol from to with
  | Json data => Some data
  | _ => None
  end.

(** [sentiments[Math.floor(r * 3)]]; an index outside the array gives
    [undefined], which no label test recognises. *)
Definition pickLabel (r : Q) : string :=
  match index ["POSITIVE"; "NEGATIVE"; "NEUTRAL"] (Qfloor (r * 3)) with
  | Some l => l
  | None => "undefined"
  end.

Definition analyzeSentiment (text : string) : M Sentiment :=
  match classifierResponse text with
  | Json topResult =>
      ret {| label :=
               match topResult with
               | Some r => orElse (label r) "NEUTRAL"
               | None => "NEUTRAL"
               end;
             score :=
               match topResult with
               | Some r => if falsy (score r) then (1 # 2)%Q else score r
               | None => (1 # 2)%Q
               end |}
  | _ =>
      r1 <- random ;;
      let label := pickLabel r1 in
      r2 <- random ;;
      ret {| label := label; score := ((1 # 2) + r2 * (1 # 2))%Q |}
  end.

(** [{ ...item, sentiment }]. *)
Definition withSentiment (item : NewsItem) (s : Sentiment) : NewsItem :=
  {| datetime := datetime item; headline := headline item;
     source := source item; url := url item; sentiment := Some s |}.

Definition scoreHeadline (item : NewsItem) : M NewsItem :=
  sentiment <- analyzeSentiment (headline item) ;;
  ret (withSentiment item sentiment).

(** The signed value of an attached sentiment (lines 254-258). *)
Definition val (s : Sentiment) : Q :=
  if String.eqb (label s) "POSITIVE" then score s
  else if String.eqb (label s) "NEGATIVE" then (- score s)%Q
  else 0%Q.

Definition emptyBucket : Bucket.t :=
  {| Bucket.sentiments := []; Bucket.volume := 0 |}.

(** The loop that creates one entry per day of the range (lines
    241-246); [fuel] bounds its iterations.  [currentDate] is a whole
    number of seconds, so [getTime() / 1000] is an exact division. *)
Fixpoint initDailyData (fuel : nat) (currentDate toDate : Z)
    (dailyData : Dict Bucket.t) : option (Dict Bucket.t) :=
  match fuel with
  | O => None
  | S fuel' =>
      if currentDate <=? toDate then
        let dateKey := formatDate (currentDate / 1000) in
        let dailyData := dict_set dailyData dateKey emptyBucket in
        initDailyData fuel'
          (setDate tzMin currentDate (getDate tzMin currentDate + 1))
          toDate dailyData
      else Some dailyData
  end.

(** The body of [news.forEach] (lines 249-261). *)
Definition addNewsItem (dailyData : Dict Bucket.t) (item : NewsItem)
  : Dict Bucket.t :=
  match sentiment item with
  | None => dailyData
  | Some s =>
      let date := formatDate (datetime item) in
      match dict_get dailyData date with
      | None => dailyData
      | Some b =>
          dict_set dailyData date
            {| Bucket.sentiments := (Bucket.sentiments b ++ [val s])%list;
               Bucket.volume := S (Bucket.volume b) |}
      end
  end.

(** The price of one row (lines 269-285). *)
Definition priceFor (historicalData : option Candles.t) (basePrice : Q)
    (date : string) : M Q :=
  match historicalData with
  | Some {| Candles.c := Some hc; Candles.t_ := Some ht |} =>
      let dateObj := parseDate date in
      match findIndex
              (fun t => String.eqb (toLocaleDateString (Some (t * 1000)))
                                   (toLocaleDateString dateObj)) ht with
      | Some index =>
          match nth_error hc index with
          | Some p => ret p
          | None => throw "Cannot read properties of undefined"
          end
      | None =>
          r <- random ;; ret (basePrice * ((95 # 100) + r * (1 # 10)))%Q
      end
  | _ =>
      r <- random ;; ret (basePrice * ((9 # 10) + r * (2 # 10)))%Q
  end.

Definition makeRow (historicalData : option Candles.t) (basePrice : Q)
    (entry : string * Bucket.t) : M SentimentData :=
  let '(date, data) := entry in
  stockPrice <- priceFor historicalData basePrice date ;;
  ret {| date := date;
         avgSentiment := average (Bucket.sentiments data);
         stockPrice := toFixed2 stockPrice;
         volume := Bucket.volume data |}.

(** The comparator of the final sort; a NaN difference counts as 0. *)
Definition compareDates (a b : SentimentData) : Q :=
  match parseDate (date a), parseDate (date b) with
  | Some ta, Some tb => inject_Z (ta - tb)
  | _, _ => 0%Q
  end.

(** A bound on the iterations of the day loop. *)
Definition dayLoopBound (r : DateRange) : nat :=
  S (Z.to_nat ((toDate r - fromDate r) / msPerDay + 1)).

Definition processSentimentData (news : list NewsItem) (quote : Quote.t)
    (days : Z) : M (list SentimentData) :=
  let r := getDateRange days in
  match initDailyData (dayLoopBound r) (fromDate r) (toDate r) [] with
  | None => diverge
  | Some dailyData =>
      let dailyData := fold_left addNewsItem news dailyData in
      let historicalData :=
        fetchHistoricalData selectedStock (from r) (to r) in
      let basePrice := Quote.c quote in
      rows <- mapM (makeRow historicalData basePrice) dailyData ;;
      ret (Array_sort compareDates rows)
  end.

(** The signed value of a scored item, as the peer loop computes it
    (lines 340-345). *)
Definition peerSentimentValue (item : NewsItem) : Q :=
  match sentiment item with
  | None => 0%Q
  | Some s =>
      if String.eqb (label s) "POSITIVE" then score s
      else if String.eqb (label s) "NEGATIVE" then (- score s)%Q
      else 0%Q
  end.

(** The body of [limitedPeers.map] (lines 318-366). *)
Definition peerSentiment (symbol : string) : M Company.t :=
  tryCatch
    (let peerProfile := fetchCompanyProfile symbol in
     let name :=
       match peerProfile with
       | Some p => orElse (Profile.name p) symbol
       | None => symbol
       end in
     let peerIndustry :=
       match peerProfile with
       | Some p =>
           orElse (orElse (Profile.finnhubIndustry p) (Profile.sector p))
                  "Unknown"
       | None => "Unknown"
       end in
     news <- fetchNews symbol 7 ;;
     if (List.length news =? 0)%nat then
       ret {| Company.symbol := symbol; Company.name := name;
              Company.sentiment := 0; Company.industry := peerIndustry |}
     else
       newsWithSentiment <- mapM scoreHeadline (firstn 8 news) ;;
       let sentiments := map peerSentimentValue newsWithSentiment in
       let avgSentiment := average sentiments in
       ret {| Company.symbol := symbol; Company.name := name;
              Company.sentiment := avgSentiment;
              Company.industry := peerIndustry |})
    (fun _ =>
       r <- random ;;
       ret {| Company.symbol := symbol; Company.name := symbol;
              Company.sentiment := (r * 2 - 1)%Q;
              Company.industry := "Unknown" |}).

(** The filter and sort of lines 369-372. *)
Definition betterSentiment (sentimentResults : list Company.t)
    (currentSentimentValue : Q) : list Company.t :=
  Array_sort
    (fun a b => (Company.sentiment b - Company.sentiment a)%Q)
    (filter (fun item => gt (Company.sentiment item) currentSentimentValue)
            sentimentResults).

(** [l.map((x, index) => f x index)]. *)
Fixpoint mapi_from {A B : Type} (f : A -> nat -> B) (i : nat) (l : list A)
  : list B :=
  match l with
  | [] => []
  | x :: r => f x i :: mapi_from f (S i) r
  end.

Definition demoIndustries : Dict (list (string * list string)) :=
  [ ("Technology",
     [ ("Microsoft Corp", ["MSFT"]); ("Alphabet Inc", ["GOOGL"]);
       ("Apple Inc", ["AAPL"]); ("Oracle Corp", ["ORCL"]) ]);
    ("Automotive",
     [ ("Tesla Inc", ["TSLA"]); ("Ford Motor Co", ["F"]);
       ("General Motors", ["GM"]); ("Toyota Motor Corp", ["TM"]) ]);
    ("Retail",
     [ ("Amazon.com Inc", ["AMZN"]); ("Walmart Inc", ["WMT"]);
       ("Target Corp", ["TGT"]); ("Costco Wholesale", ["COST"]) ]);
    ("Financial Services",
     [ ("JP Morgan Chase", ["JPM"]); ("Bank of America", ["BAC"]);
       ("Goldman Sachs", ["GS"]); ("Morgan Stanley", ["MS"]) ]) ].

Definition includes (l : list string) (x : string) : bool :=
  existsb (String.eqb x) l.

(** The demo ranking of the outer [catch] (lines 375-430). *)
Definition demoCompanies (currentSymbol : string) (currentSentimentValue : Q)
  : list Company.t :=
  let industry :=
    if includes ["AAPL"; "MSFT"; "GOOGL"] currentSymbol then "Technology"
    else if includes ["TSLA"; "F"; "GM"] currentSymbol then "Automotive"
    else if includes ["AMZN"; "WMT"] currentSymbol then "Retail"
    else if includes ["JPM"; "BAC"] currentSymbol then "Financial Services"
    else "Technology" in
  let industryCompanies :=
    match dict_get demoIndustries industry with
    | Some l => l
    | None =>
        match dict_get demoIndustries "Technology" with
        | Some l => l
        | None => []
        end
    end in
  let otherCompanies :=
    firstn 3
      (filter (fun company => negb (includes (snd company) currentSymbol))
              industryCompanies) in
  mapi_from
    (fun company index =>
       {| Company.symbol := hd "undefined" (snd company);
          Company.name := fst company;
          Company.sentiment :=
            (currentSentimentValue
             + ((3 # 10) - inject_Z (Z.of_nat index) * (5 # 100)))%Q;
          Company.industry := industry |})
    0 otherCompanies.

Definition findCompaniesBetterSentiment (currentSymbol : string)
    (currentSentimentValue : Q) : M (list Company.t) :=
  tryCatch
    (match fetchCompanyProfile currentSymbol with
     | None => throw "Could not fetch company profile"
     | Some profile =>
         setCompanyProfile (Some profile) ;;;
         let peers := fetchPeerCompanies currentSymbol in
         let limitedPeers := firstn 6 peers in
         sentimentResults <- mapM peerSentiment limitedPeers ;;
         ret (betterSentiment sentimentResults currentSentimentValue)
     end)
    (fun _ => ret (demoCompanies currentSymbol currentSentimentValue)).

(** The signed value of a scored item, as [fetchData] computes it (lines
    455-460). *)
Definition newsSentimentValue (item : NewsItem) : Q :=
  match sentiment item with
  | None => 0%Q
  | Some s =>
      if String.eqb (label s) "POSITIVE" then score s
      else if String.eqb (label s) "NEGATIVE" then (- score s)%Q
      else 0%Q
  end.

(** The current sentiment of lines 455-464. *)
Definition overallSentiment (newsWithSentiment : list NewsItem) : Q :=
  let sentiments := map newsSentimentValue newsWithSentiment in
  average sentiments.

Definition nthString (l : list string) (i : nat) : string :=
  nth i l "undefined".

(** An element of [demoNews] (lines 483-496). *)
Definition demoNewsItem (from : Z) (i : nat) : M NewsItem :=
  let dayOffset := Z.of_nat (i / 3) in
  let timeOffset := Z.of_nat (i mod 3) * 8 * 3600 in
  r1 <- random ;;
  r2 <- random ;;
  ret {| datetime := from + dayOffset * 86400 + timeOffset;
         headline :=
           selectedStock ++ " "
             ++ nthString ["rises"; "falls"; "remains stable"] (i mod 3)
             ++ " in "
             ++ nthString ["Asian"; "European"; "US"] (i mod 3)
             ++ " markets";
         source := "Demo Source";
         url := "#";
         sentiment :=
           Some {| label := pickLabel r1;
                   score := ((1 # 2) + r2 * (1 # 2))%Q |} |}.

Definition demoProfile : Profile.t :=
  {| Profile.name :=
       if String.eqb selectedStock "AAPL" then "Apple Inc" else selectedStock;
     Profile.ticker := selectedStock;
     Profile.finnhubIndustry :=
       if String.eqb selectedStock "AAPL" || String.eqb selectedStock "MSFT"
       then "Technology"
       else if String.eqb selectedStock "TSLA" then "Automotive"
       else if String.eqb selectedStock "AMZN" then "Retail"
       else "Technology";
     Profile.sector := "" |}.

(** The [catch] block of [fetchData] (lines 472-528). *)
Definition fetchDataFallback (msg : string) : M unit :=
  setError (Some msg) ;;;
  let from := from (getDateRange timeRange) in
  r <- random ;;
  let demoQuote :=
    {| Quote.c := (150 + r * 50)%Q; Quote.h := 180%Q; Quote.l := 140%Q;
       Quote.o := 155%Q; Quote.pc := 148%Q;
       Quote.t_ := (inject_Z now / 1000)%Q |} in
  demoNews <- mapM (demoNewsItem from) (seq 0 (Z.to_nat (timeRange * 3))) ;;
  setNewsData demoNews ;;;
  setStockQuote (Some demoQuote) ;;;
  demoProcessedData <- processSentimentData demoNews demoQuote timeRange ;;
  setSentimentData demoProcessedData ;;;
  let demoSentiment := (2 # 10)%Q in
  setCurrentSentiment demoSentiment ;;;
  setCompanyProfile (Some demoProfile) ;;;
  peerCompanies <- findCompaniesBetterSentiment selectedStock demoSentiment ;;
  setCompaniesWithBetterSentiment peerCompanies.

(** The [try] block of [fetchData] (lines 438-470).  Of two failing
    requests the news request reports first. *)
Definition fetchDataLive : M unit :=
  news <- fetchNews selectedStock timeRange ;;
  quote <- fetchStockQuote selectedStock ;;
  newsWithSentiment <- mapM scoreHeadline news ;;
  setStockQuote (Some quote) ;;;
  setNewsData newsWithSentiment ;;;
  processedData <- processSentimentData newsWithSentiment quote timeRange ;;
  setSentimentData processedData ;;;
  let avgSentiment := overallSentiment newsWithSentiment in
  setCurrentSentiment avgSentiment ;;;
  betterCompanies <- findCompaniesBetterSentiment selectedStock avgSentiment ;;
  setCompaniesWithBetterSentiment betterCompanies.

Definition fetchData : M unit :=
  setLoading true ;;;
  setError None ;;;
  setShowSearchResults false ;;;
  finally (tryCatch fetchDataLive fetchDataFallback) (setLoading false).

End Component.

(** The effect of lines 534-536 runs the [fetchData] of the render in
    which [selectedStock] or [timeRange] changed.  The closures of that
    render hold its state: the [companyProfile] of line 90, which
    [fetchPeerCompanies] reads at line 169, is the one the state holds
    when the run starts, and the writes of the run do not change what
    the closure holds. *)
Definition fetchDataEffect (now tzMin : Z) (parseDate : string -> option Z)
    (rng : nat -> Q)
    (newsResponse : string -> Z -> Z -> Http (list NewsItem))
    (quoteResponse : string -> Http Quote.t)
    (candleResponse : string -> Z -> Z -> Http Candles.t)
    (profileResponse : string -> Http Profile.t)
    (peersResponse : string -> Http (list string))
    (classifierResponse : string -> Http (option Sentiment))
    (selectedStock : string) (timeRange : Z) : M unit :=
  fun s =>
    fetchData now tzMin parseDate rng newsResponse quoteResponse
      candleResponse profileResponse peersResponse classifierResponse
      selectedStock timeRange (State.companyProfile (ui s)) s.

(** ** Dates under the rules of a time zone *)

(** The rules of the host's time zone, as the [Date] methods read them
    through LocalTZA of ECMA-262: the offset from UTC, in milliseconds,
    in force at a time value, and the offset by which a local time value
    is read back (where local times repeat or are skipped the
    implementation picks one). *)
Module Zone.
Record t := { atUTC : Z -> Z; atLocal : Z -> Z }.
End Zone.

(** [getDateRange] and [formatDate] once more, with the [Date] methods
    under the rules of a zone.  With a zone that keeps one offset they
    are the functions of the component above.  As there, a time value
    is an integer; the properties that need it to be one of a [Date]
    say so ([validTime]). *)
Module Zoned.

Definition LocalTime (z : Zone.t) (t : Z) : Z := t + Zone.atUTC z t.
Definition UTC (z : Zone.t) (t : Z) : Z := t - Zone.atLocal z t.

Definition getDate (z : Zone.t) (t : Z) : Z := DateFromTime (LocalTime z t).

Definition setDate (z : Zone.t) (t dt : Z) : Z :=
  let lt := LocalTime z t in
  UTC z
    (MakeDate (MakeDay (YearFromTime lt) (MonthFromTime lt) dt)
              (TimeWithinDay lt)).

Definition setHours (z : Zone.t) (t h m s ms : Z) : Z :=
  let lt := LocalTime z t in
  UTC z (MakeDate (Day lt) (MakeTime h m s ms)).

Definition getDateRange (z : Zone.t) (now days : Z) : DateRange :=
  let to := now in
  let from := now in
  let from := setDate z from (getDate z from - days) in
  let from := setHours z from 0 0 0 0 in
  let to := setHours z to 23 59 59 999 in
  {| from := from / 1000; to := to / 1000; fromDate := from; toDate := to |}.

Definition formatDate (z : Zone.t) (timestamp : Z) : string :=
  let lt := LocalTime z (timestamp * 1000) in
  monthShort (MonthFromTime lt) ++ " " ++ decimal (DateFromTime lt).

End Zoned.

(** ** The search box, the summary and the colours *)

(** [CompanySearchResult]; an absent [type] is [""]. *)
Module SearchResult.
Record t := {
  description : string;
  displaySymbol : string;
  symbol : string;
  type : string
}.
End SearchResult.

(** The whole component state: the variables the search box adds to
    those of [State.t]. *)
Module View.
Record t := {
  selectedStock : string;
  searchTerm : string;
  searchResults : list SearchResult.t;
  written : State.t
}.
End View.

Definition setSelectedStock (v : string) (w : View.t) : View.t :=
  {| View.selectedStock := v;
     View.searchTerm := View.searchTerm w;
     View.searchResults := View.searchResults w;
     View.written := View.written w |}.

Definition setSearchTerm (v : string) (w : View.t) : View.t :=
  {| View.selectedStock := View.selectedStock w;
     View.searchTerm := v;
     View.searchResults := View.searchResults w;
     View.written := View.written w |}.

Definition setSearchResults (v : list SearchResult.t) (w : View.t) : View.t :=
  {| View.selectedStock := View.selectedStock w;
     View.searchTerm := View.searchTerm w;
     View.searchResults := v;
     View.written := View.written w |}.

(** [setShowSearchResults] on the whole state. *)
Definition setShown (v : bool) (w : View.t) : View.t :=
  {| View.selectedStock := View.selectedStock w;
     View.searchTerm := View.searchTerm w;
     View.searchResults := View.searchResults w;
     View.written :=
       ui (snd (setShowSearchResults v
                  {| draws := 0; ui := View.written w |})) |}.

(** The results the [catch] of [searchCompanies] shows (lines 136-140). *)
Definition sampleResults : list SearchResult.t :=
  [ {| SearchResult.description := "Apple Inc";
       SearchResult.displaySymbol := "AAPL";
       SearchResult.symbol := "AAPL";
       SearchResult.type := "Common Stock" |};
    {| SearchResult.description := "Tesla Inc";
       SearchResult.displaySymbol := "TSLA";
       SearchResult.symbol := "TSLA";
       SearchResult.type := "Common Stock" |};
    {| SearchResult.description := "Microsoft Corporation";
       SearchResult.displaySymbol := "MSFT";
       SearchResult.symbol := "MSFT";
       SearchResult.type := "Common Stock" |} ].

Section SearchBox.

(** The host's [String.prototype.trim], and the search endpoint: the
    [result] field of the decoded body, [None] when the body has none.
    A string is the sequence of its code units, so [String.length] is
    [.length]. *)
Variable trim : string -> string.
Variable searchResponse : string -> Http (option (list SearchResult.t)).

(** A search is taken to finish before the next event is handled. *)
Definition searchCompanies (query : string) (w : View.t) : View.t :=
  if String.eqb (trim query) "" then setSearchResults [] w
  else
    match searchResponse query with
    | Json (Some result) =>
        let filteredResults :=
          firstn 10
            (filter (fun item =>
                       String.eqb (SearchResult.type item) "Common Stock")
                    result) in
        setShown true (setSearchResults filteredResults w)
    | _ => setShown true (setSearchResults sampleResults w)
    end.

Definition handleSearchInputChange (value : string) (w : View.t) : View.t :=
  let w := setSearchTerm value w in
  if (2 <=? String.length value)%nat then searchCompanies value w
  else setShown false (setSearchResults [] w).

Definition handleSelectCompany (symbol : string) (w : View.t) : View.t :=
  setShown false (setSearchTerm "" (setSelectedStock symbol w)).

Definition handleSelectBetterCompany (symbol : string) (w : View.t)
  : View.t :=
  setSelectedStock symbol w.

End SearchBox.

(** The condition under which the list of results is rendered (line 623). *)
Definition resultsRendered (w : View.t) : bool :=
  State.showSearchResults (View.written w)
  && (0 <? List.length (View.searchResults w))%nat.

Module Dist.
Record t := { positive : nat; negative : nat; neutral : nat }.
End Dist.

Module Stats.
Record t := { avgSentiment : Q; totalPosts : nat; sentimentDist : Dist.t }.
End Stats.

(** The signed value of an item, as [stats] computes it (lines 544-549). *)
Definition statsSentimentValue (item : NewsItem) : Q :=
  match sentiment item with
  | None => 0%Q
  | Some s =>
      if String.eqb (label s) "POSITIVE" then score s
      else if String.eqb (label s) "NEGATIVE" then (- score s)%Q
      else 0%Q
  end.

(** The callback of the [reduce] of lines 551-557. *)
Definition countSentiment (acc : Dist.t) (item : NewsItem) : Dist.t :=
  match sentiment item with
  | None => acc
  | Some s =>
      if String.eqb (label s) "POSITIVE" then
        {| Dist.positive := S (Dist.positive acc);
           Dist.negative := Dist.negative acc;
           Dist.neutral := Dist.neutral acc |}
      else if String.eqb (label s) "NEGATIVE" then
        {| Dist.positive := Dist.positive acc;
           Dist.negative := S (Dist.negative acc);
           Dist.neutral := Dist.neutral acc |}
      else
        {| Dist.positive := Dist.positive acc;
           Dist.negative := Dist.negative acc;
           Dist.neutral := S (Dist.neutral acc) |}
  end.

(** The memoised summary (lines 538-564), of the state of one render. *)
Definition stats (now tzMin timeRange : Z) (newsData : list NewsItem)
  : Stats.t :=
  if (List.length newsData =? 0)%nat then
    {| Stats.avgSentiment := 0; Stats.totalPosts := 0;
       Stats.sentimentDist :=
         {| Dist.positive := 0; Dist.negative := 0; Dist.neutral := 0 |} |}
  else
    let from := from (getDateRange now tzMin timeRange) in
    let filteredNews :=
      filter (fun item => from <=? datetime item) newsData in
    let sentiments := map statsSentimentValue filteredNews in
    let sentimentDist :=
      fold_left countSentiment filteredNews
        {| Dist.positive := 0; Dist.negative := 0; Dist.neutral := 0 |} in
    {| Stats.avgSentiment := average sentiments;
       Stats.totalPosts := List.length filteredNews;
       Stats.sentimentDist := sentimentDist |}.

Definition pieData (stats : Stats.t) : list (string * nat) :=
  [ ("Positive", Dist.positive (Stats.sentimentDist stats));
    ("Neutral", Dist.neutral (Stats.sentimentDist stats));
    ("Negative", Dist.negative (Stats.sentimentDist stats)) ].

Definition COLORS : list string := ["#10B981"; "#F59E0B"; "#EF4444"].

Definition sentimentColor (label : string) : string :=
  if String.eqb label "POSITIVE" then "#10B981"
  else if String.eqb label "NEGATIVE" then "#EF4444"
  else "#F59E0B".

(** [a < b] on numbers. *)
Definition lessThan (a b : Q) : bool :=
  match (a ?= b)%Q with Lt => true | _ => false end.

Definition sentimentColorValue (value : Q) : string :=
  if gt value (2 # 10) then nthString COLORS 0
  else if lessThan value (- (2 # 10)) then nthString COLORS 2
  else nthString COLORS 1.

(** The fill of the pie cell at [index] (line 735). *)
Definition cellFill (index : nat) : string := nthString COLORS index.

(** Colour and wording of the average score (lines 746-761). *)
Definition scoreColor (avgSentiment : Q) : string :=
  if gt avgSentiment (2 # 10) then nthString COLORS 0
  else if lessThan avgSentiment (- (2 # 10)) then nthString COLORS 2
  else nthString COLORS 1.

Definition scoreDescription (avgSentiment : Q) : string :=
  if gt avgSentiment (2 # 10) then "Strong Positive"
  else if gt avgSentiment 0 then "Mildly Positive"
  else if lessThan avgSentiment (- (2 # 10)) then "Strong Negative"
  else if lessThan avgSentiment 0 then "Mildly Negative"
  else "Neutral".

(** ** Vocabulary of the statements *)

(** Month and date of a local day number. *)
Definition MonthFromDay (d : Z) : Z :=
  MonthFromDayInYear (InLeapYear (YearFromDay d)) (DayWithinYear d).
Definition DateFromDay (d : Z) : Z :=
  DateFromDayInYear (InLeapYear (YearFromDay d)) (DayWithinYear d).

(** An order-preserving code of (month, date). *)
Definition mdKey (leap dwy : Z) : Z :=
  32 * MonthFromDayInYear leap dwy + DateFromDayInYear leap dwy.

(** The local day number of the clock, and the time value of local
    midnight of a day. *)
Definition today (now tzMin : Z) : Z := Day (LocalTime tzMin now).
Definition midnight (tzMin D : Z) : Z := D * msPerDay - LocalTZA tzMin.

(** The label [formatDate] gives to a local day. *)
Definition dayLabel (D : Z) : string :=
  monthShort (MonthFromDay D) ++ " " ++ decimal (DateFromDay D).

(** The days [D, D+1, ..., D+n-1]. *)
Definition dayRange (D : Z) (n : nat) : list Z :=
  map (fun i => D + Z.of_nat i) (seq 0 n).

(** The labels of the days of the range, first to last. *)
Definition windowLabels (now tzMin days : Z) : list string :=
  map dayLabel (dayRange (today now tzMin - days) (Z.to_nat (days + 1))).

(** Assigning a run of keys to an object. *)
Definition dict_set_all {V : Type} (v : V) (ks : list string) (d : Dict V)
  : Dict V :=
  fold_left (fun d k => dict_set d k v) ks d.

(** [dailyData] after both passes of [processSentimentData]. *)
Definition dailyTable (now tzMin : Z) (news : list NewsItem) (days : Z)
  : Dict Bucket.t :=
  fold_left (addNewsItem tzMin) news
    (dict_set_all emptyBucket (windowLabels now tzMin days) []).

(** The signed values the news items contribute to the day labelled
    [key], in the order of the items. *)
Definition contributions (tzMin : Z) (news : list NewsItem) (key : string)
  : list Q :=
  flat_map
    (fun item =>
       match sentiment item with
       | Some s =>
           if String.eqb (formatDate tzMin (datetime item)) key
           then [val s] else []
       | None => []
       end) news.

(** Candles that have a closing price for each of their timestamps. *)
Definition histAligned (hist : option Candles.t) : Prop :=
  match hist with
  | Some {| Candles.c := Some hc; Candles.t_ := Some ht |} =>
      (List.length ht <= List.length hc)%nat
  | _ => True
  end.

Definition candlesAligned (r : Http Candles.t) : Prop :=
  match r with
  | Json data => histAligned (Some data)
  | _ => True
  end.

(** The arithmetic mean of a list of rationals. *)
Definition arithmeticMean (l : list Q) : Q :=
  (fold_right Qplus 0 l / inject_Z (Z.of_nat (List.length l)))%Q.

(** The signed values of the scored items of a list, in order. *)
Definition scoredValues (news : list NewsItem) : list Q :=
  flat_map
    (fun item =>
       match sentiment item with
       | Some s => [val s]
       | None => []
       end) news.

(** The order the specification asks of a ranking: sentiment descending,
    equal sentiments by symbol ascending. *)
Definition rankedBefore (a b : Company.t) : Prop :=
  (Company.sentiment b < Company.sentiment a)%Q \/
  ((Company.sentiment a == Company.sentiment b)%Q /\
   (Company.symbol a ?= Company.symbol b)%string <> Gt).

(** Sentiment descending, and nothing more. *)
Definition sentimentDescending (a b : Company.t) : Prop :=
  (Company.sentiment b <= Company.sentiment a)%Q.

(** The comparator of the ranking sort (line 372). *)
Definition bySentiment (a b : Company.t) : Q :=
  (Company.sentiment b - Company.sentiment a)%Q.

(** Candidates whose sentiment equals [v]. *)
Definition hasSentiment (v : Q) (item : Company.t) : bool :=
  Qeq_bool (Company.sentiment item) v.

Definition sampleCompany (symbol : string) (sentiment : Q) : Company.t :=
  {| Company.symbol := symbol; Company.name := symbol;
     Company.sentiment := sentiment; Company.industry := "Technology" |}.

(** A computation that leaves the component state as it found it. *)
Definition keepsUI {A : Type} (m : M A) : Prop :=
  forall s, ui (snd (m s)) = ui s.

(** Weakest precondition of a computation: from [s] it neither diverges
    nor gets stuck, a returned value and state satisfy [Q], and a thrown
    message and state satisfy [E]. *)
Definition wp {A : Type} (m : M A) (Q : A -> Runtime -> Prop)
    (E : string -> Runtime -> Prop) (s : Runtime) : Prop :=
  match m s with
  | (Ok a, s') => Q a s'
  | (Throw msg, s') => E msg s'
  | (Diverge, _) => False
  end.

(** The exceptional postcondition of a computation that does not throw. *)
Definition noThrow (msg : string) (s : Runtime) : Prop := False.

(** One more draw made, the component state untouched. *)
Definition drawn (s : Runtime) : Runtime :=
  {| draws := S (draws s); ui := ui s |}.

(** The component state replaced. *)
Definition withUI (f : State.t -> State.t) (s : Runtime) : Runtime :=
  {| draws := draws s; ui := f (ui s) |}.

(** Two component states with the same error flag, daily series, scored
    news and overall sentiment. *)
Definition sameSeries (u u' : State.t) : Prop :=
  State.error u' = State.error u /\
  State.sentimentData u' = State.sentimentData u /\
  State.newsData u' = State.newsData u /\
  State.currentSentiment u' = State.currentSentiment u.

(** What a run may change in a row: everything but the price. *)
Definition rowKey (r : SentimentData) : string * Q * nat :=
  (date r, avgSentiment r, volume r).

Definition entryKey (e : string * Bucket.t) : string * Q * nat :=
  (fst e, average (Bucket.sentiments (snd e)), Bucket.volume (snd e)).

Definition compareKeys (parseDate : string -> option Z)
    (a b : string * Q * nat) : Q :=
  match parseDate (fst (fst a)), parseDate (fst (fst b)) with
  | Some ta, Some tb => inject_Z (ta - tb)
  | _, _ => 0%Q
  end.

(** Date, mean and volume of the rows of a series, in its order. *)
Definition seriesKeys (now tzMin : Z) (parseDate : string -> option Z)
    (news : list NewsItem) (days : Z) : list (string * Q * nat) :=
  Array_sort (compareKeys parseDate)
    (map entryKey (dailyTable now tzMin news days)).

(** A computation whose result and effect on the component state do not
    depend on the draws of [Math.random], and which makes none. *)
Definition rngFree {A : Type} (m : (nat -> Q) -> M A) : Prop :=
  exists a f, forall rng s, m rng s = (Ok a, withUI f s).

(** What [analyzeSentiment] makes of a decoded top result. *)
Definition classified (topResult : option Sentiment) : Sentiment :=
  {| label :=
       match topResult with
       | Some r => orElse (label r) "NEUTRAL"
       | None => "NEUTRAL"
       end;
     score :=
       match topResult with
       | Some r => if falsy (score r) then (1 # 2)%Q else score r
       | None => (1 # 2)%Q
       end |}.

(** The sentiment [analyzeSentiment] fabricates from two draws when the
    classifier call fails. *)
Definition fabricated (r1 r2 : Q) : Sentiment :=
  {| label := pickLabel r1; score := ((1 # 2) + r2 * (1 # 2))%Q |}.

(** The entry of a peer whose news request failed, from one draw. *)
Definition placeholder (symbol : string) (r : Q) : Company.t :=
  {| Company.symbol := symbol; Company.name := symbol;
     Company.sentiment := (r * 2 - 1)%Q; Company.industry := "Unknown" |}.

(** [item] with a sentiment attached. *)
Definition scoredFrom (item scoredItem : NewsItem) : Prop :=
  datetime scoredItem = datetime item /\
  headline scoredItem = headline item /\
  source scoredItem = source item /\
  url scoredItem = url item /\
  sentiment scoredItem <> None.

(** Both top-level requests of [fetchData] are served. *)
Definition topLevelServed
    (newsResponse : string -> Z -> Z -> Http (list NewsItem))
    (quoteResponse : string -> Http Quote.t)
    (selectedStock : string) (r : DateRange) : Prop :=
  (exists body, newsResponse selectedStock (from r) (to r) = Json body) /\
  (exists body, quoteResponse selectedStock = Json body).

(** A computation that returns or throws from every state. *)
Definition settles {A : Type} (m : M A) : Prop :=
  forall s, fst (m s) <> Diverge.

(** The ranking of [symbol] does not come to the fallback lists of
    [fetchPeerCompanies], which are chosen from [companyProfile]: the
    profile request is not served, so that the demo ranking is returned,
    or the peers request is served. *)
Definition fallbackPeersUnused (profileResponse : string -> Http Profile.t)
    (peersResponse : string -> Http (list string)) (symbol : string) : Prop :=
  (forall body, profileResponse symbol <> Json body) \/
  (exists body, peersResponse symbol = Json body).

(** A host that reads a label without a year as a day of 2001, which is
    what V8 and SpiderMonkey make of the labels of [formatDate]. *)
Definition monthOfName (s : string) : option Z :=
  option_map Z.of_nat
    (findIndex (fun m => String.eqb (monthShort (Z.of_nat m)) s) (seq 0 12)).

Definition parseDate2001 (tzMin : Z) (s : string) : option Z :=
  match s with
  | String a (String b (String c (String " "%char rest))) =>
      match monthOfName (String a (String b (String c ""))),
            NilZero.uint_of_string rest with
      | Some m, Some d =>
          Some (UTC tzMin (MakeDate (MakeDay 2001 m (Z.of_uint d)) 0))
      | _, _ => None
      end
  | _ => None
  end.

(** Sample values for the closed instances: noon UTC of 3 November 2026,
    an empty component state, a quote, and a stream of draws. *)
Definition sampleNow : Z := 1793707200000.

Definition sampleState : State.t :=
  {| State.newsData := []; State.stockQuote := None;
     State.sentimentData := []; State.loading := false;
     State.error := None; State.showSearchResults := false;
     State.companiesWithBetterSentiment := []; State.currentSentiment := 0;
     State.companyProfile := None |}.

Definition sampleRuntime : Runtime := {| draws := 0; ui := sampleState |}.

Definition sampleQuote : Quote.t :=
  {| Quote.c := 100; Quote.h := 101; Quote.l := 99; Quote.o := 100;
     Quote.pc := 100; Quote.t_ := 1793707200 |}.

Definition sampleRng (n : nat) : Q := (Z.of_nat (n mod 7) # 7)%Q.

(** Two scored items at noon of 1 November 2026. *)
Definition sampleNegative : Sentiment :=
  {| label := "NEGATIVE"; score := 6 # 10 |}.

Definition sampleScored : NewsItem :=
  {| datetime := 1793534460; headline := "Outlook cut"; source := "wire";
     url := "#2"; sentiment := Some sampleNegative |}.

Definition sampleNews : list NewsItem :=
  [ {| datetime := 1793534400; headline := "Shares climb"; source := "wire";
       url := "#1";
       sentiment := Some {| label := "POSITIVE"; score := 8 # 10 |} |};
    sampleScored ].

(** A profile of AAPL as the profile endpoint serves it. *)
Definition sampleProfile : Profile.t :=
  {| Profile.name := "Apple Inc"; Profile.ticker := "AAPL";
     Profile.finnhubIndustry := "Technology"; Profile.sector := "" |}.

(** A classifier that is always served, and daily candles for Monday 2
    and Tuesday 3 November 2026. *)
Definition sampleClassifier (text : string) : Http (option Sentiment) :=
  Json (Some {| label := "POSITIVE"; score := 8 # 10 |}).

Definition sampleCandles : Candles.t :=
  {| Candles.c := Some [100; 101]%Q;
     Candles.t_ := Some [1793577600; 1793664000] |}.

(** A state as an earlier refresh may have left it, with the profile of
    AAPL, a stale error and five draws made. *)
Definition sampleLaterState : State.t :=
  {| State.newsData := sampleNews; State.stockQuote := Some sampleQuote;
     State.sentimentData := []; State.loading := false;
     State.error := Some "stale"; State.showSearchResults := true;
     State.companiesWithBetterSentiment := []; State.currentSentiment := 1;
     State.companyProfile := Some sampleProfile |}.

Definition sampleLaterRuntime : Runtime :=
  {| draws := 5; ui := sampleLaterState |}.

(** A news endpoint with no news of AAPL and the sample news of every
    other company. *)
Definition samplePeerNews (symbol : string) (from to : Z)
  : Http (list NewsItem) :=
  Json (if String.eqb symbol "AAPL" then [] else sampleNews).

(** *** Vocabulary of the further properties *)

(** The local day a timestamp in seconds falls on. *)
Definition localDay (tzMin timestamp : Z) : Z :=
  Day (LocalTime tzMin (timestamp * 1000)).

(** The time values a [Date] can hold (TimeClip): at most 8.64e15
    milliseconds either side of the epoch.  Beyond them [new Date(t)] is
    an invalid date. *)
Definition validTime (t : Z) : Prop := Z.abs t <= 8640000000000000.

(** The zone keeps the offset of [tzMin] minutes over the time values
    from [lo] to [hi], read either way. *)
Definition keepsOffset (z : Zone.t) (tzMin lo hi : Z) : Prop :=
  forall t, lo <= t <= hi ->
    Zone.atUTC z t = LocalTZA tzMin /\
    Zone.atLocal z (t + LocalTZA tzMin) = LocalTZA tzMin.

(** The local day of a zone a timestamp in seconds falls on. *)
Definition zonedDay (z : Zone.t) (timestamp : Z) : Z :=
  Day (Zoned.LocalTime z (timestamp * 1000)).

(** America/New_York from March 2026 to March 2028: four hours behind
    UTC until 1 November 2026, 06:00 UTC, five until 14 March 2027,
    07:00 UTC, four until 7 November 2027, 06:00 UTC, then five.  A
    local time that occurs twice is read as the earlier one, a skipped
    one with the offset before the change. *)
Definition sampleZone : Zone.t :=
  {| Zone.atUTC := fun t =>
       if t <? 1793512800000 then -14400000
       else if t <? 1805007600000 then -18000000
       else if t <? 1825567200000 then -14400000
       else -18000000;
     Zone.atLocal := fun lt =>
       if lt <? 1793498400000 then -14400000
       else if lt <? 1804993200000 then -18000000
       else if lt <? 1825552800000 then -14400000
       else -18000000 |}.

(** [l] is [m] with some elements left out. *)
Inductive Subseq {A : Type} : list A -> list A -> Prop :=
| Subseq_nil : Subseq [] []
| Subseq_skip (x : A) (l m : list A) : Subseq l m -> Subseq l (x :: m)
| Subseq_take (x : A) (l m : list A) : Subseq l m -> Subseq (x :: l) (x :: m).

(** A number of the closed interval from -1 to 1. *)
Definition signedUnit (x : Q) : Prop := (- (1) <= x <= 1)%Q.

(** What holds of every ranking [findCompaniesBetterSentiment] returns. *)
Definition rankingSound (currentSymbol : string) (baseline : Q)
    (ranking : list Company.t) : Prop :=
  (List.length ranking <= 6)%nat /\
  Forall (fun c => (baseline < Company.sentiment c)%Q) ranking /\
  StronglySorted sentimentDescending ranking /\
  ~ In currentSymbol (map Company.symbol ranking).

(** A comparator that subtracts integer keys. *)
Definition byKey {A : Type} (key : A -> Z) (a b : A) : Q :=
  inject_Z (key a - key b).

(** The time the host reads from the date of a row, 0 when it reads
    none. *)
Definition parsedTime (parseDate : string -> option Z) (r : SentimentData)
  : Z :=
  match parseDate (date r) with
  | Some t => t
  | None => 0
  end.

(** The host does not read [k1] as a later time than [k2]. *)
Definition inOrder (parseDate : string -> option Z) (k1 k2 : string) : Prop :=
  match parseDate k1, parseDate k2 with
  | Some t1, Some t2 => t1 <= t2
  | _, _ => True
  end.

(** An item [processSentimentData] files under a day of the range. *)
Definition counted (now tzMin days : Z) (item : NewsItem) : bool :=
  match sentiment item with
  | Some _ =>
      existsb (String.eqb (formatDate tzMin (datetime item)))
              (windowLabels now tzMin days)
  | None => false
  end.

(** [p] is a closing price of the candles. *)
Definition histClose (hist : option Candles.t) (p : Q) : Prop :=
  match hist with
  | Some {| Candles.c := Some hc; Candles.t_ := _ |} => In p hc
  | _ => False
  end.

(** The price of a row is a closing price of the candles served for the
    range, rounded, or lies within a tenth of the base price, up to the
    rounding. *)
Definition priceExplained
    (candleResponse : string -> Z -> Z -> Http Candles.t)
    (selectedStock : string) (r : DateRange) (basePrice : Q)
    (row : SentimentData) : Prop :=
  (exists p,
     histClose (fetchHistoricalData candleResponse selectedStock
                  (from r) (to r)) p /\
     stockPrice row = toFixed2 p) \/
  ((9 # 10) * basePrice - (1 # 200) <= stockPrice row
   <= (11 # 10) * basePrice + (1 # 200))%Q.

(** News whose scores lie between 0 and 1. *)
Definition unitScores (news : list NewsItem) : Prop :=
  Forall (fun item =>
            forall s, sentiment item = Some s -> (0 <= score s <= 1)%Q) news.

(** Two component states that differ in the company profile at most. *)
Definition onlyProfile (u u' : State.t) : Prop :=
  State.newsData u' = State.newsData u /\
  State.stockQuote u' = State.stockQuote u /\
  State.sentimentData u' = State.sentimentData u /\
  State.loading u' = State.loading u /\
  State.error u' = State.error u /\
  State.showSearchResults u' = State.showSearchResults u /\
  State.companiesWithBetterSentiment u'
  = State.companiesWithBetterSentiment u /\
  State.currentSentiment u' = State.currentSentiment u.

(** The refresh is over and the list of search results is closed. *)
Definition idle (s : Runtime) : Prop :=
  State.loading (ui s) = false /\ State.showSearchResults (ui s) = false.

(** A news item as the fallback of [fetchData] makes them: scored, with
    a label of the closed set and a score in [0.5, 1), and dated inside
    the range, before local midnight of today. *)
Definition synthetic (r : DateRange) (timeRange : Z) (item : NewsItem)
  : Prop :=
  from r <= datetime item < from r + timeRange * 86400 /\
  exists sv,
    sentiment item = Some sv /\
    ((1 # 2) <= score sv < 1)%Q /\
    (label sv = "POSITIVE" \/ label sv = "NEGATIVE" \/ label sv = "NEUTRAL").

(** The items the summary looks at: those dated at or after the start of
    the range. *)
Definition inRange (now tzMin timeRange : Z) (item : NewsItem) : bool :=
  from (getDateRange now tzMin timeRange) <=? datetime item.

Definition scored (item : NewsItem) : bool :=
  match sentiment item with
  | Some _ => true
  | None => false
  end.

(** The number of items a distribution counts. *)
Definition distTotal (d : Dist.t) : nat :=
  (Dist.positive d + Dist.negative d + Dist.neutral d)%nat.

(** The index of the pie slice that counts a label. *)
Definition sliceOf (label : string) : nat :=
  if String.eqb label "POSITIVE" then 0%nat
  else if String.eqb label "NEGATIVE" then 2%nat
  else 1%nat.

(** The pie data of a distribution. *)
Definition slices (d : Dist.t) : list nat :=
  map snd
    (pieData {| Stats.avgSentiment := 0; Stats.totalPosts := 0;
                Stats.sentimentDist := d |}).

(** The [i]-th item of the synthetic news: dated [i / 3] days and
    [i mod 3] times eight hours after the start of the range, with a
    sentiment made of two draws. *)
Definition syntheticAt (r : DateRange) (i : nat) (item : NewsItem) : Prop :=
  datetime item
  = from r + Z.of_nat (i / 3) * 86400 + Z.of_nat (i mod 3) * 8 * 3600 /\
  exists sv,
    sentiment item = Some sv /\
    ((1 # 2) <= score sv < 1)%Q /\
    (label sv = "POSITIVE" \/ label sv = "NEGATIVE" \/ label sv = "NEUTRAL").

(** Row [r] is the row of the [j]-th day of a range of [n] days back and
    holds three items, or none when the day is today. *)
Definition syntheticRow (now tzMin : Z) (n : nat) (r : SentimentData)
  : Prop :=
  exists j,
    (j <= n)%nat /\
    date r = dayLabel (today now tzMin - Z.of_nat n + Z.of_nat j) /\
    volume r = (if (j <? n)%nat then 3 else 0)%nat.

(** Results the search box may list: at most ten, all common stock. *)
Definition listable (results : list SearchResult.t) : Prop :=
  (List.length results <= 10)%nat /\
  Forall (fun item => SearchResult.type item = "Common Stock") results.

(** Two component states that differ in the flag of the search list at
    most. *)
Definition onlyShown (u u' : State.t) : Prop :=
  State.newsData u' = State.newsData u /\
  State.stockQuote u' = State.stockQuote u /\
  State.sentimentData u' = State.sentimentData u /\
  State.loading u' = State.loading u /\
  State.error u' = State.error u /\
  State.companiesWithBetterSentiment u'
  = State.companiesWithBetterSentiment u /\
  State.currentSentiment u' = State.currentSentiment u /\
  State.companyProfile u' = State.companyProfile u.

(** What the user does to the search box and the ranking. *)
Inductive Event : Type :=
| Typed (value : string)
| Picked (symbol : string)
| PickedBetter (symbol : string).

Definition handle (trim : string -> string)
    (searchResponse : string -> Http (option (list SearchResult.t)))
    (w : View.t) (e : Event) : View.t :=
  match e with
  | Typed value => handleSearchInputChange trim searchResponse value w
  | Picked symbol => handleSelectCompany symbol w
  | PickedBetter symbol => handleSelectBetterCompany symbol w
  end.

(** The symbol picked last, [initial] when none was. *)
Definition lastPick (events : list Event) (initial : string) : string :=
  fold_left
    (fun current e =>
       match e with
       | Typed _ => current
       | Picked symbol => symbol
       | PickedBetter symbol => symbol
       end) events initial.

Definition sampleView : View.t :=
  {| View.selectedStock := "AAPL"; View.searchTerm := "";
     View.searchResults := []; View.written := sampleState |}.

(** Whether a string holds a slash. *)
Fixpoint hasSlash (s : string) : bool :=
  match s with
  | EmptyString => false
  | String c r => Ascii.eqb c "/" || hasSlash r
  end.

(** The position of the first candle on the local day the host reads
    from a label; none when it reads no date. *)
Definition candleOfDay (tzMin : Z) (parseDate : string -> option Z)
    (ht : list Z) (date : string) : option nat :=
  match parseDate date with
  | Some tv =>
      findIndex (fun t => localDay tzMin t =? Day (LocalTime tzMin tv)) ht
  | None => None
  end.

(** The state variables of [State.t]. *)
Inductive Field : Type :=
| NewsData
| StockQuote
| SentimentSeries
| Loading
| Error
| ShowSearchResults
| Companies
| CurrentSentiment
| CompanyProfile.

(** Two component states hold the same value in a variable. *)
Definition agree (X : Field) (u1 u2 : State.t) : Prop :=
  match X with
  | NewsData => State.newsData u1 = State.newsData u2
  | StockQuote => State.stockQuote u1 = State.stockQuote u2
  | SentimentSeries => State.sentimentData u1 = State.sentimentData u2
  | Loading => State.loading u1 = State.loading u2
  | Error => State.error u1 = State.error u2
  | ShowSearchResults =>
      State.showSearchResults u1 = State.showSearchResults u2
  | Companies =>
      State.companiesWithBetterSentiment u1
      = State.companiesWithBetterSentiment u2
  | CurrentSentiment => State.currentSentiment u1 = State.currentSentiment u2
  | CompanyProfile => State.companyProfile u1 = State.companyProfile u2
  end.

(** A computation that does not read the component state (what it reads
    through a closure is a parameter of it).  From two states with the
    same number of draws made it gives the same result
    and makes the same draws; the states it leaves agree on every
    variable the two agreed on, and, when it returns, on the variables of
    [W], which it overwrites. *)
Definition overwrites {A : Type} (m : M A) (W : Field -> Prop) : Prop :=
  forall s1 s2,
    draws s1 = draws s2 ->
    fst (m s1) = fst (m s2) /\
    draws (snd (m s1)) = draws (snd (m s2)) /\
    forall X,
      agree X (ui s1) (ui s2) \/ (W X /\ exists a, fst (m s1) = Ok a) ->
      agree X (ui (snd (m s1))) (ui (snd (m s2))).

Definition noField (X : Field) : Prop := False.

(** The variables both paths of the refresh overwrite. *)
Definition refreshed (X : Field) : Prop :=
  X = NewsData \/ X = StockQuote \/ X = SentimentSeries \/
  X = CurrentSentiment \/ X = Companies.

(** The message a request that is not served throws: the platform's own
    on a network failure, [thrown] on a status that is not ok. *)
Definition failsWith {A : Type} (r : Http A) (thrown message : string)
  : Prop :=
  match r with
  | NetworkError msg => message = msg
  | NotOk => message = thrown
  | Json _ => False
  end.

Ltac setter_agrees :=
  intros X u1 u2 [P|P];
  [destruct X; cbn in *; auto
  |try contradiction; try (subst X; reflexivity);
   destruct X; cbn in *; try discriminate P; auto].

Ltac split_months :=
  unfold mdKey, DateFromDayInYear, MonthFromDayInYear;
  repeat match goal with
         | |- context [?x <? ?y] => destruct (Z.ltb_spec x y)
         end;
  cbn [monthStart]; lia.

(** ** Calendar facts *)

Section CalendarFacts.

Lemma DayFromYear_succ (y : Z) :
  DayFromYear (y + 1) = DayFromYear y + DaysInYear y.
Proof.
  unfold DayFromYear, DaysInYear.
  destruct (Z.eqb_spec (y mod 4) 0) as [E4|E4];
  destruct (Z.eqb_spec (y mod 100) 0) as [E100|E100];
  destruct (Z.eqb_spec (y mod 400) 0) as [E400|E400]; cbn [negb];
  Z.div_mod_to_equations; lia.
Qed.

Lemma DaysInYear_range (y : Z) : DaysInYear y = 365 \/ DaysInYear y = 366.
Proof.
  unfold DaysInYear.
  destruct (negb (y mod 4 =? 0)); auto.
  destruct (negb (y mod 100 =? 0)); auto.
  destruct (negb (y mod 400 =? 0)); auto.
Qed.

Lemma InLeapYear_DaysInYear (y : Z) : DaysInYear y = 365 + InLeapYear y.
Proof.
  unfold InLeapYear.
  destruct (DaysInYear_range y) as [E|E]; rewrite E; reflexivity.
Qed.

(** The executable [YearFromDay] meets the specification of
    YearFromTime. *)
Lemma YearFromDay_spec (d : Z) :
  DayFromYear (YearFromDay d) <= d < DayFromYear (YearFromDay d + 1).
Proof.
  unfold YearFromDay.
  set (y0 := 1970 + (400 * d) / 146097).
  assert (Hlo : DayFromYear (y0 - 1) <= d).
  { unfold DayFromYear, y0. Z.div_mod_to_equations. lia. }
  assert (Hhi : d < DayFromYear (y0 + 1 + 1)).
  { unfold DayFromYear, y0. Z.div_mod_to_equations. lia. }
  destruct (Z.ltb_spec d (DayFromYear y0)).
  - replace (y0 - 1 + 1) with y0 by lia. lia.
  - destruct (Z.leb_spec (DayFromYear (y0 + 1)) d); lia.
Qed.

Lemma DayFromYear_mono (y k : Z) :
  0 <= k -> DayFromYear y + 365 * k <= DayFromYear (y + k).
Proof.
  intros Hk. revert k Hk.
  apply (natlike_ind (fun k => DayFromYear y + 365 * k <= DayFromYear (y + k))).
  - cbv beta. replace (y + 0) with y by lia. lia.
  - intros k Hk IH. cbv beta in *.
    replace (y + Z.succ k) with (y + k + 1) by lia.
    rewrite DayFromYear_succ.
    destruct (DaysInYear_range (y + k)); lia.
Qed.

(** Two days less than a year apart lie in the same or in consecutive
    years. *)
Lemma YearFromDay_window (d1 d2 : Z) :
  d1 < d2 <= d1 + 364 ->
  YearFromDay d2 = YearFromDay d1 \/ YearFromDay d2 = YearFromDay d1 + 1.
Proof.
  intros H.
  pose proof (YearFromDay_spec d1) as H1.
  pose proof (YearFromDay_spec d2) as H2.
  set (y1 := YearFromDay d1) in *. set (y2 := YearFromDay d2) in *.
  destruct (Z_lt_le_dec y2 y1) as [Hlt|Hge].
  - pose proof (DayFromYear_mono (y2 + 1) (y1 - (y2 + 1)) ltac:(lia)) as M.
    replace (y2 + 1 + (y1 - (y2 + 1))) with y1 in M by lia. lia.
  - destruct (Z_lt_le_dec (y1 + 1) y2) as [Hgt|Hle]; [|lia].
    pose proof (DayFromYear_mono (y1 + 1) (y2 - (y1 + 1)) ltac:(lia)) as M.
    replace (y1 + 1 + (y2 - (y1 + 1))) with y2 in M by lia.
    pose proof (DayFromYear_succ y1). destruct (DaysInYear_range y1); lia.
Qed.

Lemma mdKey_mono (leap a b : Z) :
  (leap = 0 \/ leap = 1) -> 0 <= a < b -> b < 365 + leap ->
  mdKey leap a < mdKey leap b.
Proof. intros [->| ->] Ha Hb; split_months. Qed.

Lemma mdKey_next_year (l1 l2 a b : Z) :
  (l1 = 0 \/ l1 = 1) -> (l2 = 0 \/ l2 = 1) ->
  0 <= b <= a - 1 - l1 -> a < 365 + l1 ->
  mdKey l2 b < mdKey l1 a.
Proof. intros [->| ->] [->| ->] Hb Ha; split_months. Qed.

Lemma InLeapYear_range (y : Z) : InLeapYear y = 0 \/ InLeapYear y = 1.
Proof. unfold InLeapYear. destruct (DaysInYear y =? 366); auto. Qed.

Lemma DayWithinYear_range (d : Z) :
  0 <= DayWithinYear d < 365 + InLeapYear (YearFromDay d).
Proof.
  unfold DayWithinYear. pose proof (YearFromDay_spec d) as H.
  rewrite DayFromYear_succ, InLeapYear_DaysInYear in H. lia.
Qed.

Lemma MonthFromDay_range (d : Z) : 0 <= MonthFromDay d <= 11.
Proof.
  unfold MonthFromDay.
  generalize (InLeapYear (YearFromDay d)) (DayWithinYear d). intros l w.
  unfold MonthFromDayInYear.
  repeat match goal with
         | |- context [?x <? ?y] => destruct (x <? y)
         end; lia.
Qed.

Lemma DateFromDay_range (d : Z) : 1 <= DateFromDay d <= 31.
Proof.
  unfold DateFromDay.
  pose proof (DayWithinYear_range d) as H.
  destruct (InLeapYear_range (YearFromDay d)) as [E|E]; rewrite E in *;
    revert H; generalize (DayWithinYear d); intros w H; split_months.
Qed.

(** Within any 365 consecutive days no (month, date) pair repeats. *)
Lemma month_date_window (d1 d2 : Z) :
  d1 < d2 <= d1 + 364 ->
  (MonthFromDay d1, DateFromDay d1) <> (MonthFromDay d2, DateFromDay d2).
Proof.
  intros H E.
  assert (K : mdKey (InLeapYear (YearFromDay d1)) (DayWithinYear d1)
            = mdKey (InLeapYear (YearFromDay d2)) (DayWithinYear d2)).
  { unfold MonthFromDay, DateFromDay in E. unfold mdKey. congruence. }
  pose proof (DayWithinYear_range d1) as R1.
  pose proof (DayWithinYear_range d2) as R2.
  pose proof (InLeapYear_range (YearFromDay d1)) as L1.
  pose proof (InLeapYear_range (YearFromDay d2)) as L2.
  destruct (YearFromDay_window d1 d2 H) as [Y|Y].
  - rewrite Y in *.
    assert (DayWithinYear d1 < DayWithinYear d2).
    { unfold DayWithinYear. rewrite Y. lia. }
    pose proof (mdKey_mono _ _ _ L1 (conj (proj1 R1) H0) (proj2 R2)). lia.
  - assert (DayWithinYear d2
            <= DayWithinYear d1 - 1 - InLeapYear (YearFromDay d1)).
    { unfold DayWithinYear. rewrite Y, DayFromYear_succ, InLeapYear_DaysInYear.
      lia. }
    pose proof (mdKey_next_year _ _ _ _ L1 L2 (conj (proj1 R2) H0) (proj2 R1)).
    lia.
Qed.

End CalendarFacts.

(** The day arithmetic on known dates: the epoch, a leap day, the last
    day of a leap year, a day before the epoch, and the sample clock. *)
Example calendar_epoch :
  (YearFromDay 0, MonthFromDay 0, DateFromDay 0) = (1970, 0, 1).
Proof. reflexivity. Qed.

Example calendar_leap_day :
  (YearFromDay 19782, MonthFromDay 19782, DateFromDay 19782) = (2024, 1, 29).
Proof. reflexivity. Qed.

Example calendar_last_day_of_leap_year :
  (YearFromDay 20088, MonthFromDay 20088, DateFromDay 20088) = (2024, 11, 31).
Proof. reflexivity. Qed.

Example calendar_before_epoch :
  (YearFromDay (-1), MonthFromDay (-1), DateFromDay (-1)) = (1969, 11, 31).
Proof. reflexivity. Qed.

Example calendar_century :
  (YearFromDay 11016, MonthFromDay 11016, DateFromDay 11016) = (2000, 1, 29)
  /\ DaysInYear 1900 = 365 /\ DaysInYear 2000 = 366.
Proof. repeat split; reflexivity. Qed.

Example formatDate_sample_clock :
  formatDate 0 (sampleNow / 1000) = "Nov 3"
  /\ formatDate (-300) 1793505600 = "Oct 31"
  /\ toLocaleDateString 0 (Some sampleNow) = "11/3/2026"
  /\ parseDate2001 0 "Nov 3" = Some 1004745600000.
Proof. repeat split; reflexivity. Qed.

(** ** Facts about dates and the date range *)

Section DateRangeFacts.

Variable now : Z.
Variable tzMin : Z.

Lemma formatDate_dayLabel (timestamp : Z) :
  formatDate tzMin timestamp
  = dayLabel (Day (LocalTime tzMin (timestamp * 1000))).
Proof. reflexivity. Qed.

Lemma Day_shift (t k : Z) : Day (t + k * msPerDay) = Day t + k.
Proof. unfold Day, msPerDay. Z.div_mod_to_equations. lia. Qed.

Lemma TimeWithinDay_shift (t k : Z) :
  TimeWithinDay (t + k * msPerDay) = TimeWithinDay t.
Proof. unfold TimeWithinDay, msPerDay. Z.div_mod_to_equations. lia. Qed.

Lemma Day_TimeWithinDay (t : Z) : Day t * msPerDay + TimeWithinDay t = t.
Proof. unfold Day, TimeWithinDay, msPerDay. Z.div_mod_to_equations. lia. Qed.

(** [d.setDate(d.getDate() + k)] moves a date by [k] whole days. *)
Lemma setDate_getDate (t k : Z) :
  setDate tzMin t (getDate tzMin t + k) = t + k * msPerDay.
Proof.
  unfold setDate, getDate, UTC, MakeDate, MakeDay.
  set (lt := LocalTime tzMin t).
  unfold MonthFromTime, DateFromTime, DateFromDayInYear, YearFromTime,
    DayWithinYear.
  pose proof (Day_TimeWithinDay lt) as E.
  unfold lt, LocalTime in *. lia.
Qed.

Lemma Day_midnight (D : Z) : Day (LocalTime tzMin (midnight tzMin D)) = D.
Proof.
  unfold LocalTime, midnight, Day, msPerDay. Z.div_mod_to_equations. lia.
Qed.

Lemma midnight_seconds (D : Z) :
  midnight tzMin D / 1000 * 1000 = midnight tzMin D.
Proof.
  unfold midnight, LocalTZA, msPerDay. Z.div_mod_to_equations. lia.
Qed.

Lemma formatDate_midnight (D : Z) :
  formatDate tzMin (midnight tzMin D / 1000) = dayLabel D.
Proof.
  rewrite formatDate_dayLabel, midnight_seconds, Day_midnight. reflexivity.
Qed.

Lemma midnight_next (D : Z) :
  setDate tzMin (midnight tzMin D) (getDate tzMin (midnight tzMin D) + 1)
  = midnight tzMin (D + 1).
Proof. rewrite setDate_getDate. unfold midnight. lia. Qed.

Lemma getDateRange_fromDate (days : Z) :
  fromDate (getDateRange now tzMin days)
  = midnight tzMin (today now tzMin - days).
Proof.
  unfold getDateRange, fromDate.
  replace (getDate tzMin now - days) with (getDate tzMin now + - days) by lia.
  rewrite setDate_getDate.
  unfold setHours, UTC, MakeDate, MakeTime, midnight, today, LocalTime.
  replace (now + - days * msPerDay + LocalTZA tzMin)
    with (now + LocalTZA tzMin + - days * msPerDay) by lia.
  rewrite Day_shift. lia.
Qed.

Lemma getDateRange_toDate (days : Z) :
  toDate (getDateRange now tzMin days)
  = midnight tzMin (today now tzMin) + 86399999.
Proof.
  unfold getDateRange, toDate, setHours, UTC, MakeDate, MakeTime, midnight,
    today. lia.
Qed.

Lemma midnight_le_end (D T : Z) :
  midnight tzMin D <= midnight tzMin T + 86399999 <-> D <= T.
Proof. unfold midnight, msPerDay. lia. Qed.

Lemma dayRange_S (D : Z) (n : nat) :
  dayRange D (S n) = D :: dayRange (D + 1) n.
Proof.
  unfold dayRange. cbn [seq map]. f_equal; [lia|].
  rewrite <- seq_shift, map_map. apply map_ext. intros i. lia.
Qed.

Lemma dayRange_length (D : Z) (n : nat) : List.length (dayRange D n) = n.
Proof. unfold dayRange. now rewrite length_map, length_seq. Qed.

Lemma dayRange_In (D : Z) (n : nat) (x : Z) :
  In x (dayRange D n) <-> D <= x < D + Z.of_nat n.
Proof.
  unfold dayRange. rewrite in_map_iff. split.
  - intros (i & <- & Hi). apply in_seq in Hi. lia.
  - intros H. exists (Z.to_nat (x - D)). split; [lia|]. apply in_seq. lia.
Qed.

Lemma dayRange_NoDup (D : Z) (n : nat) : NoDup (dayRange D n).
Proof.
  revert D. induction n as [|n IH]; intros D.
  - constructor.
  - rewrite dayRange_S. constructor; [|apply IH].
    rewrite dayRange_In. lia.
Qed.

(** The day loop visits the days from the current one to the last. *)
Lemma initDailyData_run (n fuel : nat) (D T : Z) (d : Dict Bucket.t) :
  (n < fuel)%nat -> n = Z.to_nat (T - D + 1) ->
  initDailyData tzMin fuel (midnight tzMin D) (midnight tzMin T + 86399999) d
  = Some (fold_left (fun d k => dict_set d (dayLabel k) emptyBucket)
                    (dayRange D n) d).
Proof.
  revert fuel D d. induction n as [|n IH]; intros fuel D d Hf HT;
    (destruct fuel as [|fuel]; [lia|]); cbn [initDailyData].
  - destruct (Z.leb_spec (midnight tzMin D) (midnight tzMin T + 86399999))
      as [H|H].
    + apply -> midnight_le_end in H. lia.
    + reflexivity.
  - destruct (Z.leb_spec (midnight tzMin D) (midnight tzMin T + 86399999))
      as [H|H].
    + rewrite midnight_next, formatDate_midnight, dayRange_S.
      cbn [fold_left]. apply IH; lia.
    + exfalso. revert H. unfold midnight, msPerDay. lia.
Qed.

Lemma dayLoopBound_enough (days : Z) :
  (Z.to_nat (days + 1) < dayLoopBound (getDateRange now tzMin days))%nat.
Proof.
  unfold dayLoopBound.
  rewrite getDateRange_fromDate, getDateRange_toDate.
  replace ((midnight tzMin (today now tzMin) + 86399999
            - midnight tzMin (today now tzMin - days)) / msPerDay)
    with days; [lia|].
  unfold midnight, msPerDay. Z.div_mod_to_equations. lia.
Qed.

End DateRangeFacts.

(** ** Day labels are distinct inside a window of 365 days *)

Section Labels.

Lemma decimal_inj (a b : Z) : 0 < a -> 0 < b -> decimal a = decimal b -> a = b.
Proof.
  destruct a as [|p|p], b as [|q|q]; try lia. intros _ _ H.
  unfold decimal in H. cbn [Z.to_int NilZero.string_of_int] in H.
  apply (f_equal NilZero.uint_of_string) in H.
  rewrite !NilZero.usu in H by apply DecimalPos.Unsigned.to_uint_nonnil.
  injection H as H. apply DecimalPos.Unsigned.to_uint_inj in H. congruence.
Qed.

Lemma label_inj (m1 m2 d1 d2 : Z) :
  0 <= m1 <= 11 -> 0 <= m2 <= 11 -> 0 < d1 -> 0 < d2 ->
  monthShort m1 ++ " " ++ decimal d1 = monthShort m2 ++ " " ++ decimal d2 ->
  m1 = m2 /\ d1 = d2.
Proof.
  intros H1 H2 P1 P2 E.
  assert (C1 : m1 = 0 \/ m1 = 1 \/ m1 = 2 \/ m1 = 3 \/ m1 = 4 \/ m1 = 5 \/
               m1 = 6 \/ m1 = 7 \/ m1 = 8 \/ m1 = 9 \/ m1 = 10 \/ m1 = 11)
    by lia.
  assert (C2 : m2 = 0 \/ m2 = 1 \/ m2 = 2 \/ m2 = 3 \/ m2 = 4 \/ m2 = 5 \/
               m2 = 6 \/ m2 = 7 \/ m2 = 8 \/ m2 = 9 \/ m2 = 10 \/ m2 = 11)
    by lia.
  clear H1 H2.
  repeat (destruct C1 as [C1|C1]); subst m1;
    repeat (destruct C2 as [C2|C2]); subst m2;
    cbn [monthShort append] in E; try discriminate E;
    (split; [reflexivity|]); injection E as E; now apply decimal_inj.
Qed.

Lemma dayLabel_window (D1 D2 : Z) :
  D1 < D2 <= D1 + 364 -> dayLabel D1 <> dayLabel D2.
Proof.
  intros H E. apply (month_date_window D1 D2 H).
  pose proof (MonthFromDay_range D1) as M1.
  pose proof (MonthFromDay_range D2) as M2.
  pose proof (DateFromDay_range D1) as R1.
  pose proof (DateFromDay_range D2) as R2.
  destruct (label_inj (MonthFromDay D1) (MonthFromDay D2)
                      (DateFromDay D1) (DateFromDay D2)) as [Em Ed];
    try assumption; try lia.
  congruence.
Qed.

(** The labels of at most 365 consecutive days are pairwise distinct. *)
Lemma dayLabels_NoDup (D : Z) (n : nat) :
  (n <= 365)%nat -> NoDup (map dayLabel (dayRange D n)).
Proof.
  intros Hn.
  assert (G : forall l, NoDup l ->
            (forall x, In x l -> D <= x < D + 365) ->
            NoDup (map dayLabel l)).
  { induction l as [|x l IH]; intros ND R; [constructor|].
    inversion ND as [|? ? Hx ND']; subst. cbn [map]. constructor.
    - rewrite in_map_iff. intros (y & E & Hy).
      assert (x <> y) by congruence.
      pose proof (R x (or_introl eq_refl)). pose proof (R y (or_intror Hy)).
      destruct (Z_lt_le_dec x y).
      + apply (dayLabel_window x y); [lia|congruence].
      + apply (dayLabel_window y x); [lia|congruence].
    - apply IH; [assumption|]. intros z Hz. apply R. now right. }
  apply G; [apply dayRange_NoDup|].
  intros x Hx. apply dayRange_In in Hx. lia.
Qed.

End Labels.

(** ** Dictionaries *)

Section DictFacts.
Context {V : Type}.
Implicit Types (d : Dict V) (k : string) (v : V).

Lemma dict_get_set_same d k v : dict_get (dict_set d k v) k = Some v.
Proof.
  induction d as [|[k' v'] d IH]; cbn.
  - now rewrite String.eqb_refl.
  - destruct (String.eqb_spec k' k) as [->|N]; cbn.
    + now rewrite String.eqb_refl.
    + destruct (String.eqb_spec k' k); [contradiction|assumption].
Qed.

Lemma dict_get_set_other d k k' v :
  k <> k' -> dict_get (dict_set d k v) k' = dict_get d k'.
Proof.
  intros N. induction d as [|[k0 v0] d IH]; cbn.
  - destruct (String.eqb_spec k k'); [contradiction|reflexivity].
  - destruct (String.eqb_spec k0 k) as [->|N0]; cbn.
    + destruct (String.eqb_spec k k'); [contradiction|reflexivity].
    + now rewrite IH.
Qed.

Lemma dict_get_In d k v : dict_get d k = Some v -> In k (dict_keys d).
Proof.
  induction d as [|[k0 v0] d IH]; cbn; [discriminate|].
  destruct (String.eqb_spec k0 k); auto.
Qed.

Lemma dict_keys_set_In d k v :
  In k (dict_keys d) -> dict_keys (dict_set d k v) = dict_keys d.
Proof.
  induction d as [|[k0 v0] d IH]; cbn; [contradiction|].
  intros H. destruct (String.eqb_spec k0 k) as [->|N]; cbn; [reflexivity|].
  f_equal. apply IH. destruct H; [contradiction|assumption].
Qed.

Lemma dict_keys_set_new d k v :
  ~ In k (dict_keys d) ->
  dict_keys (dict_set d k v) = (dict_keys d ++ [k])%list.
Proof.
  induction d as [|[k0 v0] d IH]; cbn; [reflexivity|].
  intros H. destruct (String.eqb_spec k0 k) as [->|N]; cbn.
  - exfalso; auto.
  - f_equal. apply IH. auto.
Qed.

(** With distinct keys, membership of a pair is what lookup returns. *)
Lemma dict_In_get d k v :
  NoDup (dict_keys d) -> In (k, v) d -> dict_get d k = Some v.
Proof.
  induction d as [|[k0 v0] d IH]; cbn; [contradiction|].
  intros ND [E|H].
  - injection E as -> ->. now rewrite String.eqb_refl.
  - inversion ND as [|? ? Hk ND']; subst.
    destruct (String.eqb_spec k0 k) as [->|N]; [|now apply IH].
    exfalso. apply Hk. unfold dict_keys. apply in_map_iff.
    now exists (k, v).
Qed.

End DictFacts.

Section DictKeys.
Context {V : Type}.
Implicit Types (d : Dict V) (k : string) (v : V).

Lemma dict_set_NoDup d k v :
  NoDup (dict_keys d) -> NoDup (dict_keys (dict_set d k v)).
Proof.
  intros ND. destruct (in_dec string_dec k (dict_keys d)) as [I|I].
  - now rewrite dict_keys_set_In.
  - rewrite dict_keys_set_new by assumption.
    apply NoDup_app; [assumption|repeat constructor; intros []|].
    intros x Hx [<-|[]]. contradiction.
Qed.

Lemma dict_set_Forall (P : V -> Prop) d k v :
  Forall (fun e => P (snd e)) d -> P v ->
  Forall (fun e => P (snd e)) (dict_set d k v).
Proof.
  intros F Pv. induction F as [|[k0 v0] d H F IH]; cbn.
  - repeat constructor. exact Pv.
  - destruct (String.eqb k0 k); constructor; auto.
Qed.

Lemma dict_key_get d k :
  In k (dict_keys d) -> exists v, dict_get d k = Some v /\ In (k, v) d.
Proof.
  induction d as [|[k0 v0] d IH]; cbn; [contradiction|].
  intros H. destruct (String.eqb_spec k0 k) as [->|N].
  - exists v0. auto.
  - destruct H as [E|H]; [contradiction|].
    destruct (IH H) as (v & G & I). exists v. auto.
Qed.

Lemma dict_set_all_keys (v : V) (ks : list string) d :
  NoDup (dict_keys d ++ ks) ->
  dict_keys (dict_set_all v ks d) = (dict_keys d ++ ks)%list.
Proof.
  revert d. induction ks as [|k ks IH]; intros d ND.
  - cbn. now rewrite app_nil_r.
  - assert (N : ~ In k (dict_keys d)).
    { intros I. apply NoDup_remove_2 in ND. apply ND.
      apply in_or_app. now left. }
    change (dict_set_all v (k :: ks) d)
      with (dict_set_all v ks (dict_set d k v)).
    rewrite IH; rewrite dict_keys_set_new by assumption;
      now rewrite <- app_assoc.
Qed.

Lemma dict_set_all_NoDup (v : V) (ks : list string) d :
  NoDup (dict_keys d) -> NoDup (dict_keys (dict_set_all v ks d)).
Proof.
  revert d. induction ks as [|k ks IH]; intros d ND; [assumption|].
  change (dict_set_all v (k :: ks) d)
    with (dict_set_all v ks (dict_set d k v)).
  apply IH. now apply dict_set_NoDup.
Qed.

Lemma dict_set_all_Forall (P : V -> Prop) (v : V) (ks : list string) d :
  P v -> Forall (fun e => P (snd e)) d ->
  Forall (fun e => P (snd e)) (dict_set_all v ks d).
Proof.
  intros Pv. revert d. induction ks as [|k ks IH]; intros d F;
    [assumption|].
  change (dict_set_all v (k :: ks) d)
    with (dict_set_all v ks (dict_set d k v)).
  apply IH. now apply dict_set_Forall.
Qed.

End DictKeys.

(** ** The sort and the monad *)

Section SortFacts.
Context {A : Type} (comparefn : A -> A -> Q).

Lemma sort_insert_perm (x : A) (l : list A) :
  Permutation (sort_insert comparefn x l) (x :: l).
Proof.
  induction l as [|y l IH]; cbn; [reflexivity|].
  destruct (comparefn x y ?= 0)%Q; try reflexivity.
  rewrite IH. apply perm_swap.
Qed.

Lemma Array_sort_perm (l : list A) : Permutation (Array_sort comparefn l) l.
Proof.
  induction l as [|x l IH]; cbn; [reflexivity|].
  rewrite sort_insert_perm. now apply perm_skip.
Qed.

Lemma Array_sort_length (l : list A) :
  List.length (Array_sort comparefn l) = List.length l.
Proof. apply Permutation_length, Array_sort_perm. Qed.

End SortFacts.

(** Sorting commutes with a projection the comparator factors through. *)
Lemma Array_sort_map {A B : Type} (f : A -> B)
    (cmpA : A -> A -> Q) (cmpB : B -> B -> Q) (l : list A) :
  (forall x y, cmpA x y = cmpB (f x) (f y)) ->
  map f (Array_sort cmpA l) = Array_sort cmpB (map f l).
Proof.
  intros H.
  assert (I : forall x s, map f (sort_insert cmpA x s)
                          = sort_insert cmpB (f x) (map f s)).
  { intros x s. induction s as [|y s IHs]; cbn; [reflexivity|].
    rewrite <- H. destruct (cmpA x y ?= 0)%Q; cbn; try reflexivity.
    now rewrite IHs. }
  unfold Array_sort. induction l as [|x l IH]; cbn [fold_right map];
    [reflexivity|].
  now rewrite I, IH.
Qed.

Section MonadFacts.
Context {A B : Type} (f : A -> M B).

Lemma mapM_Ok_Forall2 (R : A -> B -> Prop) :
  (forall x n y n', f x n = (Ok y, n') -> R x y) ->
  forall l n ys n', mapM f l n = (Ok ys, n') -> Forall2 R l ys.
Proof.
  intros HR. induction l as [|x l IH]; intros n ys n' E.
  - cbn in E. unfold ret in E. injection E as <- _. constructor.
  - cbn in E. unfold bind in E.
    destruct (f x n) as [[y| |] n1] eqn:Ex; try discriminate.
    destruct (mapM f l n1) as [[ys1| |] n2] eqn:El; try discriminate.
    unfold ret in E. injection E as <- _.
    constructor; eauto.
Qed.

Lemma mapM_total :
  (forall x n, exists y n', f x n = (Ok y, n')) ->
  forall l n, exists ys n', mapM f l n = (Ok ys, n').
Proof.
  intros Hf. induction l as [|x l IH]; intros n; cbn.
  - eexists _, _. reflexivity.
  - unfold bind. destruct (Hf x n) as (y & n1 & ->).
    destruct (IH n1) as (ys & n2 & ->). eexists _, _. reflexivity.
Qed.

End MonadFacts.

Lemma keepsUI_ret {A : Type} (a : A) : keepsUI (ret a).
Proof. intros s. reflexivity. Qed.

Lemma keepsUI_throw {A : Type} (msg : string) : keepsUI (@throw A msg).
Proof. intros s. reflexivity. Qed.

Lemma keepsUI_bind {A B : Type} (m : M A) (k : A -> M B) :
  keepsUI m -> (forall a, keepsUI (k a)) -> keepsUI (bind m k).
Proof.
  intros Hm Hk s. unfold bind. specialize (Hm s).
  destruct (m s) as [[a|msg|] s1]; cbn in *; [|assumption|assumption].
  rewrite (Hk a s1). assumption.
Qed.

Lemma keepsUI_tryCatch {A : Type} (m : M A) (handler : string -> M A) :
  keepsUI m -> (forall msg, keepsUI (handler msg)) ->
  keepsUI (tryCatch m handler).
Proof.
  intros Hm Hh s. unfold tryCatch. specialize (Hm s).
  destruct (m s) as [[a|msg|] s1]; cbn in *; [assumption| |assumption].
  rewrite (Hh msg s1). assumption.
Qed.

Lemma keepsUI_mapM {A B : Type} (f : A -> M B) (l : list A) :
  (forall x, keepsUI (f x)) -> keepsUI (mapM f l).
Proof.
  intros Hf. induction l as [|x l IH]; cbn [mapM].
  - apply keepsUI_ret.
  - apply keepsUI_bind; [apply Hf|]. intros y.
    apply keepsUI_bind; [exact IH|]. intros ys. apply keepsUI_ret.
Qed.

Lemma keepsUI_random (rng : nat -> Q) : keepsUI (random rng).
Proof. intros s. reflexivity. Qed.

(** ** What [processSentimentData] computes *)

Section ProcessFacts.

Variable now : Z.
Variable tzMin : Z.
Variable parseDate : string -> option Z.
Variable rng : nat -> Q.
Variable candleResponse : string -> Z -> Z -> Http Candles.t.
Variable selectedStock : string.

Lemma initDailyData_range (days : Z) :
  let r := getDateRange now tzMin days in
  initDailyData tzMin (dayLoopBound r) (fromDate r) (toDate r) []
  = Some (dict_set_all emptyBucket (windowLabels now tzMin days) []).
Proof.
  cbv zeta. rewrite getDateRange_fromDate, getDateRange_toDate.
  rewrite (initDailyData_run tzMin (Z.to_nat (days + 1))).
  - f_equal. unfold dict_set_all, windowLabels.
    generalize (dayRange (today now tzMin - days) (Z.to_nat (days + 1))).
    generalize (@nil (string * Bucket.t)).
    intros d l. revert d. induction l as [|x l IH]; intros d; cbn;
      [reflexivity|apply IH].
  - apply dayLoopBound_enough.
  - f_equal. lia.
Qed.

(** The loop of the source terminates: [processSentimentData] is the
    row computation over [dailyTable]. *)
Lemma processSentimentData_unfold (news : list NewsItem) (quote : Quote.t)
    (days : Z) :
  let r := getDateRange now tzMin days in
  processSentimentData now tzMin parseDate rng candleResponse selectedStock
    news quote days
  = (rows <- mapM (makeRow tzMin parseDate rng
                     (fetchHistoricalData candleResponse selectedStock
                        (from r) (to r))
                     (Quote.c quote))
                  (dailyTable now tzMin news days) ;;
     ret (Array_sort (compareDates parseDate) rows)).
Proof.
  cbv zeta. unfold processSentimentData.
  rewrite initDailyData_range. reflexivity.
Qed.

Lemma addNewsItem_keys (d : Dict Bucket.t) (item : NewsItem) :
  dict_keys (addNewsItem tzMin d item) = dict_keys d.
Proof.
  unfold addNewsItem. destruct (sentiment item) as [s|]; [|reflexivity].
  destruct (dict_get d _) as [b|] eqn:G; [|reflexivity].
  apply dict_keys_set_In. eapply dict_get_In. exact G.
Qed.

Lemma addNews_keys (news : list NewsItem) (d : Dict Bucket.t) :
  dict_keys (fold_left (addNewsItem tzMin) news d) = dict_keys d.
Proof.
  revert d. induction news as [|item news IH]; intros d; cbn [fold_left];
    [reflexivity|].
  now rewrite IH, addNewsItem_keys.
Qed.

(** Each bucket receives exactly the contributions of its label. *)
Lemma addNews_get (news : list NewsItem) (d : Dict Bucket.t)
    (k : string) (b : Bucket.t) :
  dict_get d k = Some b ->
  dict_get (fold_left (addNewsItem tzMin) news d) k
  = Some {| Bucket.sentiments :=
              (Bucket.sentiments b ++ contributions tzMin news k)%list;
            Bucket.volume :=
              (Bucket.volume b
               + List.length (contributions tzMin news k))%nat |}.
Proof.
  revert d b. induction news as [|item news IH]; intros d b G.
  - cbn. rewrite app_nil_r, Nat.add_0_r. now destruct b.
  - cbn [fold_left contributions flat_map]. unfold addNewsItem at 2.
    destruct (sentiment item) as [s|];
      [|fold (contributions tzMin news k); now apply IH].
    destruct (String.eqb_spec (formatDate tzMin (datetime item)) k) as [E|N].
    + rewrite E, G.
      erewrite IH by apply dict_get_set_same.
      cbn [Bucket.sentiments Bucket.volume List.length app].
      rewrite <- app_assoc. cbn [app].
      fold (contributions tzMin news k).
      do 2 f_equal. lia.
    + destruct (dict_get d (formatDate tzMin (datetime item))) as [b'|].
      * fold (contributions tzMin news k). cbn [app].
        apply IH. rewrite dict_get_set_other by assumption. exact G.
      * fold (contributions tzMin news k). now apply IH.
Qed.

Lemma windowLabels_length (days : Z) :
  List.length (windowLabels now tzMin days) = Z.to_nat (days + 1).
Proof. unfold windowLabels. now rewrite length_map, dayRange_length. Qed.

Lemma dailyTable_keys (news : list NewsItem) (days : Z) :
  days <= 364 ->
  dict_keys (dailyTable now tzMin news days) = windowLabels now tzMin days.
Proof.
  intros H. unfold dailyTable. rewrite addNews_keys.
  rewrite dict_set_all_keys; [reflexivity|]. cbn.
  apply dayLabels_NoDup. lia.
Qed.

Lemma dailyTable_NoDup (news : list NewsItem) (days : Z) :
  NoDup (dict_keys (dailyTable now tzMin news days)).
Proof.
  unfold dailyTable. rewrite addNews_keys.
  apply dict_set_all_NoDup. constructor.
Qed.

(** The content of every bucket of [dailyTable]. *)
Lemma dailyTable_entry (news : list NewsItem) (days : Z)
    (k : string) (b : Bucket.t) :
  In (k, b) (dailyTable now tzMin news days) ->
  b = {| Bucket.sentiments := contributions tzMin news k;
         Bucket.volume := List.length (contributions tzMin news k) |}.
Proof.
  intros I.
  pose proof (dict_In_get _ _ _ (dailyTable_NoDup news days) I) as G.
  assert (K : In k (dict_keys (dailyTable now tzMin news days))).
  { unfold dict_keys. apply in_map_iff. now exists (k, b). }
  unfold dailyTable in K, G. rewrite addNews_keys in K.
  destruct (dict_key_get _ _ K) as (b0 & G0 & I0).
  assert (E0 : b0 = emptyBucket).
  { pose proof (dict_set_all_Forall (fun b => b = emptyBucket) emptyBucket
                  (windowLabels now tzMin days) [] eq_refl (Forall_nil _)) as F.
    rewrite Forall_forall in F. exact (F _ I0). }
  subst b0. rewrite (addNews_get news _ k emptyBucket G0) in G.
  injection G as <-. reflexivity.
Qed.

End ProcessFacts.

Section RowFacts.

Variable tzMin : Z.
Variable parseDate : string -> option Z.
Variable rng : nat -> Q.

Lemma findIndex_lt {A} (p : A -> bool) (l : list A) (i : nat) :
  findIndex p l = Some i -> (i < List.length l)%nat.
Proof.
  revert i. induction l as [|x l IH]; intros i; cbn; [discriminate|].
  destruct (p x).
  - intros [= <-]. lia.
  - destruct (findIndex p l) as [j|]; cbn; [|discriminate].
    intros [= <-]. specialize (IH j eq_refl). lia.
Qed.

(** The date, the mean and the volume of a row do not depend on the
    price branch. *)
Lemma makeRow_fields (hist : option Candles.t) (basePrice : Q)
    (e : string * Bucket.t) (n n' : Runtime) (r : SentimentData) :
  makeRow tzMin parseDate rng hist basePrice e n = (Ok r, n') ->
  date r = fst e /\
  avgSentiment r = average (Bucket.sentiments (snd e)) /\
  volume r = Bucket.volume (snd e).
Proof.
  destruct e as [k b]. unfold makeRow, bind.
  destruct (priceFor _ _ _ _ _ _ n) as [[p| |] n1]; try discriminate.
  unfold ret. intros [= <- _]. cbn. auto.
Qed.

Lemma priceFor_total (hist : option Candles.t) (basePrice : Q)
    (k : string) (n : Runtime) :
  histAligned hist ->
  exists p n', priceFor tzMin parseDate rng hist basePrice k n = (Ok p, n').
Proof.
  unfold priceFor, histAligned.
  destruct hist as [[[hc|] [ht|]]|]; intros H;
    try (eexists _, _; reflexivity).
  destruct (findIndex _ ht) as [i|] eqn:F; [|eexists _, _; reflexivity].
  apply findIndex_lt in F.
  destruct (nth_error hc i) as [p|] eqn:N; [eexists _, _; reflexivity|].
  apply nth_error_None in N. lia.
Qed.

Lemma makeRow_total (hist : option Candles.t) (basePrice : Q)
    (e : string * Bucket.t) (n : Runtime) :
  histAligned hist ->
  exists r n', makeRow tzMin parseDate rng hist basePrice e n = (Ok r, n').
Proof.
  intros H. destruct e as [k b]. unfold makeRow, bind.
  destruct (priceFor_total hist basePrice k n H) as (p & n1 & ->).
  eexists _, _. reflexivity.
Qed.

Lemma keepsUI_priceFor (hist : option Candles.t) (basePrice : Q)
    (k : string) :
  keepsUI (priceFor tzMin parseDate rng hist basePrice k).
Proof.
  unfold priceFor.
  assert (R : forall f : Q -> Q, keepsUI (r <- random rng ;; ret (f r))).
  { intros f. apply keepsUI_bind; [apply keepsUI_random|].
    intros a. apply keepsUI_ret. }
  destruct hist as [[[hc|] [ht|]]|]; try apply R.
  destruct (findIndex _ ht) as [i|]; [|apply R].
  destruct (nth_error hc i); [apply keepsUI_ret|apply keepsUI_throw].
Qed.

Lemma keepsUI_makeRow (hist : option Candles.t) (basePrice : Q)
    (e : string * Bucket.t) :
  keepsUI (makeRow tzMin parseDate rng hist basePrice e).
Proof.
  destruct e as [k b]. unfold makeRow.
  apply keepsUI_bind; [apply keepsUI_priceFor|].
  intros p. apply keepsUI_ret.
Qed.

Lemma fetchHistoricalData_aligned
    (candleResponse : string -> Z -> Z -> Http Candles.t)
    (symbol : string) (from to : Z) :
  candlesAligned (candleResponse symbol from to) ->
  histAligned (fetchHistoricalData candleResponse symbol from to).
Proof.
  unfold fetchHistoricalData, candlesAligned, histAligned.
  destruct (candleResponse symbol from to); auto.
Qed.

End RowFacts.

(** [reduce] adds from the left; the total is the same from the right. *)
Lemma reduceSum_fold_right (l : list Q) :
  (reduceSum l == fold_right Qplus 0 l)%Q.
Proof.
  unfold reduceSum.
  assert (G : forall a, (fold_left Qplus l a == a + fold_right Qplus 0 l)%Q).
  { induction l as [|x l IH]; intros a; cbn.
    - ring.
    - rewrite IH. ring. }
  rewrite G. ring.
Qed.

Lemma average_mean (l : list Q) :
  l <> [] -> (average l == arithmeticMean l)%Q.
Proof.
  intros N. unfold average, arithmeticMean.
  destruct l as [|x l]; [contradiction|]. cbn [List.length Nat.ltb Nat.leb].
  now rewrite reduceSum_fold_right.
Qed.

Lemma average_nil : average [] = 0%Q.
Proof. reflexivity. Qed.

Lemma settles_mapM {A B : Type} (f : A -> M B) (l : list A) :
  (forall x, settles (f x)) -> settles (mapM f l).
Proof.
  intros Hf. induction l as [|x l IH]; intros s; cbn [mapM].
  - discriminate.
  - unfold bind. pose proof (Hf x s) as Hx.
    destruct (f x s) as [[y|msg|] s1]; cbn in *;
      [|discriminate|contradiction].
    pose proof (IH s1) as Hl.
    destruct (mapM f l s1) as [[ys|msg|] s2]; cbn in *;
      [discriminate|discriminate|contradiction].
Qed.

Lemma settles_makeRow (tzMin : Z) (parseDate : string -> option Z)
    (rng : nat -> Q) (hist : option Candles.t) (basePrice : Q)
    (e : string * Bucket.t) :
  settles (makeRow tzMin parseDate rng hist basePrice e).
Proof.
  destruct e as [k b]. intros s. unfold makeRow, bind, priceFor.
  destruct hist as [[[hc|] [ht|]]|]; try (cbn; discriminate).
  destruct (findIndex _ ht) as [i|]; [|cbn; discriminate].
  destruct (nth_error hc i); cbn; discriminate.
Qed.

(** What a run of [processSentimentData] that returns has computed: the
    rows of [dailyTable], sorted. *)
Lemma processSentimentData_rows_inv
    (now tzMin : Z) (parseDate : string -> option Z) (rng : nat -> Q)
    (candleResponse : string -> Z -> Z -> Http Candles.t)
    (selectedStock : string) (news : list NewsItem) (quote : Quote.t)
    (days : Z) (s s' : Runtime) (rows : list SentimentData) :
  processSentimentData now tzMin parseDate rng candleResponse selectedStock
    news quote days s = (Ok rows, s') ->
  ui s' = ui s /\
  exists rows0,
    rows = Array_sort (compareDates parseDate) rows0 /\
    Forall2 (fun e r =>
               date r = fst e /\
               avgSentiment r = average (Bucket.sentiments (snd e)) /\
               volume r = Bucket.volume (snd e))
            (dailyTable now tzMin news days) rows0.
Proof.
  rewrite processSentimentData_unfold. cbv zeta.
  set (hist := fetchHistoricalData _ _ _ _). unfold bind.
  destruct (mapM _ (dailyTable now tzMin news days) s)
    as [[rows0|msg|] s1] eqn:E; try discriminate.
  unfold ret. intros [= <- <-]. split.
  - pose proof (keepsUI_mapM (makeRow tzMin parseDate rng hist (Quote.c quote))
                  (dailyTable now tzMin news days)
                  (keepsUI_makeRow tzMin parseDate rng hist _) s) as K.
    rewrite E in K. exact K.
  - exists rows0. split; [reflexivity|].
    eapply mapM_Ok_Forall2; [|exact E].
    intros e m r m'. apply makeRow_fields.
Qed.

(** [processSentimentData] never runs out of steps, and it returns when
    the candles of its request have a price for each timestamp. *)
Lemma processSentimentData_settles
    (now tzMin : Z) (parseDate : string -> option Z) (rng : nat -> Q)
    (candleResponse : string -> Z -> Z -> Http Candles.t)
    (selectedStock : string) (news : list NewsItem) (quote : Quote.t)
    (days : Z) :
  settles (processSentimentData now tzMin parseDate rng candleResponse
             selectedStock news quote days).
Proof.
  intros s. rewrite processSentimentData_unfold. cbv zeta.
  set (hist := fetchHistoricalData _ _ _ _). unfold bind.
  pose proof (settles_mapM (makeRow tzMin parseDate rng hist (Quote.c quote))
                (dailyTable now tzMin news days)
                (settles_makeRow tzMin parseDate rng hist _) s) as K.
  destruct (mapM _ (dailyTable now tzMin news days) s) as [[rows0|msg|] s1];
    cbn in *; [discriminate|discriminate|contradiction].
Qed.

Lemma processSentimentData_returns
    (now tzMin : Z) (parseDate : string -> option Z) (rng : nat -> Q)
    (candleResponse : string -> Z -> Z -> Http Candles.t)
    (selectedStock : string) (news : list NewsItem) (quote : Quote.t)
    (days : Z) (s : Runtime) :
  candlesAligned
    (candleResponse selectedStock (from (getDateRange now tzMin days))
                    (to (getDateRange now tzMin days))) ->
  exists rows s',
    processSentimentData now tzMin parseDate rng candleResponse selectedStock
      news quote days s = (Ok rows, s').
Proof.
  intros HC. rewrite processSentimentData_unfold. cbv zeta.
  set (hist := fetchHistoricalData _ _ _ _).
  assert (HA : histAligned hist) by apply fetchHistoricalData_aligned, HC.
  destruct (mapM_total (makeRow tzMin parseDate rng hist (Quote.c quote))
              (fun e m => makeRow_total tzMin parseDate rng hist _ e m HA)
              (dailyTable now tzMin news days) s) as (rows0 & s' & E).
  unfold bind. rewrite E. eexists _, _. reflexivity.
Qed.

(** Every run of [processSentimentData] returns rows, one per entry of
    [dailyTable], when each candle timestamp has a price. *)
Lemma processSentimentData_rows
    (now tzMin : Z) (parseDate : string -> option Z) (rng : nat -> Q)
    (candleResponse : string -> Z -> Z -> Http Candles.t)
    (selectedStock : string) (news : list NewsItem) (quote : Quote.t)
    (days : Z) (s : Runtime) :
  (forall sym f t, candlesAligned (candleResponse sym f t)) ->
  exists rows0 s',
    processSentimentData now tzMin parseDate rng candleResponse selectedStock
      news quote days s
    = (Ok (Array_sort (compareDates parseDate) rows0), s') /\
    ui s' = ui s /\
    Forall2 (fun e r =>
               date r = fst e /\
               avgSentiment r = average (Bucket.sentiments (snd e)) /\
               volume r = Bucket.volume (snd e))
            (dailyTable now tzMin news days) rows0.
Proof.
  intros HC.
  destruct (processSentimentData_returns now tzMin parseDate rng
              candleResponse selectedStock news quote days s (HC _ _ _))
    as (rows & s' & E).
  destruct (processSentimentData_rows_inv _ _ _ _ _ _ _ _ _ _ _ _ E)
    as (U & rows0 & -> & F).
  exists rows0, s'. auto.
Qed.

(** ** The daily series *)

(** C1 (as amended).  For a range of [days] days back with
    [0 <= days <= 364], every series [processSentimentData] returns has
    exactly [days + 1] rows, whatever news it is given.  The function
    never loops forever, and it returns, rather than throws, when the
    candles of its request carry a price for each of their timestamps. *)
Theorem processSentimentData_length
    (now tzMin : Z) (parseDate : string -> option Z) (rng : nat -> Q)
    (candleResponse : string -> Z -> Z -> Http Candles.t)
    (selectedStock : string) (news : list NewsItem) (quote : Quote.t)
    (days : Z) (s : Runtime) :
  0 <= days <= 364 ->
  (forall rows s',
     processSentimentData now tzMin parseDate rng candleResponse
       selectedStock news quote days s = (Ok rows, s') ->
     Z.of_nat (List.length rows) = days + 1) /\
  fst (processSentimentData now tzMin parseDate rng candleResponse
         selectedStock news quote days s) <> Diverge /\
  (candlesAligned
     (candleResponse selectedStock (from (getDateRange now tzMin days))
                     (to (getDateRange now tzMin days))) ->
   exists rows s',
     processSentimentData now tzMin parseDate rng candleResponse
       selectedStock news quote days s = (Ok rows, s')).
Proof.
  intros Hd. split; [|split].
  - intros rows s' E.
    destruct (processSentimentData_rows_inv _ _ _ _ _ _ _ _ _ _ _ _ E)
      as (_ & rows0 & -> & F).
    rewrite Array_sort_length, <- (Forall2_length F).
    assert (K : List.length (dailyTable now tzMin news days)
                = List.length (dict_keys (dailyTable now tzMin news days))).
    { unfold dict_keys. now rewrite length_map. }
    rewrite K, dailyTable_keys, windowLabels_length by lia. lia.
  - apply processSentimentData_settles.
  - apply processSentimentData_returns.
Qed.

(** The seven-day range of the sample clock has eight rows. *)
Lemma processSentimentData_length_witness :
  (forall rows s',
     processSentimentData sampleNow 0 (parseDate2001 0) sampleRng
       (fun _ _ _ => NotOk) "AAPL" [] sampleQuote 7 sampleRuntime
     = (Ok rows, s') ->
     Z.of_nat (List.length rows) = 7 + 1) /\
  fst (processSentimentData sampleNow 0 (parseDate2001 0) sampleRng
         (fun _ _ _ => NotOk) "AAPL" [] sampleQuote 7 sampleRuntime)
  <> Diverge /\
  (candlesAligned (@NotOk Candles.t) ->
   exists rows s',
     processSentimentData sampleNow 0 (parseDate2001 0) sampleRng
       (fun _ _ _ => NotOk) "AAPL" [] sampleQuote 7 sampleRuntime
     = (Ok rows, s')).
Proof.
  apply (processSentimentData_length sampleNow 0 (parseDate2001 0) sampleRng
           (fun _ _ _ => NotOk) "AAPL" [] sampleQuote 7 sampleRuntime).
  lia.
Defined.

(** C1, as stated, fails for a range of 365 days back: 3 November 2025
    and 3 November 2026 share the key "Nov 3", and the 366 days of the
    window give 365 rows. *)
Lemma processSentimentData_length_365_days :
  exists rows s',
    processSentimentData sampleNow 0 (parseDate2001 0) sampleRng
      (fun _ _ _ => NotOk) "AAPL" [] sampleQuote 365 sampleRuntime
    = (Ok rows, s') /\
    List.length rows = 365%nat /\
    Z.of_nat (List.length rows) <> 365 + 1.
Proof.
  eexists _, _. split; [vm_compute; reflexivity|].
  split; [vm_compute; reflexivity|]. vm_compute. discriminate.
Qed.

(** *** The buckets and the days of the range *)

Lemma Forall2_dates (table : Dict Bucket.t) (rows : list SentimentData) :
  Forall2 (fun e r =>
             date r = fst e /\
             avgSentiment r = average (Bucket.sentiments (snd e)) /\
             volume r = Bucket.volume (snd e)) table rows ->
  map date rows = dict_keys table.
Proof.
  induction 1 as [|e r table rows (H & _) F IH]; [reflexivity|].
  cbn [map dict_keys]. unfold dict_keys in IH. congruence.
Qed.

Lemma dict_set_all_keys_In {V : Type} (v : V) (ks : list string)
    (d : Dict V) (k : string) :
  In k (dict_keys (dict_set_all v ks d)) -> In k (dict_keys d) \/ In k ks.
Proof.
  revert d. induction ks as [|k0 ks IH]; intros d H; [now left|].
  cbn [dict_set_all fold_left] in H. apply IH in H.
  destruct H as [H|H]; [|right; now right].
  destruct (in_dec string_dec k0 (dict_keys d)) as [I|I].
  - rewrite dict_keys_set_In in H by exact I. now left.
  - rewrite dict_keys_set_new in H by exact I.
    apply in_app_or in H. destruct H as [H|[->|[]]]; [now left|].
    right. now left.
Qed.

Lemma dailyTable_keys_In (now tzMin : Z) (news : list NewsItem) (days : Z)
    (k : string) :
  In k (dict_keys (dailyTable now tzMin news days)) ->
  In k (windowLabels now tzMin days).
Proof.
  unfold dailyTable. rewrite addNews_keys. intros H.
  apply dict_set_all_keys_In in H. destruct H as [[]|H]. exact H.
Qed.

Lemma dict_set_all_keys_have {V : Type} (v : V) (ks : list string)
    (d : Dict V) (k : string) :
  In k (dict_keys d) \/ In k ks -> In k (dict_keys (dict_set_all v ks d)).
Proof.
  revert d. induction ks as [|k0 ks IH]; intros d H.
  - destruct H as [H|[]]. exact H.
  - cbn [dict_set_all fold_left]. apply IH.
    destruct (in_dec string_dec k0 (dict_keys d)) as [I|I].
    + rewrite dict_keys_set_In by exact I.
      destruct H as [H|[<-|H]]; auto.
    + rewrite dict_keys_set_new by exact I.
      destruct H as [H|[<-|H]]; auto.
      * left. apply in_or_app. now left.
      * left. apply in_or_app. right. now left.
Qed.

(** The buckets of [dailyTable] are those of the days of the range. *)
Lemma dailyTable_keys_days (now tzMin : Z) (news : list NewsItem) (days : Z)
    (k : string) :
  In k (dict_keys (dailyTable now tzMin news days)) <->
  exists D, today now tzMin - days <= D <= today now tzMin /\ k = dayLabel D.
Proof.
  split.
  - intros H. apply dailyTable_keys_In in H. unfold windowLabels in H.
    apply in_map_iff in H. destruct H as (D & <- & HD).
    apply dayRange_In in HD. exists D. split; [lia|reflexivity].
  - intros (D & HD & ->). unfold dailyTable. rewrite addNews_keys.
    apply dict_set_all_keys_have. right. unfold windowLabels.
    apply in_map, dayRange_In. lia.
Qed.

(** C8.  A series [processSentimentData] returns has a row for every
    day of the range and no two rows of one date; each row is the row of
    a day of the range and carries the arithmetic mean of the signed
    values of the scored news items that [formatDate] files under its
    date, exactly 0 when there is none, and their number as its volume.
    The function never loops forever, and it returns whenever the
    candles of the request carry a price for each of their timestamps. *)
Theorem avgSentiment_mean
    (now tzMin : Z) (parseDate : string -> option Z) (rng : nat -> Q)
    (candleResponse : string -> Z -> Z -> Http Candles.t)
    (selectedStock : string) (news : list NewsItem) (quote : Quote.t)
    (days : Z) (s : Runtime) :
  (forall rows s',
     processSentimentData now tzMin parseDate rng candleResponse
       selectedStock news quote days s = (Ok rows, s') ->
     (forall D,
        today now tzMin - days <= D <= today now tzMin ->
        exists r, In r rows /\ date r = dayLabel D) /\
     NoDup (map date rows) /\
     Forall (fun r =>
               (exists D,
                  today now tzMin - days <= D <= today now tzMin /\
                  date r = dayLabel D) /\
               (contributions tzMin news (date r) <> [] ->
                (avgSentiment r
                 == arithmeticMean (contributions tzMin news (date r)))%Q) /\
               (contributions tzMin news (date r) = [] ->
                avgSentiment r = 0%Q) /\
               volume r = List.length (contributions tzMin news (date r)))
            rows) /\
  fst (processSentimentData now tzMin parseDate rng candleResponse
         selectedStock news quote days s) <> Diverge /\
  (candlesAligned
     (candleResponse selectedStock (from (getDateRange now tzMin days))
                     (to (getDateRange now tzMin days))) ->
   exists rows s',
     processSentimentData now tzMin parseDate rng candleResponse
       selectedStock news quote days s = (Ok rows, s')).
Proof.
  split; [|split; [apply processSentimentData_settles
                  |apply processSentimentData_returns]].
  intros rows s' E.
  destruct (processSentimentData_rows_inv _ _ _ _ _ _ _ _ _ _ _ _ E)
    as (_ & rows0 & -> & F).
  pose proof (Array_sort_perm (compareDates parseDate) rows0) as P.
  pose proof (Forall2_dates _ _ F) as K.
  split; [|split].
  - intros D HD.
    assert (I : In (dayLabel D) (map date rows0)).
    { rewrite K. apply dailyTable_keys_days. now exists D. }
    apply in_map_iff in I. destruct I as (r & Er & Ir).
    exists r. split; [|exact Er].
    apply (Permutation_in _ (Permutation_sym P)). exact Ir.
  - apply (Permutation_NoDup (Permutation_map date (Permutation_sym P))).
    rewrite K. apply dailyTable_NoDup.
  - rewrite Forall_forall. intros r Hr.
    apply (Permutation_in _ P) in Hr.
    assert (G : exists e, In e (dailyTable now tzMin news days) /\
                  date r = fst e /\
                  avgSentiment r = average (Bucket.sentiments (snd e)) /\
                  volume r = Bucket.volume (snd e)).
    { clear E K P. induction F as [|e r0 d rs H F IH]; [contradiction|].
      destruct Hr as [<-|Hr].
      - exists e. split; [now left|exact H].
      - destruct (IH Hr) as (e' & I' & Q'). exists e'.
        split; [now right|exact Q']. }
    destruct G as ([k b] & I & Ed & Ea & Ev). cbn [fst snd] in *.
    split.
    + apply (dailyTable_keys_days now tzMin news days). rewrite Ed.
      unfold dict_keys. apply in_map_iff. now exists (k, b).
    + rewrite (dailyTable_entry now tzMin news days k b I) in Ea, Ev.
      cbn [Bucket.sentiments Bucket.volume] in *. rewrite Ed, Ea, Ev.
      repeat split.
      * apply average_mean.
      * intros ->. reflexivity.
Qed.

(** The sample news in a two-day range: the series is returned, it holds
    a row for each of the three days, and each row carries the mean of
    its day. *)
Lemma avgSentiment_mean_witness :
  exists rows s',
    processSentimentData sampleNow 0 (parseDate2001 0) sampleRng
      (fun _ _ _ => NotOk) "AAPL" sampleNews sampleQuote 2 sampleRuntime
    = (Ok rows, s') /\
    (forall D,
       today sampleNow 0 - 2 <= D <= today sampleNow 0 ->
       exists r, In r rows /\ date r = dayLabel D) /\
    NoDup (map date rows) /\
    Forall (fun r =>
              (exists D,
                 today sampleNow 0 - 2 <= D <= today sampleNow 0 /\
                 date r = dayLabel D) /\
              (contributions 0 sampleNews (date r) <> [] ->
               (avgSentiment r
                == arithmeticMean (contributions 0 sampleNews (date r)))%Q) /\
              (contributions 0 sampleNews (date r) = [] ->
               avgSentiment r = 0%Q) /\
              volume r = List.length (contributions 0 sampleNews (date r)))
           rows.
Proof.
  destruct (avgSentiment_mean sampleNow 0 (parseDate2001 0) sampleRng
              (fun _ _ _ => NotOk) "AAPL" sampleNews sampleQuote 2
              sampleRuntime) as (Hrows & _ & Hret).
  destruct (Hret I) as (rows & s' & E).
  exists rows, s'. split; [exact E|]. exact (Hrows rows s' E).
Defined.

(** The scenario of the specification: a three-day window with a
    POSITIVE 0.8 and a NEGATIVE 0.6 item on the first day. *)
Example processSentimentData_scenario :
  exists rows s',
    processSentimentData sampleNow 0 (parseDate2001 0) sampleRng
      (fun _ _ _ => NotOk) "AAPL" sampleNews sampleQuote 2 sampleRuntime
    = (Ok rows, s') /\
    map date rows = ["Nov 1"; "Nov 2"; "Nov 3"] /\
    map volume rows = [2; 0; 0]%nat /\
    Forall2 Qeq (map avgSentiment rows) [1 # 10; 0; 0]%Q.
Proof.
  eexists _, _. split; [vm_compute; reflexivity|].
  split; [reflexivity|]. split; [reflexivity|].
  repeat constructor.
Qed.

(** ** The signed value and the overall sentiment *)



Lemma fold_right_scoredValues (news : list NewsItem) :
  (fold_right Qplus 0 (map newsSentimentValue news)
   == fold_right Qplus 0 (scoredValues news))%Q.
Proof.
  induction news as [|item news IH]; cbn [map fold_right]; [reflexivity|].
  unfold scoredValues. cbn [flat_map]. fold (scoredValues news).
  unfold newsSentimentValue at 1. destruct (sentiment item) as [s|].
  - cbn [app fold_right]. fold (val s). rewrite IH. reflexivity.
  - cbn [app]. rewrite IH. ring.
Qed.

(** C10.  The overall sentiment is the sum of the signed values of the
    scored items divided by the number of all items: an item without a
    sentiment adds 0 to the sum and 1 to the denominator.  It is the mean
    of the scored items scaled by their share of the list, and so lies
    no farther from 0 than that mean. *)
Theorem overallSentiment_counts_unscored (news : list NewsItem) :
  (overallSentiment news
   == fold_right Qplus 0 (scoredValues news)
      / inject_Z (Z.of_nat (List.length news)))%Q /\
  (overallSentiment news
   == arithmeticMean (scoredValues news)
      * (inject_Z (Z.of_nat (List.length (scoredValues news)))
         / inject_Z (Z.of_nat (List.length news))))%Q.
Proof.
  assert (E : (overallSentiment news
               == fold_right Qplus 0 (scoredValues news)
                  / inject_Z (Z.of_nat (List.length news)))%Q).
  { unfold overallSentiment, average. rewrite length_map.
    destruct news as [|item news].
    - cbn. reflexivity.
    - cbn [List.length Nat.ltb Nat.leb].
      rewrite reduceSum_fold_right, fold_right_scoredValues. reflexivity. }
  split; [exact E|]. rewrite E. unfold arithmeticMean.
  destruct (scoredValues news) as [|v vs] eqn:S.
  - cbn [fold_right List.length]. unfold Qdiv. ring.
  - set (k := inject_Z (Z.of_nat (List.length (v :: vs)))).
    assert (K : ~ (k == 0)%Q).
    { unfold k. cbn [List.length]. rewrite Nat2Z.inj_succ.
      unfold Qeq, inject_Z. cbn. lia. }
    field. split; [|exact K].
    intros Z0. destruct news as [|item news]; [discriminate S|].
    revert Z0. cbn [List.length]. rewrite Nat2Z.inj_succ.
    unfold Qeq, inject_Z. cbn. lia.
Qed.

(** One scored and one unscored item: the mean is over both. *)
Example overallSentiment_unscored_halves :
  (overallSentiment
     [ sampleScored;
       {| datetime := 0; headline := "Unscored"; source := "wire";
          url := "#3"; sentiment := None |} ]
   == - (3 # 10))%Q.
Proof. reflexivity. Qed.

(** ** The ranking *)

Lemma bySentiment_Gt (x y : Company.t) :
  (bySentiment x y ?= 0)%Q = Gt
  <-> (Company.sentiment x < Company.sentiment y)%Q.
Proof. unfold bySentiment. rewrite <- Qgt_alt. split; intros H; lra. Qed.

Lemma sort_insert_descending (x : Company.t) (l : list Company.t) :
  StronglySorted sentimentDescending l ->
  StronglySorted sentimentDescending (sort_insert bySentiment x l).
Proof.
  induction 1 as [|y r S IH F]; cbn [sort_insert].
  - repeat constructor.
  - destruct (bySentiment x y ?= 0)%Q eqn:C.
    + constructor; [now constructor|]. constructor.
      * unfold sentimentDescending. apply Qeq_alt in C.
        unfold bySentiment in C. lra.
      * apply Qeq_alt in C. unfold bySentiment in C.
        eapply Forall_impl; [|exact F]. unfold sentimentDescending.
        intros z Hz. lra.
    + constructor; [now constructor|]. constructor.
      * unfold sentimentDescending. apply Qlt_alt in C.
        unfold bySentiment in C. lra.
      * apply Qlt_alt in C. unfold bySentiment in C.
        eapply Forall_impl; [|exact F]. unfold sentimentDescending.
        intros z Hz. lra.
    + apply bySentiment_Gt in C. constructor; [exact IH|].
      apply (Permutation_Forall (Permutation_sym (sort_insert_perm _ x r))).
      constructor; [|exact F]. unfold sentimentDescending. lra.
Qed.

Lemma Array_sort_descending (l : list Company.t) :
  StronglySorted sentimentDescending (Array_sort bySentiment l).
Proof.
  induction l as [|x l IH]; cbn; [constructor|].
  now apply sort_insert_descending.
Qed.

(** The sort is stable: it never moves a candidate across another of
    the same sentiment. *)
Lemma sort_insert_stable (v : Q) (x : Company.t) (l : list Company.t) :
  filter (hasSentiment v) (sort_insert bySentiment x l)
  = filter (hasSentiment v) (x :: l).
Proof.
  induction l as [|y r IH]; cbn [sort_insert]; [reflexivity|].
  destruct (bySentiment x y ?= 0)%Q eqn:C; try reflexivity.
  apply bySentiment_Gt in C.
  cbn [filter] in *. rewrite IH. unfold hasSentiment.
  destruct (Qeq_bool (Company.sentiment y) v) eqn:Ey;
    destruct (Qeq_bool (Company.sentiment x) v) eqn:Ex; try reflexivity.
  apply Qeq_bool_iff in Ey, Ex. lra.
Qed.

Lemma Array_sort_stable (v : Q) (l : list Company.t) :
  filter (hasSentiment v) (Array_sort bySentiment l)
  = filter (hasSentiment v) l.
Proof.
  induction l as [|x l IH]; [reflexivity|].
  change (Array_sort bySentiment (x :: l))
    with (sort_insert bySentiment x (Array_sort bySentiment l)).
  rewrite sort_insert_stable. cbn [filter]. now rewrite IH.
Qed.

Lemma gt_Qlt (a b : Q) : gt a b = true <-> (b < a)%Q.
Proof.
  unfold gt. rewrite Qgt_alt. destruct (a ?= b)%Q; split; congruence.
Qed.

(** The scenario of the specification, with the candidates listed in
    symbol order. *)
Example betterSentiment_scenario :
  map Company.symbol
    (betterSentiment
       [ sampleCompany "A" (5 # 10); sampleCompany "B" (1 # 10);
         sampleCompany "C" (5 # 10) ] (2 # 10))
  = ["A"; "C"].
Proof. reflexivity. Qed.

(** C2 (as amended).  The ranking holds exactly the candidates whose
    sentiment is strictly above the baseline, in descending order of
    sentiment; candidates of equal sentiment stay in the order of the
    candidate list. *)
Theorem betterSentiment_ranking (sentimentResults : list Company.t)
    (baseline : Q) :
  Permutation (betterSentiment sentimentResults baseline)
              (filter (fun item => gt (Company.sentiment item) baseline)
                      sentimentResults) /\
  (forall item, In item (betterSentiment sentimentResults baseline) <->
                In item sentimentResults /\
                (baseline < Company.sentiment item)%Q) /\
  StronglySorted sentimentDescending
                 (betterSentiment sentimentResults baseline) /\
  (forall v, filter (hasSentiment v) (betterSentiment sentimentResults baseline)
             = filter (hasSentiment v)
                 (filter (fun item => gt (Company.sentiment item) baseline)
                         sentimentResults)).
Proof.
  unfold betterSentiment. fold bySentiment.
  set (kept := filter _ sentimentResults).
  assert (P : Permutation (Array_sort bySentiment kept) kept)
    by apply Array_sort_perm.
  split; [exact P|]. split; [|split].
  - intros item. split.
    + intros H. apply (Permutation_in _ P) in H. unfold kept in H.
      apply filter_In in H. destruct H as [H L].
      split; [exact H|]. now apply gt_Qlt.
    + intros [H L]. apply (Permutation_in _ (Permutation_sym P)).
      unfold kept. apply filter_In. split; [exact H|]. now apply gt_Qlt.
  - apply Array_sort_descending.
  - intros v. apply Array_sort_stable.
Qed.

(** C2, as stated, fails on a tie: with C listed before A and both at
    0.5 the ranking is [C; A], which is not symbol-ascending. *)
Lemma betterSentiment_tie_keeps_list_order :
  betterSentiment
    [ sampleCompany "C" (5 # 10); sampleCompany "A" (5 # 10);
      sampleCompany "B" (1 # 10) ] (2 # 10)
  = [ sampleCompany "C" (5 # 10); sampleCompany "A" (5 # 10) ] /\
  ~ StronglySorted rankedBefore
      (betterSentiment
         [ sampleCompany "C" (5 # 10); sampleCompany "A" (5 # 10);
           sampleCompany "B" (1 # 10) ] (2 # 10)).
Proof.
  assert (E : betterSentiment
                [ sampleCompany "C" (5 # 10); sampleCompany "A" (5 # 10);
                  sampleCompany "B" (1 # 10) ] (2 # 10)
              = [ sampleCompany "C" (5 # 10); sampleCompany "A" (5 # 10) ])
    by reflexivity.
  split; [exact E|]. rewrite E. intros S.
  apply StronglySorted_inv in S. destruct S as [_ F].
  apply Forall_inv in F. destruct F as [L|[_ N]].
  - cbn in L. lra.
  - apply N. reflexivity.
Qed.

(** ** Reasoning about runs *)

Lemma wp_ret {A : Type} (a : A) (Q : A -> Runtime -> Prop)
    (E : string -> Runtime -> Prop) (s : Runtime) :
  Q a s -> wp (ret a) Q E s.
Proof. intros H. exact H. Qed.

Lemma wp_throw {A : Type} (msg : string) (Q : A -> Runtime -> Prop)
    (E : string -> Runtime -> Prop) (s : Runtime) :
  E msg s -> wp (throw msg) Q E s.
Proof. intros H. exact H. Qed.

Lemma wp_bind {A B : Type} (m : M A) (k : A -> M B)
    (Q : B -> Runtime -> Prop) (E : string -> Runtime -> Prop) (s : Runtime) :
  wp m (fun a s' => wp (k a) Q E s') E s -> wp (bind m k) Q E s.
Proof.
  unfold wp, bind. destruct (m s) as [[a|msg|] s1]; intros H; exact H.
Qed.

Lemma wp_tryCatch {A : Type} (m : M A) (handler : string -> M A)
    (Q : A -> Runtime -> Prop) (E : string -> Runtime -> Prop) (s : Runtime) :
  wp m Q (fun msg s' => wp (handler msg) Q E s') s ->
  wp (tryCatch m handler) Q E s.
Proof.
  unfold wp, tryCatch. destruct (m s) as [[a|msg|] s1]; intros H; exact H.
Qed.

Lemma wp_finally_setState {A : Type} (m : M A) (f : State.t -> State.t)
    (Q : A -> Runtime -> Prop) (E : string -> Runtime -> Prop) (s : Runtime) :
  wp m (fun a s' => Q a (withUI f s')) (fun msg s' => E msg (withUI f s')) s ->
  wp (finally m (setState f)) Q E s.
Proof.
  unfold wp, finally, setState.
  destruct (m s) as [[a|msg|] s1]; intros H; exact H.
Qed.

Lemma wp_mono {A : Type} (m : M A) (Q Q' : A -> Runtime -> Prop)
    (E E' : string -> Runtime -> Prop) (s : Runtime) :
  wp m Q E s ->
  (forall a s', Q a s' -> Q' a s') ->
  (forall msg s', E msg s' -> E' msg s') ->
  wp m Q' E' s.
Proof.
  unfold wp. destruct (m s) as [[a|msg|] s1]; intros H HQ HE; auto.
Qed.

Lemma wp_setState (f : State.t -> State.t) (Q : unit -> Runtime -> Prop)
    (E : string -> Runtime -> Prop) (s : Runtime) :
  Q tt (withUI f s) -> wp (setState f) Q E s.
Proof. intros H. exact H. Qed.

Lemma wp_random (rng : nat -> Q) (Q : Q -> Runtime -> Prop)
    (E : string -> Runtime -> Prop) (s : Runtime) :
  Q (rng (draws s)) (drawn s) -> wp (random rng) Q E s.
Proof. intros H. exact H. Qed.

(** [mapM] under an invariant of the state: each call keeps [I] and
    relates its argument to its result by [R]. *)
Lemma wp_mapM {A B : Type} (f : A -> M B) (I : Runtime -> Prop)
    (R : A -> B -> Prop) (E : string -> Runtime -> Prop) (l : list A) :
  (forall x s, In x l -> I s -> wp (f x) (fun y s' => I s' /\ R x y) E s) ->
  forall s, I s ->
    wp (mapM f l) (fun ys s' => I s' /\ Forall2 R l ys) E s.
Proof.
  induction l as [|x l IH]; intros Hf s Hs; cbn [mapM].
  - apply wp_ret. split; [exact Hs|constructor].
  - apply wp_bind.
    eapply wp_mono; [apply Hf; [now left|exact Hs]| |auto].
    intros y s1 [H1 Rxy]. cbv beta.
    apply wp_bind.
    eapply wp_mono; [apply IH; [|exact H1]| |auto].
    + intros x' s' Hx'. apply Hf. now right.
    + intros ys s2 [H2 F]. cbv beta. apply wp_ret.
      split; [exact H2|]. now constructor.
Qed.

(** What [wp] says of a run. *)
Lemma wp_run {A : Type} (m : M A) (Q : A -> Runtime -> Prop) (s : Runtime) :
  wp m Q noThrow s -> exists a s', m s = (Ok a, s') /\ Q a s'.
Proof.
  unfold wp, noThrow. destruct (m s) as [[a|msg|] s1]; intros H;
    try contradiction.
  exists a, s1. auto.
Qed.

(** ** The scorer *)

Lemma analyzeSentiment_success (rng : nat -> Q)
    (classifierResponse : string -> Http (option Sentiment))
    (text : string) (topResult : option Sentiment) (s : Runtime) :
  classifierResponse text = Json topResult ->
  analyzeSentiment rng classifierResponse text s
  = (Ok (classified topResult), s).
Proof. intros E. unfold analyzeSentiment. rewrite E. reflexivity. Qed.

Lemma analyzeSentiment_failure (rng : nat -> Q)
    (classifierResponse : string -> Http (option Sentiment))
    (text : string) (s : Runtime) :
  (forall topResult, classifierResponse text <> Json topResult) ->
  analyzeSentiment rng classifierResponse text s
  = (Ok (fabricated (rng (draws s)) (rng (S (draws s)))), drawn (drawn s)).
Proof.
  intros F. unfold analyzeSentiment.
  destruct (classifierResponse text) as [msg| |body] eqn:E;
    try reflexivity.
  exfalso. exact (F body eq_refl).
Qed.

(** The scorer always returns and leaves the component state alone. *)
Lemma wp_analyzeSentiment (rng : nat -> Q)
    (classifierResponse : string -> Http (option Sentiment))
    (text : string) (Q : Sentiment -> Runtime -> Prop)
    (E : string -> Runtime -> Prop) (s : Runtime) :
  (forall r s', ui s' = ui s -> Q r s') ->
  wp (analyzeSentiment rng classifierResponse text) Q E s.
Proof.
  intros H. unfold wp.
  destruct (classifierResponse text) as [msg| |body] eqn:C.
  - rewrite analyzeSentiment_failure by (intros b; rewrite C; discriminate).
    now apply H.
  - rewrite analyzeSentiment_failure by (intros b; rewrite C; discriminate).
    now apply H.
  - rewrite (analyzeSentiment_success _ _ _ body) by exact C. now apply H.
Qed.

Lemma wp_scoreHeadline (rng : nat -> Q)
    (classifierResponse : string -> Http (option Sentiment))
    (item : NewsItem) (Q : NewsItem -> Runtime -> Prop)
    (E : string -> Runtime -> Prop) (s : Runtime) :
  (forall r s', ui s' = ui s -> scoredFrom item r -> Q r s') ->
  wp (scoreHeadline rng classifierResponse item) Q E s.
Proof.
  intros H. unfold scoreHeadline. apply wp_bind, wp_analyzeSentiment.
  intros r s' U. apply wp_ret. apply H; [exact U|].
  unfold scoredFrom, withSentiment. cbn. repeat split; discriminate.
Qed.

Lemma pickLabel_closed (r : Q) :
  (0 <= r < 1)%Q ->
  pickLabel r = "POSITIVE" \/ pickLabel r = "NEGATIVE"
  \/ pickLabel r = "NEUTRAL".
Proof.
  intros [H0 H1]. unfold pickLabel, index.
  assert (L : 0 <= Qfloor (r * 3)).
  { rewrite <- (Qfloor_Z 0). apply Qfloor_resp_le.
    change (inject_Z 0) with 0%Q. lra. }
  assert (U : Qfloor (r * 3) < 3).
  { apply Z.lt_nge. intros G.
    assert (inject_Z 3 <= inject_Z (Qfloor (r * 3)))%Q
      by (rewrite <- Zle_Qle; exact G).
    pose proof (Qfloor_le (r * 3)) as Fl.
    change (inject_Z 3) with 3%Q in *. lra. }
  destruct (Z.ltb_spec (Qfloor (r * 3)) 0); [lia|].
  assert (C : Qfloor (r * 3) = 0 \/ Qfloor (r * 3) = 1 \/ Qfloor (r * 3) = 2)
    by lia.
  destruct C as [->|[->| ->]]; cbn; auto.
Qed.

(** C6 (as amended).  When the classifier call fails for a headline the
    scorer signals nothing: it returns a sentiment made of two draws of
    [Math.random], whose label is one of POSITIVE, NEGATIVE and NEUTRAL
    and whose score lies in [0.5, 1).  No headline is dropped: scoring a
    list returns every item, in order, with a sentiment attached. *)
Theorem analyzeSentiment_failure_fabricates (rng : nat -> Q)
    (classifierResponse : string -> Http (option Sentiment))
    (item : NewsItem) (news : list NewsItem) (s : Runtime) :
  (forall topResult, classifierResponse (headline item) <> Json topResult) ->
  (forall n, (0 <= rng n < 1)%Q) ->
  let made := fabricated (rng (draws s)) (rng (S (draws s))) in
  scoreHeadline rng classifierResponse item s
  = (Ok (withSentiment item made), drawn (drawn s)) /\
  (label made = "POSITIVE" \/ label made = "NEGATIVE"
   \/ label made = "NEUTRAL") /\
  ((1 # 2) <= score made < 1)%Q /\
  exists scored s',
    mapM (scoreHeadline rng classifierResponse) news s = (Ok scored, s') /\
    Forall2 scoredFrom news scored.
Proof.
  intros F R made. split; [|split; [|split]].
  - unfold scoreHeadline, bind.
    rewrite analyzeSentiment_failure by exact F. reflexivity.
  - apply pickLabel_closed, R.
  - unfold made, fabricated. cbn [score].
    pose proof (R (S (draws s))). lra.
  - destruct (wp_run (mapM (scoreHeadline rng classifierResponse) news)
                (fun scored s' => True /\ Forall2 scoredFrom news scored) s)
      as (scored & s' & E & _ & F2).
    + apply (wp_mapM _ (fun _ => True)); [|exact I].
      intros x s0 _ _. apply wp_scoreHeadline. auto.
    + exists scored, s'. auto.
Qed.

Lemma analyzeSentiment_failure_fabricates_witness :
  scoreHeadline (fun _ => 1 # 4) (fun _ => NotOk) sampleScored sampleRuntime
  = (Ok (withSentiment sampleScored (fabricated (1 # 4) (1 # 4))),
     drawn (drawn sampleRuntime)) /\
  (label (fabricated (1 # 4) (1 # 4)) = "POSITIVE"
   \/ label (fabricated (1 # 4) (1 # 4)) = "NEGATIVE"
   \/ label (fabricated (1 # 4) (1 # 4)) = "NEUTRAL") /\
  ((1 # 2) <= score (fabricated (1 # 4) (1 # 4)) < 1)%Q /\
  exists scored s',
    mapM (scoreHeadline (fun _ => 1 # 4) (fun _ => NotOk)) sampleNews
      sampleRuntime = (Ok scored, s') /\
    Forall2 scoredFrom sampleNews scored.
Proof.
  apply (analyzeSentiment_failure_fabricates (fun _ => 1 # 4)
           (fun _ => NotOk) sampleScored sampleNews sampleRuntime).
  - intros topResult. discriminate.
  - intros n. split; [discriminate|reflexivity].
Defined.

(** C6, as stated, fails: with the classifier down the scorer returns a
    label, and which one depends on the draw alone. *)
Lemma analyzeSentiment_failure_returns_label :
  exists s1 s2 r1 r2,
    analyzeSentiment (fun _ => 1 # 4) (fun _ => NotOk) "Outlook cut"
      sampleRuntime = (Ok s1, r1) /\
    analyzeSentiment (fun _ => 1 # 2) (fun _ => NotOk) "Outlook cut"
      sampleRuntime = (Ok s2, r2) /\
    label s1 = "POSITIVE" /\ label s2 = "NEGATIVE".
Proof.
  eexists _, _, _, _.
  split; [vm_compute; reflexivity|].
  split; [vm_compute; reflexivity|].
  split; reflexivity.
Qed.

(** ** The peer ranking *)

Section RankingFacts.

Variable now : Z.
Variable tzMin : Z.
Variable rng : nat -> Q.
Variable newsResponse : string -> Z -> Z -> Http (list NewsItem).
Variable profileResponse : string -> Http Profile.t.
Variable peersResponse : string -> Http (list string).
Variable classifierResponse : string -> Http (option Sentiment).
Variable companyProfile : option Profile.t.

Lemma wp_fetchNews (symbol : string) (days : Z)
    (Q : list NewsItem -> Runtime -> Prop) (E : string -> Runtime -> Prop)
    (s : Runtime) :
  (forall news, Q news s) -> (forall msg, E msg s) ->
  wp (fetchNews now tzMin newsResponse symbol days) Q E s.
Proof.
  intros HQ HE. unfold wp, fetchNews.
  destruct (newsResponse symbol _ _); cbn; auto.
Qed.

(** A peer whose news request fails gets the placeholder entry, with a
    sentiment made from the next draw. *)
Lemma peerSentiment_news_failure (symbol : string) (s : Runtime) :
  (forall body,
     newsResponse symbol (from (getDateRange now tzMin 7))
                  (to (getDateRange now tzMin 7)) <> Json body) ->
  peerSentiment now tzMin rng newsResponse profileResponse classifierResponse
    symbol s
  = (Ok (placeholder symbol (rng (draws s))), drawn s).
Proof.
  intros F. unfold peerSentiment, tryCatch, bind, fetchNews.
  destruct (newsResponse symbol _ _) as [msg| |body] eqn:E;
    try reflexivity.
  exfalso. exact (F body eq_refl).
Qed.

(** Processing a peer always returns an entry for that peer and leaves
    the component state alone. *)
Lemma wp_peerSentiment (symbol : string) (Q : Company.t -> Runtime -> Prop)
    (E : string -> Runtime -> Prop) (s : Runtime) :
  (forall c s', ui s' = ui s -> Company.symbol c = symbol -> Q c s') ->
  wp (peerSentiment now tzMin rng newsResponse profileResponse
        classifierResponse symbol) Q E s.
Proof.
  intros H. unfold peerSentiment. apply wp_tryCatch, wp_bind, wp_fetchNews.
  - intros news. destruct (List.length news =? 0)%nat.
    + apply wp_ret. now apply H.
    + apply wp_bind.
      eapply wp_mono;
        [apply (wp_mapM _ (fun s' => ui s' = ui s) (fun _ _ => True));
         [|reflexivity]| |].
      * intros x s0 _ U. apply wp_scoreHeadline. intros r s' U' _.
        split; [congruence|exact I].
      * intros scored s' [U _]. cbv beta. apply wp_ret. now apply H.
      * intros msg s' X. exact X.
  - intros msg. apply wp_bind, wp_random, wp_ret. now apply H.
Qed.

(** The ranking never throws; of the component state it writes the
    company profile only. *)
Lemma wp_findCompaniesBetterSentiment (currentSymbol : string)
    (currentSentimentValue : Q) (Q : list Company.t -> Runtime -> Prop)
    (E : string -> Runtime -> Prop) (s : Runtime) :
  (forall ranking s', sameSeries (ui s) (ui s') -> Q ranking s') ->
  wp (findCompaniesBetterSentiment now tzMin rng newsResponse profileResponse
        peersResponse classifierResponse companyProfile currentSymbol
        currentSentimentValue) Q E s.
Proof.
  intros H. unfold findCompaniesBetterSentiment. apply wp_tryCatch.
  destruct (fetchCompanyProfile profileResponse currentSymbol) as [profile|].
  - apply wp_bind, wp_setState, wp_bind.
    eapply wp_mono;
      [apply (wp_mapM _ (fun s' => sameSeries (ui s) (ui s'))
                (fun _ _ => True)); [|repeat split; reflexivity]| |].
    + intros x s0 _ U. apply wp_peerSentiment. intros c s' U' _.
      split; [|exact I]. rewrite U'. exact U.
    + intros results s' [U _]. cbv beta. apply wp_ret. now apply H.
    + intros msg s' X. exact X.
  - apply wp_throw, wp_ret, H. repeat split; reflexivity.
Qed.

End RankingFacts.

(** C5 (as amended).  A failing candidate never aborts the ranking: the
    ranking returns in every world.  The candidate whose news request
    fails gets the entry [{symbol, name: symbol, industry: 'Unknown'}]
    with the sentiment [2r - 1] for the next draw [r] of [Math.random]. *)
Theorem peer_failure_placeholder
    (now tzMin : Z) (rng : nat -> Q)
    (newsResponse : string -> Z -> Z -> Http (list NewsItem))
    (profileResponse : string -> Http Profile.t)
    (peersResponse : string -> Http (list string))
    (classifierResponse : string -> Http (option Sentiment))
    (companyProfile : option Profile.t)
    (symbol currentSymbol : string) (baseline : Q) (s : Runtime) :
  (forall body,
     newsResponse symbol (from (getDateRange now tzMin 7))
                  (to (getDateRange now tzMin 7)) <> Json body) ->
  peerSentiment now tzMin rng newsResponse profileResponse classifierResponse
    symbol s
  = (Ok (placeholder symbol (rng (draws s))), drawn s) /\
  exists ranking s',
    findCompaniesBetterSentiment now tzMin rng newsResponse profileResponse
      peersResponse classifierResponse companyProfile currentSymbol baseline s
    = (Ok ranking, s').
Proof.
  intros F. split; [now apply peerSentiment_news_failure|].
  destruct (wp_run (findCompaniesBetterSentiment now tzMin rng newsResponse
                      profileResponse peersResponse classifierResponse
                      companyProfile currentSymbol baseline)
              (fun _ _ => True) s) as (ranking & s' & E & _).
  - apply wp_findCompaniesBetterSentiment. auto.
  - exists ranking, s'. exact E.
Qed.

Lemma peer_failure_placeholder_witness :
  peerSentiment sampleNow 0 sampleRng (fun _ _ _ => NotOk)
    (fun _ => Json sampleProfile) (fun _ => NotOk) "MSFT" sampleRuntime
  = (Ok (placeholder "MSFT" (sampleRng (draws sampleRuntime))),
     drawn sampleRuntime) /\
  exists ranking s',
    findCompaniesBetterSentiment sampleNow 0 sampleRng (fun _ _ _ => NotOk)
      (fun _ => Json sampleProfile) (fun _ => Json ["MSFT"; "GOOGL"])
      (fun _ => NotOk) None "AAPL" (2 # 10) sampleRuntime
    = (Ok ranking, s').
Proof.
  apply (peer_failure_placeholder sampleNow 0 sampleRng (fun _ _ _ => NotOk)
           (fun _ => Json sampleProfile) (fun _ => Json ["MSFT"; "GOOGL"])
           (fun _ => NotOk) None "MSFT" "AAPL" (2 # 10) sampleRuntime).
  intros body. discriminate.
Defined.

(** C5, as stated, fails: the sentiment of a candidate whose news request
    fails is neither 0 nor fixed; two runs that differ in the draws alone
    give it 1/7 and -1. *)
Lemma peer_failure_sentiment_is_random :
  exists c1 c2 s1 s2,
    peerSentiment sampleNow 0 (fun _ => 4 # 7) (fun _ _ _ => NotOk)
      (fun _ => Json sampleProfile) (fun _ => NotOk) "MSFT" sampleRuntime
    = (Ok c1, s1) /\
    peerSentiment sampleNow 0 (fun _ => 0%Q) (fun _ _ _ => NotOk)
      (fun _ => Json sampleProfile) (fun _ => NotOk) "MSFT" sampleRuntime
    = (Ok c2, s2) /\
    (Company.sentiment c1 == 1 # 7)%Q /\
    (Company.sentiment c2 == - (1))%Q /\
    ~ (Company.sentiment c1 == 0)%Q /\
    ~ (Company.sentiment c1 == Company.sentiment c2)%Q.
Proof.
  eexists _, _, _, _.
  split; [vm_compute; reflexivity|].
  split; [vm_compute; reflexivity|].
  repeat split; cbn; try reflexivity; intros H; discriminate H.
Qed.

(** The demo ranking has three entries, each above the baseline. *)
Lemma demoCompanies_three (currentSymbol : string) (baseline : Q) :
  List.length (demoCompanies currentSymbol baseline) = 3%nat /\
  Forall (fun c => (baseline < Company.sentiment c)%Q)
         (demoCompanies currentSymbol baseline).
Proof.
  unfold demoCompanies, includes.
  repeat (cbn -[Qplus Qminus Qmult Qlt inject_Z];
          match goal with
          | H : String.eqb currentSymbol ?x = false
            |- context [String.eqb currentSymbol ?x] => rewrite H
          | |- context [String.eqb currentSymbol ?x] =>
              let E := fresh "E" in
              destruct (String.eqb currentSymbol x) eqn:E;
              [apply String.eqb_eq in E; subst currentSymbol|]
          end);
    cbn -[Qplus Qminus Qmult Qlt inject_Z].
  all: split; [reflexivity|].
  all: repeat apply Forall_cons; try apply Forall_nil.
  all: cbn [Company.sentiment].
  all: change (inject_Z 0) with 0%Q; change (inject_Z 1) with 1%Q;
    change (inject_Z 2) with 2%Q; lra.
Qed.

(** C7 (as amended).  The ranking never fails the analysis.  When the
    profile lookup of the subject fails it returns three demo peers of a
    hardcoded industry, each above the baseline.  When the profile is
    served, the peer lookup fails and no profile is in the component
    state to pick a fallback list from, it returns the empty ranking. *)
Theorem ranking_when_resolution_fails
    (now tzMin : Z) (rng : nat -> Q)
    (newsResponse : string -> Z -> Z -> Http (list NewsItem))
    (profileResponse : string -> Http Profile.t)
    (peersResponse : string -> Http (list string))
    (classifierResponse : string -> Http (option Sentiment))
    (companyProfile : option Profile.t)
    (currentSymbol : string) (baseline : Q) (s : Runtime) :
  ((forall body, profileResponse currentSymbol <> Json body) ->
   findCompaniesBetterSentiment now tzMin rng newsResponse profileResponse
     peersResponse classifierResponse companyProfile currentSymbol baseline s
   = (Ok (demoCompanies currentSymbol baseline), s) /\
   List.length (demoCompanies currentSymbol baseline) = 3%nat /\
   Forall (fun c => (baseline < Company.sentiment c)%Q)
          (demoCompanies currentSymbol baseline)) /\
  (forall profile,
     profileResponse currentSymbol = Json profile ->
     (forall body, peersResponse currentSymbol <> Json body) ->
     companyProfile = None ->
     findCompaniesBetterSentiment now tzMin rng newsResponse profileResponse
       peersResponse classifierResponse companyProfile currentSymbol baseline s
     = (Ok [], snd (setCompanyProfile (Some profile) s))).
Proof.
  split.
  - intros F. split; [|apply demoCompanies_three].
    unfold findCompaniesBetterSentiment, tryCatch, fetchCompanyProfile.
    destruct (profileResponse currentSymbol) as [msg| |body] eqn:E;
      try reflexivity.
    exfalso. exact (F body eq_refl).
  - intros profile P F ->.
    unfold findCompaniesBetterSentiment, tryCatch, bind, fetchCompanyProfile,
      fetchPeerCompanies.
    rewrite P.
    destruct (peersResponse currentSymbol) as [msg| |body] eqn:E;
      try reflexivity.
    exfalso. exact (F body eq_refl).
Qed.

Lemma ranking_when_resolution_fails_witness :
  (findCompaniesBetterSentiment sampleNow 0 sampleRng (fun _ _ _ => NotOk)
     (fun _ => NotOk) (fun _ => NotOk) (fun _ => NotOk) None "AAPL" (2 # 10)
     sampleRuntime
   = (Ok (demoCompanies "AAPL" (2 # 10)), sampleRuntime) /\
   List.length (demoCompanies "AAPL" (2 # 10)) = 3%nat /\
   Forall (fun c => (2 # 10 < Company.sentiment c)%Q)
          (demoCompanies "AAPL" (2 # 10))) /\
  findCompaniesBetterSentiment sampleNow 0 sampleRng (fun _ _ _ => NotOk)
    (fun _ => Json sampleProfile) (fun _ => NotOk) (fun _ => NotOk) None
    "AAPL" (2 # 10) sampleRuntime
  = (Ok [], snd (setCompanyProfile (Some sampleProfile) sampleRuntime)).
Proof.
  split.
  - apply (proj1 (ranking_when_resolution_fails sampleNow 0 sampleRng
                    (fun _ _ _ => NotOk) (fun _ => NotOk) (fun _ => NotOk)
                    (fun _ => NotOk) None "AAPL" (2 # 10) sampleRuntime)).
    intros body. discriminate.
  - apply (proj2 (ranking_when_resolution_fails sampleNow 0 sampleRng
                    (fun _ _ _ => NotOk) (fun _ => Json sampleProfile)
                    (fun _ => NotOk) (fun _ => NotOk) None "AAPL" (2 # 10)
                    sampleRuntime) sampleProfile).
    + reflexivity.
    + intros body. discriminate.
    + reflexivity.
Defined.

(** C7, as stated, fails: with every lookup failing the ranking of AAPL
    is not empty, it is the three demo peers MSFT, GOOGL and ORCL. *)
Lemma ranking_of_failed_resolution_is_demo :
  exists ranking s',
    findCompaniesBetterSentiment sampleNow 0 sampleRng (fun _ _ _ => NotOk)
      (fun _ => NotOk) (fun _ => NotOk) (fun _ => NotOk) None "AAPL" (2 # 10)
      sampleRuntime
    = (Ok ranking, s') /\
    map Company.symbol ranking = ["MSFT"; "GOOGL"; "ORCL"] /\
    ranking <> [].
Proof.
  eexists _, _. split; [vm_compute; reflexivity|].
  split; [reflexivity|discriminate].
Qed.

(** ** The orchestrator *)

Section FetchDataFacts.

Variable now : Z.
Variable tzMin : Z.
Variable parseDate : string -> option Z.
Variable rng : nat -> Q.
Variable newsResponse : string -> Z -> Z -> Http (list NewsItem).
Variable quoteResponse : string -> Http Quote.t.
Variable candleResponse : string -> Z -> Z -> Http Candles.t.
Variable profileResponse : string -> Http Profile.t.
Variable peersResponse : string -> Http (list string).
Variable classifierResponse : string -> Http (option Sentiment).
Variable selectedStock : string.
Variable timeRange : Z.
Variable companyProfile : option Profile.t.

Hypothesis timeRange_selectable : In timeRange (map fst TIME_RANGES).
Hypothesis candles_aligned :
  forall sym f t, candlesAligned (candleResponse sym f t).

Lemma timeRange_window : 0 <= timeRange <= 364.
Proof.
  pose proof timeRange_selectable as H. cbn in H. lia.
Qed.

Lemma wp_processSentimentData (news : list NewsItem) (quote : Quote.t)
    (Q : list SentimentData -> Runtime -> Prop)
    (E : string -> Runtime -> Prop) (s : Runtime) :
  (forall rows s',
     ui s' = ui s -> Z.of_nat (List.length rows) = timeRange + 1 ->
     Q rows s') ->
  wp (processSentimentData now tzMin parseDate rng candleResponse
        selectedStock news quote timeRange) Q E s.
Proof.
  intros H.
  destruct (processSentimentData_rows now tzMin parseDate rng candleResponse
              selectedStock news quote timeRange s candles_aligned)
    as (rows0 & s' & Er & U & F).
  unfold wp. rewrite Er. apply H; [exact U|].
  rewrite Array_sort_length, <- (Forall2_length F).
  assert (K : List.length (dailyTable now tzMin news timeRange)
              = List.length (dict_keys (dailyTable now tzMin news timeRange))).
  { unfold dict_keys. now rewrite length_map. }
  pose proof timeRange_window as W.
  rewrite K, dailyTable_keys, windowLabels_length by lia. lia.
Qed.

Lemma wp_demoNewsItem (from : Z) (i : nat)
    (Q : NewsItem -> Runtime -> Prop) (E : string -> Runtime -> Prop)
    (s : Runtime) :
  (forall item s', ui s' = ui s -> Q item s') ->
  wp (demoNewsItem rng selectedStock from i) Q E s.
Proof.
  intros H. unfold demoNewsItem.
  apply wp_bind, wp_random, wp_bind, wp_random, wp_ret. now apply H.
Qed.

(** The fallback sets the error and stores a series of the length of the
    range. *)
Lemma wp_fetchDataFallback (msg : string) (Q : unit -> Runtime -> Prop)
    (s : Runtime) :
  (forall s',
     State.error (ui s') = Some msg ->
     Z.of_nat (List.length (State.sentimentData (ui s'))) = timeRange + 1 ->
     Q tt s') ->
  wp (fetchDataFallback now tzMin parseDate rng newsResponse candleResponse
        profileResponse peersResponse classifierResponse selectedStock
        timeRange companyProfile msg) Q noThrow s.
Proof.
  intros H. unfold fetchDataFallback.
  apply wp_bind, wp_setState, wp_bind, wp_random, wp_bind.
  eapply wp_mono;
    [apply (wp_mapM _ (fun s' => State.error (ui s') = Some msg)
              (fun _ _ => True)); [|reflexivity]| |].
  - intros i s0 _ U. apply wp_demoNewsItem. intros item s' U'.
    split; [congruence|exact I].
  - intros demoNews s1 [U1 _]. cbv beta.
    apply wp_bind, wp_setState, wp_bind, wp_setState, wp_bind.
    apply wp_processSentimentData. intros rows s2 U2 L.
    apply wp_bind, wp_setState, wp_bind, wp_setState, wp_bind, wp_setState.
    apply wp_bind, wp_findCompaniesBetterSentiment.
    intros ranking s3 (Se & Sd & _). apply wp_setState.
    apply H; cbn in *.
    + rewrite Se, U2. cbn. exact U1.
    + rewrite Sd. exact L.
  - intros m s' X. exact X.
Qed.

(** With both requests served the live path runs to its end, leaves the
    error flag alone and stores a series of the length of the range. *)
Lemma wp_fetchDataLive_served (Q : unit -> Runtime -> Prop)
    (E : string -> Runtime -> Prop) (s : Runtime) :
  topLevelServed newsResponse quoteResponse selectedStock
    (getDateRange now tzMin timeRange) ->
  (forall s',
     State.error (ui s') = State.error (ui s) ->
     Z.of_nat (List.length (State.sentimentData (ui s'))) = timeRange + 1 ->
     Q tt s') ->
  wp (fetchDataLive now tzMin parseDate rng newsResponse quoteResponse
        candleResponse profileResponse peersResponse classifierResponse
        selectedStock timeRange companyProfile) Q E s.
Proof.
  intros [[nb En] [qb Eq]] H. unfold fetchDataLive.
  apply wp_bind. unfold fetchNews at 1. rewrite En. apply wp_ret.
  apply wp_bind. unfold fetchStockQuote. rewrite Eq. apply wp_ret.
  apply wp_bind.
  eapply wp_mono;
    [apply (wp_mapM _ (fun s' => ui s' = ui s) (fun _ _ => True));
     [|reflexivity]| |].
  - intros item s0 _ U. apply wp_scoreHeadline. intros r s' U' _.
    split; [congruence|exact I].
  - intros scored s1 [U1 _]. cbv beta.
    apply wp_bind, wp_setState, wp_bind, wp_setState, wp_bind.
    apply wp_processSentimentData. intros rows s2 U2 L.
    apply wp_bind, wp_setState, wp_bind, wp_setState.
    apply wp_bind, wp_findCompaniesBetterSentiment.
    intros ranking s3 (Se & Sd & _). apply wp_setState.
    apply H; cbn in *.
    + rewrite Se, U2. cbn. now rewrite U1.
    + rewrite Sd. exact L.
  - intros m s' X. exact X.
Qed.

(** With a request not served the live path throws before it writes
    anything. *)
Lemma fetchDataLive_unserved (s : Runtime) :
  ~ topLevelServed newsResponse quoteResponse selectedStock
      (getDateRange now tzMin timeRange) ->
  exists msg,
    fetchDataLive now tzMin parseDate rng newsResponse quoteResponse
      candleResponse profileResponse peersResponse classifierResponse
      selectedStock timeRange companyProfile s
    = (Throw msg, s).
Proof.
  intros N. unfold fetchDataLive, bind, fetchNews, fetchStockQuote.
  destruct (newsResponse selectedStock _ _) as [m| |nb] eqn:En;
    [eexists; reflexivity|eexists; reflexivity|].
  cbn. destruct (quoteResponse selectedStock) as [m| |qb] eqn:Eq;
    [eexists; reflexivity|eexists; reflexivity|].
  exfalso. apply N. split; eauto.
Qed.

Lemma topLevelServed_dec :
  topLevelServed newsResponse quoteResponse selectedStock
    (getDateRange now tzMin timeRange) \/
  ~ topLevelServed newsResponse quoteResponse selectedStock
      (getDateRange now tzMin timeRange).
Proof.
  unfold topLevelServed.
  destruct (newsResponse selectedStock _ _) as [m| |nb];
    try (right; intros [[b Hb] _]; discriminate).
  destruct (quoteResponse selectedStock) as [m| |qb];
    try (right; intros [_ [b Hb]]; discriminate).
  left. eauto.
Qed.

(** C4 (as amended).  For each range the component offers, and candles
    that carry a price for each of their timestamps, a run of [fetchData]
    from any state completes.  When the news or the quote request fails,
    the state it leaves carries an error message, and the synthetic
    series it stores has the length of the requested range; the error is
    absent exactly when both requests were served, whatever the
    classifier, the candle, the profile and the peer requests did, and
    whatever error the state held before. *)
Theorem fetchData_degraded_flag (s : Runtime) :
  exists s',
    fetchData now tzMin parseDate rng newsResponse quoteResponse
      candleResponse profileResponse peersResponse classifierResponse
      selectedStock timeRange companyProfile s = (Ok tt, s') /\
    Z.of_nat (List.length (State.sentimentData (ui s'))) = timeRange + 1 /\
    (topLevelServed newsResponse quoteResponse selectedStock
       (getDateRange now tzMin timeRange) ->
     State.error (ui s') = None) /\
    (~ topLevelServed newsResponse quoteResponse selectedStock
         (getDateRange now tzMin timeRange) ->
     exists msg, State.error (ui s') = Some msg).
Proof.
  set (served := topLevelServed newsResponse quoteResponse selectedStock
                   (getDateRange now tzMin timeRange)).
  destruct (wp_run
              (fetchData now tzMin parseDate rng newsResponse quoteResponse
                 candleResponse profileResponse peersResponse
                 classifierResponse selectedStock timeRange companyProfile)
              (fun _ s' =>
                 Z.of_nat (List.length (State.sentimentData (ui s')))
                 = timeRange + 1 /\
                 (served -> State.error (ui s') = None) /\
                 (~ served -> exists msg, State.error (ui s') = Some msg))
              s) as ([] & s' & E & P).
  - unfold fetchData.
    apply wp_bind, wp_setState, wp_bind, wp_setState, wp_bind, wp_setState.
    apply wp_finally_setState, wp_tryCatch.
    destruct topLevelServed_dec as [S|N].
    + apply wp_fetchDataLive_served; [exact S|].
      intros s1 Ee L. cbn in *. repeat split.
      * exact L.
      * intros _. exact Ee.
      * intros N. contradiction.
    + match goal with
      | |- wp _ _ _ ?st =>
          destruct (fetchDataLive_unserved st N) as (msg & El)
      end.
      unfold wp at 1. rewrite El.
      apply wp_fetchDataFallback. intros s1 Ee L. cbn in *. repeat split.
      * exact L.
      * intros S. contradiction.
      * intros _. exists msg. exact Ee.
  - exists s'. split; [exact E|exact P].
Qed.

End FetchDataFacts.

(** Every request fails: the seven-day series is synthetic, eight rows
    long, and the error is set. *)
Lemma fetchData_degraded_flag_witness :
  exists s',
    fetchData sampleNow 0 (parseDate2001 0) sampleRng (fun _ _ _ => NotOk)
      (fun _ => NotOk) (fun _ _ _ => NotOk) (fun _ => NotOk)
      (fun _ => NotOk) (fun _ => NotOk) "AAPL" 7 None sampleRuntime
    = (Ok tt, s') /\
    Z.of_nat (List.length (State.sentimentData (ui s'))) = 7 + 1 /\
    (topLevelServed (fun _ _ _ => NotOk) (fun _ => NotOk) "AAPL"
       (getDateRange sampleNow 0 7) ->
     State.error (ui s') = None) /\
    (~ topLevelServed (fun _ _ _ => NotOk) (fun _ => NotOk) "AAPL"
         (getDateRange sampleNow 0 7) ->
     exists msg, State.error (ui s') = Some msg).
Proof.
  apply (fetchData_degraded_flag sampleNow 0 (parseDate2001 0) sampleRng
           (fun _ _ _ => NotOk) (fun _ => NotOk) (fun _ _ _ => NotOk)
           (fun _ => NotOk) (fun _ => NotOk) (fun _ => NotOk) "AAPL" 7 None).
  - right. left. reflexivity.
  - intros sym f t. exact I.
Defined.

(** The message a failed news request leaves in the component state. *)
Example fetchData_error_message :
  State.error
    (ui (snd (fetchData sampleNow 0 (parseDate2001 0) sampleRng
                (fun _ _ _ => NotOk) (fun _ => NotOk) (fun _ _ _ => NotOk)
                (fun _ => NotOk) (fun _ => NotOk) (fun _ => NotOk) "AAPL" 7
                None sampleRuntime)))
  = Some "Failed to fetch news".
Proof. vm_compute. reflexivity. Qed.

(** C4, as stated, fails: the news and the quote request are not
    served, and the candles hold a timestamp without a price.  The
    fallback throws while it builds its series: the error is set, the
    synthetic news are stored, and no series is, where the range asks
    for eight rows. *)
Lemma fetchData_degraded_without_series :
  exists msg s',
    fetchData sampleNow 0 (parseDate2001 0) sampleRng
      (fun _ _ _ => NotOk) (fun _ => NotOk)
      (fun _ _ _ =>
         Json {| Candles.c := Some []; Candles.t_ := Some [1004788800] |})
      (fun _ => NotOk) (fun _ => NotOk) (fun _ => NotOk) "AAPL" 7 None
      sampleRuntime
    = (Throw msg, s') /\
    ~ topLevelServed (fun _ _ _ => NotOk) (fun _ => NotOk) "AAPL"
        (getDateRange sampleNow 0 7) /\
    State.error (ui s') = Some "Failed to fetch news" /\
    List.length (State.newsData (ui s')) = 21%nat /\
    State.sentimentData (ui s') = [] /\
    Z.of_nat (List.length (State.sentimentData (ui s'))) <> 7 + 1.
Proof.
  eexists _, _. split; [vm_compute; reflexivity|].
  split; [intros [[body H] _]; discriminate H|].
  repeat split. cbn. discriminate.
Qed.

(** The error flag tells nothing about the classifier: with the news and
    the quote served and every classifier call failing, two runs that
    differ in the draws store no error and different sentiments for the
    same headlines. *)
Example fetchData_fabricated_without_flag :
  exists s1' s2',
    fetchData sampleNow 0 (parseDate2001 0) sampleRng
      (fun _ _ _ => Json sampleNews) (fun _ => Json sampleQuote)
      (fun _ _ _ => NotOk) (fun _ => NotOk) (fun _ => NotOk)
      (fun _ => NotOk) "AAPL" 7 None sampleRuntime = (Ok tt, s1') /\
    fetchData sampleNow 0 (parseDate2001 0) (fun _ => (2 # 3)%Q)
      (fun _ _ _ => Json sampleNews) (fun _ => Json sampleQuote)
      (fun _ _ _ => NotOk) (fun _ => NotOk) (fun _ => NotOk)
      (fun _ => NotOk) "AAPL" 7 None sampleRuntime = (Ok tt, s2') /\
    State.error (ui s1') = None /\
    State.error (ui s2') = None /\
    map headline (State.newsData (ui s1'))
    = map headline (State.newsData (ui s2')) /\
    map (fun item => option_map label (sentiment item))
        (State.newsData (ui s1'))
    <> map (fun item => option_map label (sentiment item))
           (State.newsData (ui s2')).
Proof.
  eexists _, _.
  split; [vm_compute; reflexivity|].
  split; [vm_compute; reflexivity|].
  repeat split. vm_compute. discriminate.
Qed.

(** ** Runs that differ in the draws of [Math.random] *)

Lemma withUI_id (s : Runtime) : withUI (fun u => u) s = s.
Proof. destruct s. reflexivity. Qed.

Lemma rngFree_ret {A : Type} (a : A) : rngFree (fun _ => ret a).
Proof.
  exists a, (fun u => u). intros rng s. now rewrite withUI_id.
Qed.

Lemma rngFree_setState (f : State.t -> State.t) :
  rngFree (fun _ => setState f).
Proof. exists tt, f. intros rng s. reflexivity. Qed.

Lemma rngFree_bind {A B : Type} (m : (nat -> Q) -> M A)
    (k : (nat -> Q) -> A -> M B) :
  rngFree m -> (forall a, rngFree (fun rng => k rng a)) ->
  rngFree (fun rng => bind (m rng) (k rng)).
Proof.
  intros (a & f & Hm) Hk. destruct (Hk a) as (b & g & Hb).
  exists b, (fun u => g (f u)). intros rng s.
  unfold bind. rewrite Hm, Hb. reflexivity.
Qed.

Lemma rngFree_tryCatch {A : Type} (m : (nat -> Q) -> M A)
    (handler : (nat -> Q) -> string -> M A) :
  rngFree m -> rngFree (fun rng => tryCatch (m rng) (handler rng)).
Proof.
  intros (a & f & Hm). exists a, f. intros rng s.
  unfold tryCatch. now rewrite Hm.
Qed.

Lemma rngFree_mapM {A B : Type} (f : (nat -> Q) -> A -> M B) (l : list A) :
  (forall x, rngFree (fun rng => f rng x)) ->
  rngFree (fun rng => mapM (f rng) l).
Proof.
  intros Hf. induction l as [|x l IH]; cbn [mapM].
  - apply rngFree_ret.
  - apply (rngFree_bind (fun rng => f rng x)
             (fun rng y => ys <- mapM (f rng) l ;; ret (y :: ys)));
      [apply Hf|].
    intros y.
    apply (rngFree_bind (fun rng => mapM (f rng) l)
             (fun rng ys => ret (y :: ys))); [exact IH|].
    intros ys. apply rngFree_ret.
Qed.

(** A computation without component-state effect, whatever the draws. *)
Lemma rngFree_keepsUI {A : Type} (m : (nat -> Q) -> M A) :
  rngFree m -> (forall rng, keepsUI (m rng)) ->
  exists a, forall rng s, m rng s = (Ok a, s).
Proof.
  intros (a & f & Hm) K. exists a. intros rng s.
  pose proof (K rng s) as U. rewrite Hm in *. cbn in U.
  destruct s as [d u]. unfold withUI in *. cbn in *. now rewrite U.
Qed.

Lemma map_rowKey_entryKey (table : Dict Bucket.t) (rows : list SentimentData) :
  Forall2 (fun e r =>
             date r = fst e /\
             avgSentiment r = average (Bucket.sentiments (snd e)) /\
             volume r = Bucket.volume (snd e)) table rows ->
  map rowKey rows = map entryKey table.
Proof.
  induction 1 as [|e r table rows (Hd & Ha & Hv) F IH]; cbn [map];
    [reflexivity|].
  rewrite IH. unfold rowKey, entryKey. now rewrite Hd, Ha, Hv.
Qed.

(** Date, mean and volume of every row, and the order of the rows, are
    the same in every run. *)
Lemma processSentimentData_keys
    (now tzMin : Z) (parseDate : string -> option Z) (rng : nat -> Q)
    (candleResponse : string -> Z -> Z -> Http Candles.t)
    (selectedStock : string) (news : list NewsItem) (quote : Quote.t)
    (days : Z) (s : Runtime) :
  (forall sym f t, candlesAligned (candleResponse sym f t)) ->
  exists rows s',
    processSentimentData now tzMin parseDate rng candleResponse selectedStock
      news quote days s = (Ok rows, s') /\
    ui s' = ui s /\
    map rowKey rows = seriesKeys now tzMin parseDate news days.
Proof.
  intros HC.
  destruct (processSentimentData_rows now tzMin parseDate rng candleResponse
              selectedStock news quote days s HC) as (rows0 & s' & E & U & F).
  exists (Array_sort (compareDates parseDate) rows0), s'.
  split; [exact E|]. split; [exact U|].
  unfold seriesKeys. rewrite <- (map_rowKey_entryKey _ _ F).
  apply Array_sort_map. intros a b. reflexivity.
Qed.

Lemma wp_keepsUI {A : Type} (m : M A) :
  (forall s, wp m (fun _ s' => ui s' = ui s) (fun _ s' => ui s' = ui s) s) ->
  keepsUI m.
Proof.
  intros H s. specialize (H s). unfold wp in H.
  destruct (m s) as [[a|msg|] s']; cbn; [exact H|exact H|contradiction].
Qed.

Section Reproducible.

Variable now : Z.
Variable tzMin : Z.
Variable parseDate : string -> option Z.
Variable newsResponse : string -> Z -> Z -> Http (list NewsItem).
Variable quoteResponse : string -> Http Quote.t.
Variable candleResponse : string -> Z -> Z -> Http Candles.t.
Variable profileResponse : string -> Http Profile.t.
Variable peersResponse : string -> Http (list string).
Variable classifierResponse : string -> Http (option Sentiment).
Variable selectedStock : string.
Variable timeRange : Z.
Variable companyProfile : option Profile.t.

Hypothesis classifier_served :
  forall text, exists topResult, classifierResponse text = Json topResult.

Lemma rngFree_scoreHeadline (item : NewsItem) :
  rngFree (fun rng => scoreHeadline rng classifierResponse item).
Proof.
  destruct (classifier_served (headline item)) as [r E].
  exists (withSentiment item (classified r)), (fun u => u). intros rng s.
  unfold scoreHeadline, bind.
  rewrite (analyzeSentiment_success _ _ _ r) by exact E.
  now rewrite withUI_id.
Qed.

(** Scoring a list gives the same scored list in every run. *)
Lemma scoreHeadlines_fixed (news : list NewsItem) :
  exists scored, forall rng s,
    mapM (scoreHeadline rng classifierResponse) news s = (Ok scored, s).
Proof.
  apply (rngFree_keepsUI
           (fun rng => mapM (scoreHeadline rng classifierResponse) news)).
  - apply rngFree_mapM. intros item. apply rngFree_scoreHeadline.
  - intros rng. apply keepsUI_mapM. intros item. apply wp_keepsUI.
    intros s. apply wp_scoreHeadline. auto.
Qed.

Section Peers.

Hypothesis news_served :
  forall sym f t, exists body, newsResponse sym f t = Json body.

Lemma rngFree_fetchNews (symbol : string) (days : Z) :
  rngFree (fun _ : nat -> Q => fetchNews now tzMin newsResponse symbol days).
Proof.
  unfold fetchNews.
  destruct (news_served symbol (from (getDateRange now tzMin days))
              (to (getDateRange now tzMin days))) as [body ->].
  apply rngFree_ret.
Qed.

Lemma rngFree_peerSentiment (symbol : string) :
  rngFree (fun rng => peerSentiment now tzMin rng newsResponse
                        profileResponse classifierResponse symbol).
Proof.
  unfold peerSentiment. cbv zeta.
  apply (rngFree_tryCatch _
           (fun rng _ => r <- random rng ;; ret (placeholder symbol r))).
  apply (rngFree_bind
           (fun _ => fetchNews now tzMin newsResponse symbol 7));
    [apply rngFree_fetchNews|].
  intros news. destruct (List.length news =? 0)%nat; [apply rngFree_ret|].
  apply (rngFree_bind
           (fun rng => mapM (scoreHeadline rng classifierResponse)
                         (firstn 8 news))).
  - apply rngFree_mapM. intros item. apply rngFree_scoreHeadline.
  - intros scored. apply rngFree_ret.
Qed.

(** With every news request served the ranking is the same in every
    run. *)
Lemma rngFree_findCompaniesBetterSentiment (currentSymbol : string)
    (baseline : Q) :
  rngFree (fun rng =>
             findCompaniesBetterSentiment now tzMin rng newsResponse
               profileResponse peersResponse classifierResponse
               companyProfile currentSymbol baseline).
Proof.
  unfold findCompaniesBetterSentiment.
  destruct (fetchCompanyProfile profileResponse currentSymbol) as [profile|].
  - apply (rngFree_tryCatch _
             (fun _ _ => ret (demoCompanies currentSymbol baseline))).
    apply (rngFree_bind (fun _ => setCompanyProfile (Some profile)));
      [apply rngFree_setState|].
    intros _.
    apply (rngFree_bind
             (fun rng => mapM (peerSentiment now tzMin rng newsResponse
                                 profileResponse classifierResponse)
                              (firstn 6 (fetchPeerCompanies peersResponse
                                           companyProfile currentSymbol)))).
    + apply rngFree_mapM. intros symbol. apply rngFree_peerSentiment.
    + intros results. apply rngFree_ret.
  - exists (demoCompanies currentSymbol baseline), (fun u => u).
    intros rng s. unfold tryCatch, throw, ret. now rewrite withUI_id.
Qed.

End Peers.

End Reproducible.

Section ReproducibleRuns.

Variable now : Z.
Variable tzMin : Z.
Variable parseDate : string -> option Z.
Variable newsResponse : string -> Z -> Z -> Http (list NewsItem).
Variable quoteResponse : string -> Http Quote.t.
Variable candleResponse : string -> Z -> Z -> Http Candles.t.
Variable profileResponse : string -> Http Profile.t.
Variable peersResponse : string -> Http (list string).
Variable classifierResponse : string -> Http (option Sentiment).
Variable selectedStock : string.
Variable timeRange : Z.

Hypothesis candles_aligned :
  forall sym f t, candlesAligned (candleResponse sym f t).
Hypothesis top_level_served :
  topLevelServed newsResponse quoteResponse selectedStock
    (getDateRange now tzMin timeRange).
Hypothesis classifier_served :
  forall text, exists topResult, classifierResponse text = Json topResult.

(** The ranking never throws, and a run of it can be named. *)
Lemma wp_findCompaniesBetterSentiment_run (rng : nat -> Q)
    (companyProfile : option Profile.t)
    (currentSymbol : string) (baseline : Q)
    (Q : list Company.t -> Runtime -> Prop)
    (E : string -> Runtime -> Prop) (s : Runtime) :
  (forall ranking s',
     findCompaniesBetterSentiment now tzMin rng newsResponse profileResponse
       peersResponse classifierResponse companyProfile currentSymbol
       baseline s = (Ok ranking, s') ->
     sameSeries (ui s) (ui s') -> Q ranking s') ->
  wp (findCompaniesBetterSentiment now tzMin rng newsResponse profileResponse
        peersResponse classifierResponse companyProfile currentSymbol
        baseline) Q E s.
Proof.
  intros H.
  destruct (wp_run _ _ s
              (wp_findCompaniesBetterSentiment now tzMin rng newsResponse
                 profileResponse peersResponse classifierResponse
                 companyProfile currentSymbol baseline
                 (fun _ s' => sameSeries (ui s) (ui s')) noThrow s
                 (fun _ _ X => X))) as (ranking & s' & Er & S).
  unfold wp. rewrite Er. now apply H.
Qed.

(** What the live path stores that neither a draw nor the closure can
    change. *)
Lemma wp_fetchDataLive_fixed :
  exists scored, forall rng companyProfile
                        (Q : unit -> Runtime -> Prop)
                        (E : string -> Runtime -> Prop) s,
    (forall s',
       State.error (ui s') = State.error (ui s) ->
       State.newsData (ui s') = scored ->
       map rowKey (State.sentimentData (ui s'))
       = seriesKeys now tzMin parseDate scored timeRange ->
       State.currentSentiment (ui s') = overallSentiment scored ->
       (exists sm sm',
          findCompaniesBetterSentiment now tzMin rng newsResponse
            profileResponse peersResponse classifierResponse companyProfile
            selectedStock (overallSentiment scored) sm
          = (Ok (State.companiesWithBetterSentiment (ui s')), sm')) ->
       Q tt s') ->
    wp (fetchDataLive now tzMin parseDate rng newsResponse quoteResponse
          candleResponse profileResponse peersResponse classifierResponse
          selectedStock timeRange companyProfile) Q E s.
Proof.
  destruct top_level_served as [[nb En] [qb Eq]].
  destruct (scoreHeadlines_fixed classifierResponse classifier_served
              (firstn 50
                 (filter (fun item => negb (String.eqb (headline item) ""))
                         nb))) as [scored Hs].
  exists scored. intros rng companyProfile Q E s H. unfold fetchDataLive.
  apply wp_bind. unfold fetchNews at 1. rewrite En. apply wp_ret.
  apply wp_bind. unfold fetchStockQuote. rewrite Eq. apply wp_ret.
  apply wp_bind. unfold wp at 1. rewrite Hs.
  apply wp_bind, wp_setState, wp_bind, wp_setState, wp_bind.
  match goal with
  | |- wp _ _ _ ?st =>
      destruct (processSentimentData_keys now tzMin parseDate rng
                  candleResponse selectedStock scored qb timeRange st
                  candles_aligned) as (rows & s2 & Er & U2 & K)
  end.
  unfold wp at 1. rewrite Er.
  apply wp_bind, wp_setState, wp_bind, wp_setState.
  apply wp_bind, wp_findCompaniesBetterSentiment_run.
  intros ranking s3 Run (Se & Sd & Sn & Sc). apply wp_setState.
  apply H; cbn in *.
  - rewrite Se, U2. reflexivity.
  - rewrite Sn, U2. reflexivity.
  - rewrite Sd. exact K.
  - rewrite Sc. reflexivity.
  - eexists _, _. exact Run.
Qed.

End ReproducibleRuns.

(** [companyProfile] reaches the ranking through the fallback lists of
    [fetchPeerCompanies] alone. *)
Lemma findCompaniesBetterSentiment_closure
    (now tzMin : Z) (rng : nat -> Q)
    (newsResponse : string -> Z -> Z -> Http (list NewsItem))
    (profileResponse : string -> Http Profile.t)
    (peersResponse : string -> Http (list string))
    (classifierResponse : string -> Http (option Sentiment))
    (p1 p2 : option Profile.t) (currentSymbol : string) :
  fallbackPeersUnused profileResponse peersResponse currentSymbol \/ p1 = p2 ->
  findCompaniesBetterSentiment now tzMin rng newsResponse profileResponse
    peersResponse classifierResponse p1 currentSymbol
  = findCompaniesBetterSentiment now tzMin rng newsResponse profileResponse
      peersResponse classifierResponse p2 currentSymbol.
Proof.
  intros [[H|[body H]]| ->]; [| |reflexivity].
  - unfold findCompaniesBetterSentiment, fetchCompanyProfile.
    destruct (profileResponse currentSymbol) as [m| |b]; try reflexivity.
    exfalso. exact (H b eq_refl).
  - unfold findCompaniesBetterSentiment, fetchPeerCompanies. rewrite H.
    reflexivity.
Qed.

Lemma fetchData_closure
    (now tzMin : Z) (parseDate : string -> option Z) (rng : nat -> Q)
    (newsResponse : string -> Z -> Z -> Http (list NewsItem))
    (quoteResponse : string -> Http Quote.t)
    (candleResponse : string -> Z -> Z -> Http Candles.t)
    (profileResponse : string -> Http Profile.t)
    (peersResponse : string -> Http (list string))
    (classifierResponse : string -> Http (option Sentiment))
    (selectedStock : string) (timeRange : Z) (p1 p2 : option Profile.t) :
  fallbackPeersUnused profileResponse peersResponse selectedStock \/ p1 = p2 ->
  fetchData now tzMin parseDate rng newsResponse quoteResponse candleResponse
    profileResponse peersResponse classifierResponse selectedStock timeRange
    p1
  = fetchData now tzMin parseDate rng newsResponse quoteResponse
      candleResponse profileResponse peersResponse classifierResponse
      selectedStock timeRange p2.
Proof.
  intros H. unfold fetchData, fetchDataLive, fetchDataFallback.
  rewrite (findCompaniesBetterSentiment_closure now tzMin rng newsResponse
             profileResponse peersResponse classifierResponse p1 p2
             selectedStock H).
  reflexivity.
Qed.

(** C3 (as amended).  Two runs of [fetchData] on the same served inputs
    (news, quote, candles, classifier results), whatever [Math.random]
    draws in each, whatever state each starts from and whatever company
    profile the render that starts it holds ([p1], [p2]), store the same
    scored news, the same overall sentiment, and daily series with the
    same dates, mean sentiments and volumes in the same order.  They
    store the same peer ranking when every peer's news request is served
    and the fallback lists of [fetchPeerCompanies] are not used or the
    two renders hold the same profile.  The stock price of a row is left
    out: without an exact candle match it is a fresh draw. *)
Theorem fetchData_reproducible
    (now tzMin : Z) (parseDate : string -> option Z)
    (newsResponse : string -> Z -> Z -> Http (list NewsItem))
    (quoteResponse : string -> Http Quote.t)
    (candleResponse : string -> Z -> Z -> Http Candles.t)
    (profileResponse : string -> Http Profile.t)
    (peersResponse : string -> Http (list string))
    (classifierResponse : string -> Http (option Sentiment))
    (selectedStock : string) (timeRange : Z)
    (p1 p2 : option Profile.t)
    (rng1 rng2 : nat -> Q) (s1 s2 : Runtime) :
  (forall sym f t, candlesAligned (candleResponse sym f t)) ->
  topLevelServed newsResponse quoteResponse selectedStock
    (getDateRange now tzMin timeRange) ->
  (forall text, exists topResult, classifierResponse text = Json topResult) ->
  exists s1' s2',
    fetchData now tzMin parseDate rng1 newsResponse quoteResponse
      candleResponse profileResponse peersResponse classifierResponse
      selectedStock timeRange p1 s1 = (Ok tt, s1') /\
    fetchData now tzMin parseDate rng2 newsResponse quoteResponse
      candleResponse profileResponse peersResponse classifierResponse
      selectedStock timeRange p2 s2 = (Ok tt, s2') /\
    map rowKey (State.sentimentData (ui s1'))
    = map rowKey (State.sentimentData (ui s2')) /\
    State.newsData (ui s1') = State.newsData (ui s2') /\
    State.currentSentiment (ui s1') = State.currentSentiment (ui s2') /\
    ((forall sym f t, exists body, newsResponse sym f t = Json body) ->
     fallbackPeersUnused profileResponse peersResponse selectedStock
     \/ p1 = p2 ->
     State.companiesWithBetterSentiment (ui s1')
     = State.companiesWithBetterSentiment (ui s2')).
Proof.
  intros HC HS HK.
  destruct (wp_fetchDataLive_fixed now tzMin parseDate newsResponse
              quoteResponse candleResponse profileResponse peersResponse
              classifierResponse selectedStock timeRange
              HC HS HK) as [scored Hl].
  set (cur := overallSentiment scored) in *.
  assert (R : forall rng p s,
             exists s',
               fetchData now tzMin parseDate rng newsResponse quoteResponse
                 candleResponse profileResponse peersResponse
                 classifierResponse selectedStock timeRange p s
               = (Ok tt, s') /\
               State.newsData (ui s') = scored /\
               map rowKey (State.sentimentData (ui s'))
               = seriesKeys now tzMin parseDate scored timeRange /\
               State.currentSentiment (ui s') = cur /\
               exists sm sm',
                 findCompaniesBetterSentiment now tzMin rng newsResponse
                   profileResponse peersResponse classifierResponse
                   p selectedStock cur sm
                 = (Ok (State.companiesWithBetterSentiment (ui s')), sm')).
  { intros rng p s.
    destruct (wp_run
                (fetchData now tzMin parseDate rng newsResponse quoteResponse
                   candleResponse profileResponse peersResponse
                   classifierResponse selectedStock timeRange p)
                (fun _ s' =>
                   State.newsData (ui s') = scored /\
                   map rowKey (State.sentimentData (ui s'))
                   = seriesKeys now tzMin parseDate scored timeRange /\
                   State.currentSentiment (ui s') = cur /\
                   exists sm sm',
                     findCompaniesBetterSentiment now tzMin rng newsResponse
                       profileResponse peersResponse classifierResponse
                       p selectedStock cur sm
                     = (Ok (State.companiesWithBetterSentiment (ui s')), sm'))
                s) as ([] & s' & E & P).
    - unfold fetchData.
      apply wp_bind, wp_setState, wp_bind, wp_setState, wp_bind, wp_setState.
      apply wp_finally_setState, wp_tryCatch, Hl.
      intros s0 _ Hn Hk Hc Hr. cbn. auto.
    - exists s'. auto. }
  destruct (R rng1 p1 s1) as (s1' & E1 & N1 & K1 & C1 & sm1 & sm1' & F1).
  destruct (R rng2 p2 s2) as (s2' & E2 & N2 & K2 & C2 & sm2 & sm2' & F2).
  exists s1', s2'. repeat split; try assumption; try congruence.
  intros HN HU.
  rewrite (findCompaniesBetterSentiment_closure now tzMin rng1 newsResponse
             profileResponse peersResponse classifierResponse p1 p2
             selectedStock HU) in F1.
  destruct (rngFree_findCompaniesBetterSentiment now tzMin newsResponse
              profileResponse peersResponse classifierResponse p2
              HK HN selectedStock cur) as (ranking & f & Hf).
  rewrite Hf in F1, F2. congruence.
Qed.

(** Two runs that differ in the draws, the state they start from and the
    profile their render holds: the first one from the empty state of a
    mounted component, the second from a state that holds the profile. *)
Lemma fetchData_reproducible_witness :
  exists s1' s2',
    fetchData sampleNow 0 (parseDate2001 0) sampleRng
      (fun _ _ _ => Json sampleNews) (fun _ => Json sampleQuote)
      (fun _ _ _ => Json sampleCandles) (fun _ => Json sampleProfile)
      (fun _ => Json ["MSFT"; "GOOGL"]) sampleClassifier "AAPL" 1 None
      sampleRuntime = (Ok tt, s1') /\
    fetchData sampleNow 0 (parseDate2001 0) (fun _ => 0%Q)
      (fun _ _ _ => Json sampleNews) (fun _ => Json sampleQuote)
      (fun _ _ _ => Json sampleCandles) (fun _ => Json sampleProfile)
      (fun _ => Json ["MSFT"; "GOOGL"]) sampleClassifier "AAPL" 1
      (Some sampleProfile) sampleLaterRuntime = (Ok tt, s2') /\
    map rowKey (State.sentimentData (ui s1'))
    = map rowKey (State.sentimentData (ui s2')) /\
    State.newsData (ui s1') = State.newsData (ui s2') /\
    State.currentSentiment (ui s1') = State.currentSentiment (ui s2') /\
    ((forall (sym : string) (f t : Z),
        exists body, Json sampleNews = Json body) ->
     fallbackPeersUnused (fun _ => Json sampleProfile)
       (fun _ => Json ["MSFT"; "GOOGL"]) "AAPL"
     \/ None = Some sampleProfile ->
     State.companiesWithBetterSentiment (ui s1')
     = State.companiesWithBetterSentiment (ui s2')).
Proof.
  apply (fetchData_reproducible sampleNow 0 (parseDate2001 0)
           (fun _ _ _ => Json sampleNews) (fun _ => Json sampleQuote)
           (fun _ _ _ => Json sampleCandles) (fun _ => Json sampleProfile)
           (fun _ => Json ["MSFT"; "GOOGL"]) sampleClassifier "AAPL" 1
           None (Some sampleProfile)
           sampleRng (fun _ => 0%Q) sampleRuntime sampleLaterRuntime).
  - intros sym f t. cbn. lia.
  - split; eexists; reflexivity.
  - intros text. eexists. reflexivity.
Defined.

(** C3, as stated, fails: on the same served inputs two runs that differ
    in the draws alone store different stock prices. *)
Lemma fetchData_prices_differ :
  exists s1' s2',
    fetchData sampleNow 0 (parseDate2001 0) sampleRng
      (fun _ _ _ => Json sampleNews) (fun _ => Json sampleQuote)
      (fun _ _ _ => Json sampleCandles) (fun _ => Json sampleProfile)
      (fun _ => Json ["MSFT"; "GOOGL"]) sampleClassifier "AAPL" 1 None
      sampleRuntime = (Ok tt, s1') /\
    fetchData sampleNow 0 (parseDate2001 0) (fun _ => 0%Q)
      (fun _ _ _ => Json sampleNews) (fun _ => Json sampleQuote)
      (fun _ _ _ => Json sampleCandles) (fun _ => Json sampleProfile)
      (fun _ => Json ["MSFT"; "GOOGL"]) sampleClassifier "AAPL" 1 None
      sampleRuntime = (Ok tt, s2') /\
    ~ Forall2 (fun a b => (stockPrice a == stockPrice b)%Q)
        (State.sentimentData (ui s1')) (State.sentimentData (ui s2')).
Proof.
  eexists _, _.
  split; [vm_compute; reflexivity|].
  split; [vm_compute; reflexivity|].
  cbn [ui State.sentimentData]. intros F.
  inversion F as [|a b l l' H F']; subst.
  inversion F' as [|a' b' l2 l2' H' F'']; subst.
  vm_compute in H'. discriminate H'.
Qed.

(** Nor does a second run, started from the state the first one left,
    repeat the ranking of the first when the peers request fails.  The
    served inputs are the same and every news request is served.  The
    first run starts from the state of the mounted component, which
    holds no profile: [fetchPeerCompanies] finds no fallback list and the
    ranking is empty.  It stores the served profile, which the render
    that starts the second run holds: that run ranks the peers of the
    Technology list. *)
Example fetchData_second_run_ranks_peers :
  exists s1' s2',
    fetchDataEffect sampleNow 0 (parseDate2001 0) sampleRng samplePeerNews
      (fun _ => Json sampleQuote) (fun _ _ _ => Json sampleCandles)
      (fun _ => Json sampleProfile) (fun _ => NotOk) sampleClassifier
      "AAPL" 1 sampleRuntime = (Ok tt, s1') /\
    fetchDataEffect sampleNow 0 (parseDate2001 0) sampleRng samplePeerNews
      (fun _ => Json sampleQuote) (fun _ _ _ => Json sampleCandles)
      (fun _ => Json sampleProfile) (fun _ => NotOk) sampleClassifier
      "AAPL" 1 s1' = (Ok tt, s2') /\
    State.companiesWithBetterSentiment (ui s1') = [] /\
    map Company.symbol (State.companiesWithBetterSentiment (ui s2'))
    = ["MSFT"; "GOOGL"; "IBM"] /\
    State.newsData (ui s1') = State.newsData (ui s2') /\
    map rowKey (State.sentimentData (ui s1'))
    = map rowKey (State.sentimentData (ui s2')).
Proof.
  eexists _, _.
  split; [vm_compute; reflexivity|].
  split; [vm_compute; reflexivity|].
  repeat split.
Qed.

(** ** The date range and the day labels *)

Lemma getDateRange_from (now tzMin days : Z) :
  from (getDateRange now tzMin days)
  = fromDate (getDateRange now tzMin days) / 1000.
Proof. unfold getDateRange. cbv [from fromDate]. reflexivity. Qed.

Lemma getDateRange_to (now tzMin days : Z) :
  to (getDateRange now tzMin days)
  = toDate (getDateRange now tzMin days) / 1000.
Proof. unfold getDateRange. cbv [to toDate]. reflexivity. Qed.

(** Moving the date of a local time value by [k] moves it by [k] whole
    days. *)
Lemma MakeDate_shift (lt k : Z) :
  MakeDate (MakeDay (YearFromTime lt) (MonthFromTime lt) (DateFromTime lt + k))
           (TimeWithinDay lt)
  = lt + k * msPerDay.
Proof.
  unfold MakeDate, MakeDay, MonthFromTime, DateFromTime, DateFromDayInYear,
    YearFromTime, DayWithinYear.
  pose proof (Day_TimeWithinDay lt) as E. lia.
Qed.

Lemma window_bounds (now tzMin days : Z) :
  0 <= days ->
  midnight tzMin (today now tzMin - days) <= now
  <= midnight tzMin (today now tzMin) + 86399999 /\
  midnight tzMin (today now tzMin - days) <= now - days * msPerDay
  <= midnight tzMin (today now tzMin) + 86399999.
Proof.
  intros H.
  unfold midnight, today, Day, LocalTime, LocalTZA, msPerDay.
  Z.div_mod_to_equations. lia.
Qed.

(** Under the rules of a zone that keeps its offset from the first
    midnight of the range to the end of today, the two dates of the
    range are those of the fixed offset. *)
Lemma Zoned_fromDate (z : Zone.t) (now tzMin days : Z) :
  0 <= days ->
  keepsOffset z tzMin (midnight tzMin (today now tzMin - days))
              (midnight tzMin (today now tzMin) + 86399999) ->
  Zoned.setHours z (Zoned.setDate z now (Zoned.getDate z now - days)) 0 0 0 0
  = midnight tzMin (today now tzMin - days).
Proof.
  intros Hd K. destruct (window_bounds now tzMin days Hd) as [Bn Bs].
  unfold Zoned.setDate, Zoned.getDate, Zoned.LocalTime.
  destruct (K now Bn) as [Un _]. rewrite Un. cbv zeta.
  replace (DateFromTime (now + LocalTZA tzMin) - days)
    with (DateFromTime (now + LocalTZA tzMin) + - days) by lia.
  rewrite MakeDate_shift. unfold Zoned.UTC.
  replace (now + LocalTZA tzMin + - days * msPerDay)
    with (now - days * msPerDay + LocalTZA tzMin) by lia.
  destruct (K _ Bs) as [Us Ls]. rewrite Ls.
  replace (now - days * msPerDay + LocalTZA tzMin - LocalTZA tzMin)
    with (now - days * msPerDay) by lia.
  unfold Zoned.setHours, Zoned.LocalTime. rewrite Us. cbv zeta.
  unfold Zoned.UTC, MakeDate, MakeTime.
  replace (Day (now - days * msPerDay + LocalTZA tzMin) * msPerDay
           + (0 * 3600000 + 0 * 60000 + 0 * 1000 + 0))
    with (midnight tzMin (today now tzMin - days) + LocalTZA tzMin).
  - assert (B0 : midnight tzMin (today now tzMin - days)
                 <= midnight tzMin (today now tzMin - days)
                 <= midnight tzMin (today now tzMin) + 86399999) by lia.
    destruct (K _ B0) as [_ L0]. rewrite L0. lia.
  - unfold midnight, today, LocalTime.
    replace (now - days * msPerDay + LocalTZA tzMin)
      with (now + LocalTZA tzMin + - days * msPerDay) by lia.
    rewrite Day_shift. lia.
Qed.

Lemma Zoned_toDate (z : Zone.t) (now tzMin days : Z) :
  0 <= days ->
  keepsOffset z tzMin (midnight tzMin (today now tzMin - days))
              (midnight tzMin (today now tzMin) + 86399999) ->
  Zoned.setHours z now 23 59 59 999
  = midnight tzMin (today now tzMin) + 86399999.
Proof.
  intros Hd K. destruct (window_bounds now tzMin days Hd) as [Bn Bs].
  unfold Zoned.setHours, Zoned.LocalTime.
  destruct (K now Bn) as [Un _]. rewrite Un. cbv zeta.
  unfold Zoned.UTC, MakeDate, MakeTime.
  replace (Day (now + LocalTZA tzMin) * msPerDay
           + (23 * 3600000 + 59 * 60000 + 59 * 1000 + 999))
    with (midnight tzMin (today now tzMin) + 86399999 + LocalTZA tzMin).
  - assert (B1 : midnight tzMin (today now tzMin - days)
                 <= midnight tzMin (today now tzMin) + 86399999
                 <= midnight tzMin (today now tzMin) + 86399999) by lia.
    destruct (K _ B1) as [_ L1]. rewrite L1. lia.
  - unfold midnight, today, LocalTime. lia.
Qed.

(** X1.  [getDateRange] under the rules of a time zone that keeps one
    offset, [tzMin], from the first midnight of the range to the end of
    today (no daylight-saving change inside the range), both of them
    time values of a [Date]: the range is the one the fixed offset
    gives; it runs from local midnight of the day [days] days back to
    the last second of today, so it spans [days] whole days and 86399
    seconds; both bounds are whole seconds of the two dates, and the
    clock lies inside. *)
Theorem getDateRange_span (z : Zone.t) (now tzMin days : Z) :
  0 <= days ->
  validTime (midnight tzMin (today now tzMin - days)) ->
  validTime (midnight tzMin (today now tzMin) + 86399999) ->
  keepsOffset z tzMin (midnight tzMin (today now tzMin - days))
              (midnight tzMin (today now tzMin) + 86399999) ->
  Zoned.getDateRange z now days = getDateRange now tzMin days /\
  to (Zoned.getDateRange z now days) - from (Zoned.getDateRange z now days)
  = days * 86400 + 86399 /\
  from (Zoned.getDateRange z now days) * 1000
  = fromDate (Zoned.getDateRange z now days) /\
  to (Zoned.getDateRange z now days) * 1000 + 999
  = toDate (Zoned.getDateRange z now days) /\
  fromDate (Zoned.getDateRange z now days) <= now
  <= toDate (Zoned.getDateRange z now days).
Proof.
  intros Hd _ _ K.
  assert (E : Zoned.getDateRange z now days = getDateRange now tzMin days).
  { unfold Zoned.getDateRange. cbv zeta.
    rewrite (Zoned_fromDate z now tzMin days Hd K).
    rewrite (Zoned_toDate z now tzMin days Hd K).
    rewrite <- (getDateRange_fromDate now tzMin days).
    rewrite <- (getDateRange_toDate now tzMin days).
    unfold getDateRange. cbv [fromDate toDate]. reflexivity. }
  split; [exact E|]. rewrite E.
  rewrite getDateRange_from, getDateRange_to.
  rewrite getDateRange_fromDate, getDateRange_toDate.
  unfold midnight, today, Day, LocalTime, LocalTZA, msPerDay.
  split; [|split; [|split]]; Z.div_mod_to_equations; lia.
Qed.

(** New York on 3 November 2026, one day back: the change of 1 November
    lies before the range. *)
Lemma getDateRange_span_witness :
  Zoned.getDateRange sampleZone sampleNow 1 = getDateRange sampleNow (-300) 1 /\
  to (Zoned.getDateRange sampleZone sampleNow 1)
  - from (Zoned.getDateRange sampleZone sampleNow 1) = 1 * 86400 + 86399 /\
  from (Zoned.getDateRange sampleZone sampleNow 1) * 1000
  = fromDate (Zoned.getDateRange sampleZone sampleNow 1) /\
  to (Zoned.getDateRange sampleZone sampleNow 1) * 1000 + 999
  = toDate (Zoned.getDateRange sampleZone sampleNow 1) /\
  fromDate (Zoned.getDateRange sampleZone sampleNow 1) <= sampleNow
  <= toDate (Zoned.getDateRange sampleZone sampleNow 1).
Proof.
  assert (Elo : midnight (-300) (today sampleNow (-300) - 1) = 1793595600000)
    by (vm_compute; reflexivity).
  assert (Ehi : midnight (-300) (today sampleNow (-300)) + 86399999
                = 1793768399999) by (vm_compute; reflexivity).
  apply (getDateRange_span sampleZone sampleNow (-300) 1);
    [lia|rewrite Elo; unfold validTime; lia
    |rewrite Ehi; unfold validTime; lia|].
  rewrite Elo, Ehi. intros t Ht.
  unfold sampleZone, LocalTZA. cbn [Zone.atUTC Zone.atLocal].
  repeat match goal with
         | |- context [?x <? ?y] => destruct (Z.ltb_spec x y)
         end; try lia; split; reflexivity.
Defined.

(** Seven days back from the same clock the range holds the change of
    1 November 2026, a day of 25 hours: it starts at midnight of
    27 October, four hours behind UTC, ends five hours behind, and spans
    an hour more than seven days and 86399 seconds. *)
Example getDateRange_across_a_change :
  Zoned.getDateRange sampleZone sampleNow 7
  = {| from := 1793073600; to := 1793768399;
       fromDate := 1793073600000; toDate := 1793768399999 |} /\
  1793768399 - 1793073600 = 7 * 86400 + 86399 + 3600.
Proof. split; vm_compute; reflexivity. Qed.

Lemma localDay_bounds (tzMin t D : Z) :
  localDay tzMin t = D <->
  midnight tzMin D <= t * 1000 < midnight tzMin (D + 1).
Proof.
  unfold localDay, midnight, Day, LocalTime, LocalTZA, msPerDay.
  split; intros H; Z.div_mod_to_equations; lia.
Qed.

(** Timestamps at most 364 days apart, with the same offset in force,
    fall on local days at most 364 apart. *)
Lemma zonedDay_shift (z : Zone.t) (t1 t2 : Z) :
  Zone.atUTC z (t1 * 1000) = Zone.atUTC z (t2 * 1000) ->
  Z.abs (t1 - t2) <= 364 * 86400 ->
  Z.abs (zonedDay z t1 - zonedDay z t2) <= 364.
Proof.
  intros O H.
  assert (G : forall a b, a <= b + 364 * msPerDay -> Day a <= Day b + 364).
  { intros a b Hab. rewrite <- Day_shift.
    apply Z.div_le_mono; [unfold msPerDay; lia|assumption]. }
  apply Z.abs_le in H. apply Z.abs_le.
  unfold zonedDay, Zoned.LocalTime. rewrite O.
  pose proof (G (t1 * 1000 + Zone.atUTC z (t2 * 1000))
                (t2 * 1000 + Zone.atUTC z (t2 * 1000))).
  pose proof (G (t2 * 1000 + Zone.atUTC z (t2 * 1000))
                (t1 * 1000 + Zone.atUTC z (t2 * 1000))).
  unfold msPerDay in *. lia.
Qed.

(** X2.  [formatDate] under the rules of a time zone: two timestamps
    that are time values of a [Date], have the same offset in force and
    lie at most 364 days apart get the same label exactly when they fall
    on the same local day. *)
Theorem formatDate_same_day (z : Zone.t) (t1 t2 : Z) :
  validTime (t1 * 1000) -> validTime (t2 * 1000) ->
  Zone.atUTC z (t1 * 1000) = Zone.atUTC z (t2 * 1000) ->
  Z.abs (t1 - t2) <= 364 * 86400 ->
  (Zoned.formatDate z t1 = Zoned.formatDate z t2
   <-> zonedDay z t1 = zonedDay z t2).
Proof.
  intros _ _ O H.
  pose proof (zonedDay_shift z t1 t2 O H) as HD. apply Z.abs_le in HD.
  change (Zoned.formatDate z t1) with (dayLabel (zonedDay z t1)).
  change (Zoned.formatDate z t2) with (dayLabel (zonedDay z t2)).
  split; [|congruence].
  intros E.
  destruct (Z.lt_trichotomy (zonedDay z t1) (zonedDay z t2))
    as [L|[L|L]]; [|assumption|].
  - exfalso.
    apply (dayLabel_window (zonedDay z t1) (zonedDay z t2)); [lia|exact E].
  - exfalso.
    apply (dayLabel_window (zonedDay z t2) (zonedDay z t1));
      [lia|symmetry; exact E].
Qed.

Lemma formatDate_same_day_witness :
  Zoned.formatDate sampleZone 1793534400
  = Zoned.formatDate sampleZone 1793534460
  <-> zonedDay sampleZone 1793534400 = zonedDay sampleZone 1793534460.
Proof.
  apply (formatDate_same_day sampleZone 1793534400 1793534460).
  - unfold validTime. lia.
  - unfold validTime. lia.
  - reflexivity.
  - vm_compute. discriminate.
Defined.

(** The offset matters.  Half past eleven in the evening of 1 November
    2026 in New York, five hours behind UTC, and the time value 364 days
    later, four hours behind: half past midnight of 1 November 2027.
    One label, and local days a year apart. *)
Example formatDate_across_a_change :
  Zoned.formatDate sampleZone 1793593800 = "Nov 1" /\
  Zoned.formatDate sampleZone (1793593800 + 364 * 86400) = "Nov 1" /\
  zonedDay sampleZone (1793593800 + 364 * 86400)
  = zonedDay sampleZone 1793593800 + 365 /\
  Zone.atUTC sampleZone (1793593800 * 1000) = -18000000 /\
  Zone.atUTC sampleZone ((1793593800 + 364 * 86400) * 1000) = -14400000.
Proof. repeat split; vm_compute; reflexivity. Qed.

(** Where a zone keeps its offset, its labels and the steps of the day
    loop are those of the fixed offset. *)
Lemma Zoned_formatDate_fixed (z : Zone.t) (tzMin lo hi timestamp : Z) :
  keepsOffset z tzMin lo hi ->
  lo <= timestamp * 1000 <= hi ->
  Zoned.formatDate z timestamp = formatDate tzMin timestamp.
Proof.
  intros K B. destruct (K _ B) as [U _].
  unfold Zoned.formatDate, Zoned.LocalTime, formatDate, LocalTime.
  rewrite U. reflexivity.
Qed.

Lemma Zoned_setDate_fixed (z : Zone.t) (tzMin lo hi t k : Z) :
  keepsOffset z tzMin lo hi ->
  lo <= t <= hi -> lo <= t + k * msPerDay <= hi ->
  Zoned.setDate z t (Zoned.getDate z t + k)
  = setDate tzMin t (getDate tzMin t + k).
Proof.
  intros K B B'. destruct (K _ B) as [U _]. destruct (K _ B') as [_ L].
  rewrite setDate_getDate.
  unfold Zoned.setDate, Zoned.getDate, Zoned.LocalTime, Zoned.UTC.
  rewrite U. cbv zeta. rewrite MakeDate_shift.
  replace (t + LocalTZA tzMin + k * msPerDay)
    with (t + k * msPerDay + LocalTZA tzMin) by lia.
  rewrite L. lia.
Qed.

(** ** The requests *)

Lemma Subseq_refl {A : Type} (l : list A) : Subseq l l.
Proof. induction l; [constructor|apply Subseq_take; assumption]. Qed.

Lemma Subseq_filter {A : Type} (p : A -> bool) (l : list A) :
  Subseq (filter p l) l.
Proof.
  induction l as [|x l IH]; cbn [filter]; [constructor|].
  destruct (p x); [apply Subseq_take|apply Subseq_skip]; assumption.
Qed.

Lemma Subseq_nil_l {A : Type} (l : list A) : Subseq [] l.
Proof. induction l; constructor; assumption. Qed.

Lemma Subseq_firstn {A : Type} (n : nat) (l : list A) :
  Subseq (firstn n l) l.
Proof.
  revert l. induction n as [|n IH]; intros [|x l]; cbn [firstn];
    try apply Subseq_nil_l. apply Subseq_take, IH.
Qed.

Lemma Subseq_trans {A : Type} (l m k : list A) :
  Subseq l m -> Subseq m k -> Subseq l k.
Proof.
  intros H1 H2. revert l H1.
  induction H2 as [|x m k H2 IH|x m k H2 IH]; intros l H1.
  - assumption.
  - constructor. now apply IH.
  - inversion H1; subst.
    + apply Subseq_skip. now apply IH.
    + apply Subseq_take. now apply IH.
Qed.

Lemma Subseq_In {A : Type} (l m : list A) (x : A) :
  Subseq l m -> In x l -> In x m.
Proof.
  induction 1 as [|y l m H IH|y l m H IH]; cbn [In]; intuition.
Qed.

(** X3.  [fetchNews] never touches the state; what it returns is the
    served body with items left out, holds at most 50 items and no item
    with an empty headline; it throws exactly when no body is served. *)
Theorem fetchNews_bounded (now tzMin : Z)
    (newsResponse : string -> Z -> Z -> Http (list NewsItem))
    (symbol : string) (days : Z) (s : Runtime) :
  wp (fetchNews now tzMin newsResponse symbol days)
     (fun news s' =>
        s' = s /\
        (List.length news <= 50)%nat /\
        Forall (fun item => headline item <> "") news /\
        exists body,
          newsResponse symbol (from (getDateRange now tzMin days))
                       (to (getDateRange now tzMin days)) = Json body /\
          Subseq news body /\
          ((List.length body <= 50)%nat ->
           forall item, In item body -> headline item <> "" ->
                        In item news))
     (fun msg s' =>
        s' = s /\
        forall body,
          newsResponse symbol (from (getDateRange now tzMin days))
                       (to (getDateRange now tzMin days)) <> Json body)
     s.
Proof.
  unfold wp, fetchNews.
  destruct (newsResponse symbol _ _) as [msg| |body];
    unfold ret, throw; cbv beta iota.
  - split; [reflexivity|discriminate].
  - split; [reflexivity|discriminate].
  - split; [reflexivity|]. split; [apply firstn_le_length|]. split.
    + apply Forall_forall. intros item Hi.
      apply (Subseq_In _ _ _ (Subseq_firstn _ _)) in Hi.
      apply filter_In in Hi. destruct Hi as [_ Hi].
      intros E. rewrite E in Hi. discriminate Hi.
    + exists body. split; [reflexivity|]. split.
      * eapply Subseq_trans; [apply Subseq_firstn|apply Subseq_filter].
      * intros Hlen item Hi Hh. rewrite firstn_all2.
        -- apply filter_In. split; [assumption|].
           destruct (String.eqb_spec (headline item) ""); [contradiction|].
           reflexivity.
        -- etransitivity; [apply filter_length_le|assumption].
Qed.

Lemma others_not_self (symbol : string) (l : list string) :
  ~ In symbol (filter (fun s => negb (String.eqb s symbol)) l).
Proof.
  intros H. apply filter_In in H. destruct H as [_ H].
  rewrite String.eqb_refl in H. discriminate H.
Qed.

Lemma fetchPeerCompanies_not_self
    (peersResponse : string -> Http (list string))
    (companyProfile : option Profile.t) (symbol : string) :
  ~ In symbol (fetchPeerCompanies peersResponse companyProfile symbol).
Proof.
  unfold fetchPeerCompanies.
  destruct (peersResponse symbol) as [msg| |body].
  3: apply others_not_self.
  all: destruct companyProfile as [p|]; [|cbn; tauto].
  all: repeat match goal with
         | |- context [if ?b then _ else _] => destruct b
         end.
  all: try apply others_not_self; cbn; tauto.
Qed.

(** X4.  [fetchPeerCompanies] never lists the company itself, whether the
    peers come from the endpoint or from the built-in lists, and lists at
    most four companies when the request fails. *)
Theorem fetchPeerCompanies_excludes_self
    (peersResponse : string -> Http (list string))
    (companyProfile : option Profile.t) (symbol : string) :
  ~ In symbol (fetchPeerCompanies peersResponse companyProfile symbol) /\
  ((exists body, peersResponse symbol = Json body) \/
   (List.length (fetchPeerCompanies peersResponse companyProfile symbol)
    <= 4)%nat).
Proof.
  split; [apply fetchPeerCompanies_not_self|].
  assert (L : forall a b c d,
            (List.length (filter (fun s => negb (String.eqb s symbol))
                                 [a; b; c; d]) <= 4)%nat).
  { intros. etransitivity; [apply filter_length_le|]. cbn. lia. }
  unfold fetchPeerCompanies.
  destruct (peersResponse symbol) as [msg| |body]; [| |left; eauto].
  all: right; destruct companyProfile as [p|]; [|cbn; lia].
  all: repeat match goal with
         | |- context [if ?b then _ else _] => destruct b
         end.
  all: try apply L; cbn; lia.
Qed.

(** ** The scorer and the ranking, in every world *)

Lemma sampleRng_unit (n : nat) : (0 <= sampleRng n < 1)%Q.
Proof.
  unfold sampleRng.
  assert (H : (0 <= Z.of_nat (n mod 7) < 7)%Z).
  { pose proof (Nat.mod_upper_bound n 7). lia. }
  unfold Qle, Qlt. cbn [Qnum Qden]. lia.
Qed.

(** X5.  [analyzeSentiment] returns in every world and leaves the state
    alone; with draws in [0, 1) the label it returns is never empty and
    the score never zero, and a served top result that has both is
    returned as it is, without a draw. *)
Theorem analyzeSentiment_normalised (rng : nat -> Q)
    (classifierResponse : string -> Http (option Sentiment))
    (text : string) (s : Runtime) :
  (forall n, (0 <= rng n < 1)%Q) ->
  exists r s',
    analyzeSentiment rng classifierResponse text s = (Ok r, s') /\
    ui s' = ui s /\
    label r <> "" /\
    ~ (score r == 0)%Q /\
    (forall top,
       classifierResponse text = Json (Some top) ->
       label top <> "" -> ~ (score top == 0)%Q -> r = top /\ s' = s).
Proof.
  intros R.
  destruct (classifierResponse text) as [msg| |body] eqn:C.
  1, 2: rewrite analyzeSentiment_failure by (intros b; rewrite C; discriminate);
    eexists _, _; split; [reflexivity|]; split; [reflexivity|];
    (split; [|split; [|intros top T; discriminate T]]);
    [ destruct (pickLabel_closed (rng (draws s)) (R _)) as [E|[E|E]];
      unfold fabricated; cbn [label]; rewrite E; discriminate
    | unfold fabricated; cbn [score]; pose proof (R (S (draws s))); lra ].
  rewrite (analyzeSentiment_success _ _ _ body) by exact C.
  eexists _, _. split; [reflexivity|]. split; [reflexivity|].
  unfold classified. cbn [label score]. split; [|split].
  - destruct body as [top|]; [|discriminate]. unfold orElse.
    destruct (String.eqb_spec (label top) ""); [discriminate|assumption].
  - destruct body as [top|]; [|lra]. unfold falsy.
    destruct (Qeq_bool (score top) 0) eqn:Z0; [lra|].
    apply Qeq_bool_neq in Z0. exact Z0.
  - intros top T L Z0. injection T as ->. split; [|reflexivity].
    destruct top as [l sc]. cbn [label score] in *. unfold orElse, falsy.
    destruct (String.eqb_spec l ""); [contradiction|].
    destruct (Qeq_bool sc 0) eqn:Z1; [|reflexivity].
    apply Qeq_bool_eq in Z1. contradiction.
Qed.

Lemma analyzeSentiment_normalised_witness :
  exists r s',
    analyzeSentiment sampleRng sampleClassifier "Shares climb" sampleRuntime
    = (Ok r, s') /\
    ui s' = ui sampleRuntime /\
    label r <> "" /\
    ~ (score r == 0)%Q /\
    (forall top,
       sampleClassifier "Shares climb" = Json (Some top) ->
       label top <> "" -> ~ (score top == 0)%Q ->
       r = top /\ s' = sampleRuntime).
Proof.
  apply (analyzeSentiment_normalised sampleRng sampleClassifier
           "Shares climb" sampleRuntime).
  exact sampleRng_unit.
Defined.

(** The mean of numbers between two bounds on either side of zero lies
    between them. *)
Lemma reduceSum_bounds (lo hi : Q) (l : list Q) :
  Forall (fun x => (lo <= x <= hi)%Q) l ->
  (lo * inject_Z (Z.of_nat (List.length l)) <= fold_right Qplus 0 l
   <= hi * inject_Z (Z.of_nat (List.length l)))%Q.
Proof.
  induction 1 as [|x l Hx Hl IH].
  - cbn. change (inject_Z 0) with 0%Q. lra.
  - cbn [fold_right List.length]. rewrite Nat2Z.inj_succ. unfold Z.succ.
    rewrite inject_Z_plus. change (inject_Z 1) with 1%Q. lra.
Qed.

Lemma average_bounds (lo hi : Q) (l : list Q) :
  (lo <= 0 <= hi)%Q ->
  Forall (fun x => (lo <= x <= hi)%Q) l ->
  (lo <= average l <= hi)%Q.
Proof.
  intros Z0 H. destruct l as [|x l]; [rewrite average_nil; exact Z0|].
  rewrite average_mean by discriminate. unfold arithmeticMean.
  pose proof (reduceSum_bounds lo hi (x :: l) H) as B.
  set (n := inject_Z (Z.of_nat (List.length (x :: l)))) in *.
  assert (P : (0 < n)%Q).
  { unfold n. change 0%Q with (inject_Z 0). rewrite <- Zlt_Qlt.
    cbn [List.length]. lia. }
  split.
  - apply Qle_shift_div_l; [exact P|tauto].
  - apply Qle_shift_div_r; [exact P|tauto].
Qed.

Lemma val_signedUnit (s : Sentiment) :
  (0 <= score s <= 1)%Q -> signedUnit (val s).
Proof.
  intros H. unfold signedUnit, val.
  destruct (String.eqb (label s) "POSITIVE"); [lra|].
  destruct (String.eqb (label s) "NEGATIVE"); lra.
Qed.

Lemma peerSentimentValue_signedUnit (item : NewsItem) :
  (forall s, sentiment item = Some s -> (0 <= score s <= 1)%Q) ->
  signedUnit (peerSentimentValue item).
Proof.
  intros H. unfold peerSentimentValue.
  destruct (sentiment item) as [s|]; [|unfold signedUnit; lra].
  apply (val_signedUnit s). now apply H.
Qed.

Section UnitScores.

Variable now : Z.
Variable tzMin : Z.
Variable rng : nat -> Q.
Variable newsResponse : string -> Z -> Z -> Http (list NewsItem).
Variable profileResponse : string -> Http Profile.t.
Variable classifierResponse : string -> Http (option Sentiment).

Hypothesis rng_unit : forall n, (0 <= rng n < 1)%Q.
Hypothesis scores_unit :
  forall text top,
    classifierResponse text = Json (Some top) -> (0 <= score top <= 1)%Q.

Lemma wp_analyzeSentiment_unit (text : string)
    (Q : Sentiment -> Runtime -> Prop) (E : string -> Runtime -> Prop)
    (s : Runtime) :
  (forall r s', ui s' = ui s -> (0 <= score r <= 1)%Q -> Q r s') ->
  wp (analyzeSentiment rng classifierResponse text) Q E s.
Proof.
  intros H. unfold wp.
  destruct (classifierResponse text) as [msg| |body] eqn:C.
  1, 2: rewrite analyzeSentiment_failure by (intros b; rewrite C; discriminate);
    apply H; [reflexivity|]; unfold fabricated; cbn [score];
    pose proof (rng_unit (S (draws s))); lra.
  rewrite (analyzeSentiment_success _ _ _ body) by exact C.
  apply H; [reflexivity|]. unfold classified. cbn [score].
  destruct body as [top|]; [|lra].
  destruct (falsy (score top)); [lra|]. exact (scores_unit text top C).
Qed.

Lemma wp_scoreHeadline_unit (item : NewsItem)
    (Q : NewsItem -> Runtime -> Prop) (E : string -> Runtime -> Prop)
    (s : Runtime) :
  (forall r s',
     ui s' = ui s ->
     (forall x, sentiment r = Some x -> (0 <= score x <= 1)%Q) -> Q r s') ->
  wp (scoreHeadline rng classifierResponse item) Q E s.
Proof.
  intros H. unfold scoreHeadline. apply wp_bind, wp_analyzeSentiment_unit.
  intros r s' U B. apply wp_ret. apply H; [exact U|].
  unfold withSentiment. cbn [sentiment]. intros x X. injection X as <-.
  exact B.
Qed.

(** X6.  With draws in [0, 1) and classifier scores in [0, 1], the entry
    [peerSentiment] returns for a peer, whichever of its requests fail,
    carries the peer's symbol and a sentiment between -1 and 1. *)
Theorem peerSentiment_signedUnit (symbol : string) (s : Runtime) :
  exists c s',
    peerSentiment now tzMin rng newsResponse profileResponse
      classifierResponse symbol s = (Ok c, s') /\
    ui s' = ui s /\
    Company.symbol c = symbol /\
    signedUnit (Company.sentiment c).
Proof.
  destruct (wp_run
              (peerSentiment now tzMin rng newsResponse profileResponse
                 classifierResponse symbol)
              (fun c s' => ui s' = ui s /\ Company.symbol c = symbol /\
                           signedUnit (Company.sentiment c)) s)
    as (c & s' & E & P); [|exists c, s'; tauto].
  unfold peerSentiment. apply wp_tryCatch, wp_bind, wp_fetchNews.
  - intros news. destruct (List.length news =? 0)%nat.
    + apply wp_ret. cbn. unfold signedUnit. repeat split; lra.
    + apply wp_bind.
      eapply wp_mono;
        [apply (wp_mapM _ (fun s' => ui s' = ui s)
                  (fun _ r => forall x, sentiment r = Some x ->
                                        (0 <= score x <= 1)%Q));
         [|reflexivity]| |].
      * intros x s0 _ U. apply wp_scoreHeadline_unit. intros r s' U' B.
        split; [congruence|exact B].
      * intros scored s' [U F]. cbv beta. apply wp_ret.
        cbn [Company.symbol Company.sentiment].
        split; [exact U|]. split; [reflexivity|].
        apply average_bounds; [lra|].
        apply Forall_map.
        assert (G : Forall (fun r => forall x, sentiment r = Some x ->
                                               (0 <= score x <= 1)%Q) scored).
        { clear -F. induction F; constructor; auto. }
        eapply Forall_impl; [|exact G].
        intros item. apply peerSentimentValue_signedUnit.
      * intros msg s' X. exact X.
  - intros msg. apply wp_bind, wp_random, wp_ret.
    cbn [Company.symbol Company.sentiment]. unfold drawn. cbn [ui].
    repeat split. all: pose proof (rng_unit (draws s)); lra.
Qed.

End UnitScores.

Lemma peerSentiment_signedUnit_witness :
  exists c s',
    peerSentiment sampleNow 0 sampleRng (fun _ _ _ => Json sampleNews)
      (fun _ => Json sampleProfile) sampleClassifier "MSFT" sampleRuntime
    = (Ok c, s') /\
    ui s' = ui sampleRuntime /\
    Company.symbol c = "MSFT" /\
    signedUnit (Company.sentiment c).
Proof.
  apply (peerSentiment_signedUnit sampleNow 0 sampleRng
           (fun _ _ _ => Json sampleNews) (fun _ => Json sampleProfile)
           sampleClassifier).
  - exact sampleRng_unit.
  - intros text top T. injection T as <-. cbn. split; discriminate.
Defined.

Lemma betterSentiment_sound (currentSymbol : string) (baseline : Q)
    (peers : list string) (results : list Company.t) :
  (List.length peers <= 6)%nat ->
  ~ In currentSymbol peers ->
  Forall2 (fun x c => Company.symbol c = x) peers results ->
  rankingSound currentSymbol baseline (betterSentiment results baseline).
Proof.
  intros L N F.
  pose proof (Array_sort_perm
                (fun a b => (Company.sentiment b - Company.sentiment a)%Q)
                (filter (fun item => gt (Company.sentiment item) baseline)
                        results)) as P.
  fold (betterSentiment results baseline) in P.
  assert (I : forall c, In c (betterSentiment results baseline) ->
                        In c results /\ (baseline < Company.sentiment c)%Q).
  { intros c Hc. apply (Permutation_in _ P) in Hc.
    apply filter_In in Hc. destruct Hc as [Hc G]. split; [exact Hc|].
    now apply gt_Qlt. }
  split; [|split; [|split]].
  - rewrite (Permutation_length P).
    etransitivity; [apply filter_length_le|].
    rewrite <- (Forall2_length F). exact L.
  - apply Forall_forall. intros c Hc. now apply I.
  - apply Array_sort_descending.
  - intros H. apply in_map_iff in H. destruct H as (c & E & Hc).
    apply I in Hc. destruct Hc as [Hc _]. apply N.
    clear -F E Hc. induction F as [|x c' peers results Hx F IH];
      [contradiction|].
    destruct Hc as [->|Hc]; [left; congruence|right; auto].
Qed.

Lemma demoCompanies_sound (currentSymbol : string) (baseline : Q) :
  rankingSound currentSymbol baseline (demoCompanies currentSymbol baseline).
Proof.
  destruct (demoCompanies_three currentSymbol baseline) as [L A].
  split; [rewrite L; lia|]. split; [exact A|]. clear L A.
  unfold demoCompanies, includes.
  repeat (cbn -[Qplus Qminus Qmult Qlt Qle inject_Z];
          match goal with
          | H : String.eqb currentSymbol ?x = false
            |- context [String.eqb currentSymbol ?x] => rewrite H
          | |- context [String.eqb currentSymbol ?x] =>
              let E := fresh "E" in
              destruct (String.eqb currentSymbol x) eqn:E;
              [apply String.eqb_eq in E; subst currentSymbol|]
          end);
    cbn -[Qplus Qminus Qmult Qlt Qle inject_Z].
  all: split;
    [ repeat (apply SSorted_cons; [|repeat apply Forall_cons;
                                     try apply Forall_nil]);
      try apply SSorted_nil; unfold sentimentDescending;
      cbn [Company.sentiment];
      change (inject_Z 0) with 0%Q; change (inject_Z 1) with 1%Q;
      change (inject_Z 2) with 2%Q; lra
    | intros H; cbn [map Company.symbol hd snd In] in H;
      repeat match goal with
             | H : _ \/ _ |- _ => destruct H as [H|H]
             end;
      try contradiction; try discriminate H; subst;
      repeat match goal with
             | E : String.eqb ?a ?b = false |- _ =>
                 first [ vm_compute in E; discriminate E | clear E ]
             end ].
Qed.

(** X7.  [findCompaniesBetterSentiment] returns a ranking in every world,
    whichever requests fail; the ranking has at most six entries, each
    strictly above the baseline, in descending order of sentiment, and it
    never lists the company it was asked about. *)
Theorem findCompaniesBetterSentiment_sound
    (now tzMin : Z) (rng : nat -> Q)
    (newsResponse : string -> Z -> Z -> Http (list NewsItem))
    (profileResponse : string -> Http Profile.t)
    (peersResponse : string -> Http (list string))
    (classifierResponse : string -> Http (option Sentiment))
    (companyProfile : option Profile.t)
    (currentSymbol : string) (baseline : Q) (s : Runtime) :
  exists ranking s',
    findCompaniesBetterSentiment now tzMin rng newsResponse profileResponse
      peersResponse classifierResponse companyProfile currentSymbol baseline s
    = (Ok ranking, s') /\
    rankingSound currentSymbol baseline ranking.
Proof.
  apply wp_run.
  unfold findCompaniesBetterSentiment. apply wp_tryCatch.
  destruct (fetchCompanyProfile profileResponse currentSymbol) as [profile|].
  - apply wp_bind, wp_setState, wp_bind.
    eapply wp_mono;
      [apply (wp_mapM _ (fun _ => True)
                (fun x c => Company.symbol c = x)); [|exact I]| |].
    + intros x s0 _ _. apply wp_peerSentiment. intros c s' _ E. auto.
    + intros results s' [_ F]. cbv beta. apply wp_ret.
      apply (betterSentiment_sound currentSymbol baseline
               (firstn 6 (fetchPeerCompanies peersResponse companyProfile
                            currentSymbol)) results);
        [apply firstn_le_length| |exact F].
      intros H. apply (fetchPeerCompanies_not_self peersResponse
                         companyProfile currentSymbol).
      eapply Subseq_In; [apply Subseq_firstn|exact H].
    + intros msg s' X. exact X.
  - apply wp_throw, wp_ret, demoCompanies_sound.
Qed.

(** ** The order and the content of the daily series *)

Lemma inject_Z_compare (z : Z) : (inject_Z z ?= 0)%Q = (z ?= 0)%Z.
Proof. unfold Qcompare. cbn [Qnum Qden inject_Z]. now rewrite Z.mul_1_r. Qed.

Section SortByKey.

Context {A : Type}.
Variable key : A -> Z.

Lemma sort_insert_In (cmp : A -> A -> Q) (x y : A) (l : list A) :
  In y (sort_insert cmp x l) <-> y = x \/ In y l.
Proof.
  split; intros H.
  - apply (Permutation_in _ (sort_insert_perm cmp x l)) in H.
    destruct H as [H|H]; auto.
  - apply (Permutation_in _ (Permutation_sym (sort_insert_perm cmp x l))).
    destruct H as [H|H]; [left; auto|right; auto].
Qed.

Lemma sort_insert_byKey (x : A) (l : list A) :
  StronglySorted (fun a b => key a <= key b) l ->
  StronglySorted (fun a b => key a <= key b) (sort_insert (byKey key) x l).
Proof.
  induction 1 as [|y r S IH F]; cbn [sort_insert].
  - constructor; constructor.
  - unfold byKey at 1. rewrite inject_Z_compare.
    destruct (Z.compare_spec (key x - key y) 0) as [C|C|C].
    + constructor; [constructor; assumption|].
      constructor; [lia|]. eapply Forall_impl; [|exact F].
      intros a Ha. cbv beta in *. lia.
    + constructor; [constructor; assumption|].
      constructor; [lia|]. eapply Forall_impl; [|exact F].
      intros a Ha. cbv beta in *. lia.
    + constructor; [exact IH|].
      apply Forall_forall. intros a Ha. apply sort_insert_In in Ha.
      destruct Ha as [->|Ha]; [lia|].
      rewrite Forall_forall in F. now apply F.
Qed.

Lemma Array_sort_byKey (l : list A) :
  StronglySorted (fun a b => key a <= key b) (Array_sort (byKey key) l).
Proof.
  induction l as [|x l IH]; [constructor|].
  apply sort_insert_byKey, IH.
Qed.

Lemma sort_insert_ext (c1 c2 : A -> A -> Q) (x : A) (l : list A) :
  (forall y, In y l -> c1 x y = c2 x y) ->
  sort_insert c1 x l = sort_insert c2 x l.
Proof.
  induction l as [|y r IH]; intros H; [reflexivity|].
  cbn [sort_insert]. rewrite (H y (or_introl eq_refl)).
  rewrite IH; [reflexivity|]. intros z Hz. apply H. now right.
Qed.

Lemma Array_sort_ext (c1 c2 : A -> A -> Q) (l : list A) :
  (forall x y, In x l -> In y l -> c1 x y = c2 x y) ->
  Array_sort c1 l = Array_sort c2 l.
Proof.
  induction l as [|x l IH]; intros H; [reflexivity|].
  change (sort_insert c1 x (Array_sort c1 l)
          = sort_insert c2 x (Array_sort c2 l)).
  rewrite IH by (intros a b Ha Hb; apply H; now right).
  apply sort_insert_ext. intros y Hy.
  apply (Permutation_in _ (Array_sort_perm c2 l)) in Hy.
  apply H; [now left|now right].
Qed.

(** A list no element of which compares greater than a later one is left
    as it is. *)
Lemma Array_sort_kept (cmp : A -> A -> Q) (l : list A) :
  ForallOrdPairs (fun a b => (cmp a b ?= 0)%Q <> Gt) l ->
  Array_sort cmp l = l.
Proof.
  induction 1 as [|x l F P IH]; [reflexivity|].
  change (sort_insert cmp x (Array_sort cmp l) = x :: l). rewrite IH.
  destruct l as [|y r]; [reflexivity|]. cbn [sort_insert].
  inversion F as [|? ? Fy _]; subst.
  destruct (cmp x y ?= 0)%Q; congruence.
Qed.

End SortByKey.

Lemma ForallOrdPairs_map {A B : Type} (f : A -> B) (R : B -> B -> Prop)
    (l : list A) :
  ForallOrdPairs R (map f l) -> ForallOrdPairs (fun a b => R (f a) (f b)) l.
Proof.
  induction l as [|x l IH]; intros H; [constructor|].
  cbn [map] in H. inversion H as [|? ? F P]; subst.
  constructor; [|now apply IH].
  apply Forall_forall. intros y Hy. rewrite Forall_forall in F.
  apply F. now apply in_map.
Qed.

(** X8.  For a range of at most 364 days back, the dates of a returned
    series are the labels of the days of the range, each once. *)
Theorem processSentimentData_dates
    (now tzMin : Z) (parseDate : string -> option Z) (rng : nat -> Q)
    (candleResponse : string -> Z -> Z -> Http Candles.t)
    (selectedStock : string) (news : list NewsItem) (quote : Quote.t)
    (days : Z) (s s' : Runtime) (rows : list SentimentData) :
  days <= 364 ->
  processSentimentData now tzMin parseDate rng candleResponse selectedStock
    news quote days s = (Ok rows, s') ->
  Permutation (map date rows) (windowLabels now tzMin days) /\
  NoDup (map date rows).
Proof.
  intros Hd E.
  destruct (processSentimentData_rows_inv _ _ _ _ _ _ _ _ _ _ _ _ E)
    as (_ & rows0 & -> & F).
  assert (P : Permutation (map date (Array_sort (compareDates parseDate) rows0))
                          (windowLabels now tzMin days)).
  { rewrite <- (dailyTable_keys now tzMin news days Hd).
    rewrite <- (Forall2_dates _ _ F).
    apply Permutation_map, Array_sort_perm. }
  split; [exact P|].
  apply (Permutation_NoDup (Permutation_sym P)).
  rewrite <- (dailyTable_keys now tzMin news days Hd).
  apply dailyTable_NoDup.
Qed.

Lemma processSentimentData_dates_witness :
  exists rows s',
    processSentimentData sampleNow 0 (parseDate2001 0) sampleRng
      (fun _ _ _ => NotOk) "AAPL" sampleNews sampleQuote 7 sampleRuntime
    = (Ok rows, s') /\
    Permutation (map date rows) (windowLabels sampleNow 0 7) /\
    NoDup (map date rows).
Proof.
  eexists _, _. split; [vm_compute; reflexivity|].
  eapply (processSentimentData_dates sampleNow 0 (parseDate2001 0) sampleRng
            (fun _ _ _ => NotOk) "AAPL" sampleNews sampleQuote 7
            sampleRuntime); [lia|vm_compute; reflexivity].
Defined.

(** X9.  When the host reads no label of the range as a later time than
    a label of a later day (also when it reads none at all), the final
    sort moves nothing: the rows come in the order of the days. *)
Theorem processSentimentData_chronological
    (now tzMin : Z) (parseDate : string -> option Z) (rng : nat -> Q)
    (candleResponse : string -> Z -> Z -> Http Candles.t)
    (selectedStock : string) (news : list NewsItem) (quote : Quote.t)
    (days : Z) (s s' : Runtime) (rows : list SentimentData) :
  days <= 364 ->
  ForallOrdPairs (inOrder parseDate) (windowLabels now tzMin days) ->
  processSentimentData now tzMin parseDate rng candleResponse selectedStock
    news quote days s = (Ok rows, s') ->
  map date rows = windowLabels now tzMin days.
Proof.
  intros Hd O E.
  destruct (processSentimentData_rows_inv _ _ _ _ _ _ _ _ _ _ _ _ E)
    as (_ & rows0 & -> & F).
  rewrite <- (dailyTable_keys now tzMin news days Hd) in *.
  rewrite <- (Forall2_dates _ _ F) in *.
  rewrite Array_sort_kept; [reflexivity|].
  apply ForallOrdPairs_map in O.
  clear -O. induction O as [|x l Fx P IH]; constructor; [|exact IH].
  eapply Forall_impl; [|exact Fx].
  intros y Hy. unfold inOrder in Hy. unfold compareDates.
  destruct (parseDate (date x)) as [tx|], (parseDate (date y)) as [ty|];
    try discriminate.
  rewrite inject_Z_compare. intros G. apply Z.compare_gt_iff in G. lia.
Qed.

Lemma processSentimentData_chronological_witness :
  exists rows s',
    processSentimentData sampleNow 0 (parseDate2001 0) sampleRng
      (fun _ _ _ => NotOk) "AAPL" sampleNews sampleQuote 2 sampleRuntime
    = (Ok rows, s') /\
    map date rows = windowLabels sampleNow 0 2.
Proof.
  eexists _, _. split; [vm_compute; reflexivity|].
  eapply (processSentimentData_chronological sampleNow 0 (parseDate2001 0)
            sampleRng (fun _ _ _ => NotOk) "AAPL" sampleNews sampleQuote 2
            sampleRuntime); [lia| |vm_compute; reflexivity].
  repeat (constructor;
          [repeat (constructor; [vm_compute; discriminate|]);
           constructor|]).
  constructor.
Defined.

(** X10.  When the host reads every label of a returned series, the rows
    are in non-decreasing order of the time it reads. *)
Theorem processSentimentData_sorted
    (now tzMin : Z) (parseDate : string -> option Z) (rng : nat -> Q)
    (candleResponse : string -> Z -> Z -> Http Candles.t)
    (selectedStock : string) (news : list NewsItem) (quote : Quote.t)
    (days : Z) (s s' : Runtime) (rows : list SentimentData) :
  processSentimentData now tzMin parseDate rng candleResponse selectedStock
    news quote days s = (Ok rows, s') ->
  Forall (fun r => parseDate (date r) <> None) rows ->
  StronglySorted
    (fun a b => parsedTime parseDate a <= parsedTime parseDate b) rows.
Proof.
  intros E All.
  destruct (processSentimentData_rows_inv _ _ _ _ _ _ _ _ _ _ _ _ E)
    as (_ & rows0 & -> & F).
  assert (All0 : forall r, In r rows0 -> parseDate (date r) <> None).
  { intros r Hr. rewrite Forall_forall in All. apply All.
    apply (Permutation_in _ (Permutation_sym
                               (Array_sort_perm (compareDates parseDate)
                                  rows0))).
    exact Hr. }
  rewrite (Array_sort_ext (compareDates parseDate)
             (byKey (parsedTime parseDate)) rows0).
  - apply Array_sort_byKey.
  - intros x y Hx Hy. unfold compareDates, byKey, parsedTime.
    pose proof (All0 x Hx). pose proof (All0 y Hy).
    destruct (parseDate (date x)), (parseDate (date y));
      try contradiction; reflexivity.
Qed.

Lemma processSentimentData_sorted_witness :
  exists rows s',
    processSentimentData sampleNow 0 (parseDate2001 0) sampleRng
      (fun _ _ _ => NotOk) "AAPL" sampleNews sampleQuote 2 sampleRuntime
    = (Ok rows, s') /\
    StronglySorted
      (fun a b => parsedTime (parseDate2001 0) a
                  <= parsedTime (parseDate2001 0) b) rows.
Proof.
  eexists _, _. split; [vm_compute; reflexivity|].
  eapply (processSentimentData_sorted sampleNow 0 (parseDate2001 0)
            sampleRng (fun _ _ _ => NotOk) "AAPL" sampleNews sampleQuote 2
            sampleRuntime); [vm_compute; reflexivity|].
  repeat (constructor; [vm_compute; discriminate|]). constructor.
Defined.

(** Across a new year a host that reads the labels as days of one year
    puts the January rows first: the seven-day series of 2 January 2027. *)
Example processSentimentData_new_year :
  exists rows s',
    processSentimentData 1798891200000 0 (parseDate2001 0) sampleRng
      (fun _ _ _ => NotOk) "AAPL" [] sampleQuote 7 sampleRuntime
    = (Ok rows, s') /\
    windowLabels 1798891200000 0 7
    = ["Dec 26"; "Dec 27"; "Dec 28"; "Dec 29"; "Dec 30"; "Dec 31";
       "Jan 1"; "Jan 2"] /\
    map date rows
    = ["Jan 1"; "Jan 2"; "Dec 26"; "Dec 27"; "Dec 28"; "Dec 29"; "Dec 30";
       "Dec 31"].
Proof.
  eexists _, _. split; [vm_compute; reflexivity|].
  split; vm_compute; reflexivity.
Qed.

(** ** What the daily table keeps and what it drops *)

Lemma dict_get_None {V : Type} (d : Dict V) (k : string) :
  ~ In k (dict_keys d) -> dict_get d k = None.
Proof.
  intros H. destruct (dict_get d k) as [v|] eqn:E; [|reflexivity].
  exfalso. apply H. exact (dict_get_In d k v E).
Qed.

Lemma dailyTable_app (now tzMin : Z) (news1 news2 : list NewsItem)
    (days : Z) :
  dailyTable now tzMin (news1 ++ news2) days
  = fold_left (addNewsItem tzMin) news2 (dailyTable now tzMin news1 days).
Proof. unfold dailyTable. apply fold_left_app. Qed.

Lemma dailyTable_ignores (now tzMin : Z) (before after : list NewsItem)
    (item : NewsItem) (days : Z) :
  sentiment item = None \/
  ~ In (formatDate tzMin (datetime item)) (windowLabels now tzMin days) ->
  dailyTable now tzMin (before ++ item :: after) days
  = dailyTable now tzMin (before ++ after) days.
Proof.
  intros H. rewrite !dailyTable_app. cbn [fold_left]. f_equal.
  unfold addNewsItem. destruct H as [->|H]; [reflexivity|].
  destruct (sentiment item); [|reflexivity].
  rewrite dict_get_None; [reflexivity|].
  intros I. apply H. eapply dailyTable_keys_In. exact I.
Qed.

(** X11.  A news item without a sentiment, or one whose label is not a
    label of the range, changes nothing: the run on the list without it
    is the same run. *)
Theorem processSentimentData_ignores
    (now tzMin : Z) (parseDate : string -> option Z) (rng : nat -> Q)
    (candleResponse : string -> Z -> Z -> Http Candles.t)
    (selectedStock : string) (before after : list NewsItem)
    (item : NewsItem) (quote : Quote.t) (days : Z) (s : Runtime) :
  sentiment item = None \/
  ~ In (formatDate tzMin (datetime item)) (windowLabels now tzMin days) ->
  processSentimentData now tzMin parseDate rng candleResponse selectedStock
    (before ++ item :: after) quote days s
  = processSentimentData now tzMin parseDate rng candleResponse selectedStock
      (before ++ after) quote days s.
Proof.
  intros H. rewrite !processSentimentData_unfold. cbv zeta.
  now rewrite (dailyTable_ignores now tzMin before after item days H).
Qed.

Lemma processSentimentData_ignores_witness :
  processSentimentData sampleNow 0 (parseDate2001 0) sampleRng
    (fun _ _ _ => NotOk) "AAPL"
    ([sampleScored]
     ++ {| datetime := 1793534400; headline := "Unscored"; source := "wire";
           url := "#3"; sentiment := None |} :: []) sampleQuote 7
    sampleRuntime
  = processSentimentData sampleNow 0 (parseDate2001 0) sampleRng
      (fun _ _ _ => NotOk) "AAPL" ([sampleScored] ++ []) sampleQuote 7
      sampleRuntime.
Proof.
  apply (processSentimentData_ignores sampleNow 0 (parseDate2001 0)
           sampleRng (fun _ _ _ => NotOk) "AAPL" [sampleScored] []).
  left. reflexivity.
Defined.

Lemma list_sum_cons (x : nat) (l : list nat) :
  list_sum (x :: l) = (x + list_sum l)%nat.
Proof. reflexivity. Qed.

Lemma list_sum_perm (l m : list nat) :
  Permutation l m -> list_sum l = list_sum m.
Proof.
  induction 1 as [|x l m P IH|x y l|l m k P1 IH1 P2 IH2];
    rewrite ?list_sum_cons; lia.
Qed.

Lemma contributions_cons (tzMin : Z) (item : NewsItem)
    (news : list NewsItem) (k : string) :
  contributions tzMin (item :: news) k
  = (match sentiment item with
     | Some s =>
         if String.eqb (formatDate tzMin (datetime item)) k
         then [val s] else []
     | None => []
     end ++ contributions tzMin news k)%list.
Proof. reflexivity. Qed.

Lemma list_sum_indicator (lbl : string) (ks : list string) :
  NoDup ks ->
  list_sum (map (fun k => if String.eqb lbl k then 1 else 0)%nat ks)
  = if existsb (String.eqb lbl) ks then 1%nat else 0%nat.
Proof.
  induction 1 as [|k ks N ND IH]; [reflexivity|].
  cbn [map existsb]. rewrite list_sum_cons, IH.
  destruct (String.eqb_spec lbl k) as [->|Ne]; cbn [orb]; [|reflexivity].
  destruct (existsb (String.eqb k) ks) eqn:X; [|reflexivity].
  apply existsb_exists in X. destruct X as (y & Hy & Ey).
  apply String.eqb_eq in Ey. subst y. contradiction.
Qed.

Lemma list_sum_map_add {A : Type} (f g : A -> nat) (l : list A) :
  list_sum (map (fun x => f x + g x)%nat l)
  = (list_sum (map f l) + list_sum (map g l))%nat.
Proof.
  induction l as [|x l IH]; [reflexivity|].
  cbn [map]. rewrite !list_sum_cons. lia.
Qed.

(** The contributions to the days of a list of distinct labels add up to
    the number of scored items with one of the labels. *)
Lemma contributions_total (tzMin : Z) (news : list NewsItem)
    (ks : list string) :
  NoDup ks ->
  list_sum (map (fun k => List.length (contributions tzMin news k)) ks)
  = List.length
      (filter (fun item =>
                 match sentiment item with
                 | Some _ =>
                     existsb (String.eqb (formatDate tzMin (datetime item)))
                             ks
                 | None => false
                 end) news).
Proof.
  intros ND. induction news as [|item news IH].
  - cbn [contributions flat_map List.length filter].
    clear ND. induction ks as [|k ks IH]; [reflexivity|].
    cbn [map]. rewrite list_sum_cons, IH. reflexivity.
  - rewrite (map_ext _ (fun k =>
               (List.length
                  (match sentiment item with
                   | Some s =>
                       if String.eqb (formatDate tzMin (datetime item)) k
                       then [val s] else []
                   | None => []
                   end)
                + List.length (contributions tzMin news k))%nat)).
    2: { intros k. rewrite contributions_cons. apply length_app. }
    rewrite list_sum_map_add, IH. cbn [filter].
    destruct (sentiment item) as [sv|].
    + rewrite (map_ext _ (fun k =>
                 if String.eqb (formatDate tzMin (datetime item)) k
                 then 1%nat else 0%nat)).
      2: { intros k. now destruct (String.eqb _ k). }
      rewrite (list_sum_indicator _ ks ND).
      destruct (existsb _ ks); reflexivity.
    + rewrite (map_ext _ (fun _ => 0%nat)) by reflexivity.
      replace (list_sum (map (fun _ : string => 0%nat) ks)) with 0%nat;
        [reflexivity|].
      clear. induction ks as [|k ks IH]; [reflexivity|].
      cbn [map]. rewrite list_sum_cons. exact IH.
Qed.

(** The volumes of the table add up to the number of counted items. *)
Lemma dailyTable_volumes (now tzMin : Z) (news : list NewsItem) (days : Z) :
  days <= 364 ->
  list_sum (map (fun e => Bucket.volume (snd e))
                (dailyTable now tzMin news days))
  = List.length (filter (counted now tzMin days) news).
Proof.
  intros Hd.
  rewrite (map_ext_in _ (fun e =>
             List.length (contributions tzMin news (fst e)))).
  2: { intros [k b] I.
       rewrite (dailyTable_entry now tzMin news days k b I). reflexivity. }
  rewrite <- (map_map fst (fun k => List.length (contributions tzMin news k))).
  fold (dict_keys (dailyTable now tzMin news days)).
  rewrite (dailyTable_keys now tzMin news days Hd).
  rewrite contributions_total; [reflexivity|].
  rewrite <- (dailyTable_keys now tzMin news days Hd).
  apply dailyTable_NoDup.
Qed.

(** Sorting the rows of a table keeps the sum of the volumes. *)
Lemma rows_volumes (cmp : SentimentData -> SentimentData -> Q)
    (table : Dict Bucket.t) (rows : list SentimentData) :
  Forall2 (fun e r =>
             date r = fst e /\
             avgSentiment r = average (Bucket.sentiments (snd e)) /\
             volume r = Bucket.volume (snd e)) table rows ->
  list_sum (map volume (Array_sort cmp rows))
  = list_sum (map (fun e => Bucket.volume (snd e)) table).
Proof.
  intros F.
  rewrite (list_sum_perm _ (map volume rows))
    by apply Permutation_map, Array_sort_perm.
  induction F as [|e r table rows (_ & _ & V) F IH]; [reflexivity|].
  cbn [map]. rewrite !list_sum_cons, V, IH. reflexivity.
Qed.

(** X12.  For a range of at most 364 days back, the volumes of a returned
    series add up to the number of news items that carry a sentiment and
    whose label is a label of the range. *)
Theorem processSentimentData_volume_total
    (now tzMin : Z) (parseDate : string -> option Z) (rng : nat -> Q)
    (candleResponse : string -> Z -> Z -> Http Candles.t)
    (selectedStock : string) (news : list NewsItem) (quote : Quote.t)
    (days : Z) (s s' : Runtime) (rows : list SentimentData) :
  days <= 364 ->
  processSentimentData now tzMin parseDate rng candleResponse selectedStock
    news quote days s = (Ok rows, s') ->
  list_sum (map volume rows)
  = List.length (filter (counted now tzMin days) news).
Proof.
  intros Hd E.
  destruct (processSentimentData_rows_inv _ _ _ _ _ _ _ _ _ _ _ _ E)
    as (_ & rows0 & -> & F).
  rewrite (rows_volumes _ _ _ F). now apply dailyTable_volumes.
Qed.

Lemma processSentimentData_volume_total_witness :
  exists rows s',
    processSentimentData sampleNow 0 (parseDate2001 0) sampleRng
      (fun _ _ _ => NotOk) "AAPL" sampleNews sampleQuote 7 sampleRuntime
    = (Ok rows, s') /\
    list_sum (map volume rows)
    = List.length (filter (counted sampleNow 0 7) sampleNews).
Proof.
  eexists _, _. split; [vm_compute; reflexivity|].
  eapply (processSentimentData_volume_total sampleNow 0 (parseDate2001 0)
            sampleRng (fun _ _ _ => NotOk) "AAPL" sampleNews sampleQuote 7
            sampleRuntime); [lia|vm_compute; reflexivity].
Defined.

(** ** Prices and means of the daily series *)

Lemma toFixed2_near (x : Q) :
  (x - (1 # 200) <= toFixed2 x <= x + (1 # 200))%Q.
Proof.
  assert (N : forall y,
            (y - (1 # 200)
             <= inject_Z (Qfloor (y * 100 + (1 # 2))) / 100
             <= y + (1 # 200))%Q).
  { intros y. pose proof (Qfloor_le (y * 100 + (1 # 2))) as L.
    pose proof (Qlt_floor (y * 100 + (1 # 2))) as U.
    rewrite inject_Z_plus in U. change (inject_Z 1) with 1%Q in U.
    set (F := inject_Z (Qfloor (y * 100 + (1 # 2)))) in *.
    unfold Qdiv. change (/ 100)%Q with (1 # 100)%Q. lra. }
  unfold toFixed2. destruct (x ?= 0)%Q.
  - apply N.
  - pose proof (N (- x)%Q). lra.
  - apply N.
Qed.

Lemma makeRow_price (tzMin : Z) (parseDate : string -> option Z)
    (rng : nat -> Q) (hist : option Candles.t) (basePrice : Q)
    (e : string * Bucket.t) (n n' : Runtime) (r : SentimentData) :
  (forall k, (0 <= rng k < 1)%Q) -> (0 <= basePrice)%Q ->
  makeRow tzMin parseDate rng hist basePrice e n = (Ok r, n') ->
  (exists p, histClose hist p /\ stockPrice r = toFixed2 p) \/
  ((9 # 10) * basePrice - (1 # 200) <= stockPrice r
   <= (11 # 10) * basePrice + (1 # 200))%Q.
Proof.
  intros R B. destruct e as [k b]. unfold makeRow, bind, priceFor.
  assert (W : forall c w,
            ((9 # 10) <= c)%Q -> (c + w <= 11 # 10)%Q -> (0 <= w)%Q ->
            forall x, (0 <= x < 1)%Q ->
            ((9 # 10) * basePrice - (1 # 200)
             <= toFixed2 (basePrice * (c + x * w))
             <= (11 # 10) * basePrice + (1 # 200))%Q).
  { intros c w Hc Hw Hw0 x Hx.
    pose proof (toFixed2_near (basePrice * (c + x * w))) as T.
    assert ((9 # 10) <= c + x * w <= 11 # 10)%Q by nra.
    nra. }
  destruct hist as [[[hc|] [ht|]]|].
  2-5: unfold random, ret; cbv beta iota; intros [= <- _];
    right; cbn [stockPrice]; apply W; try lra; apply R.
  destruct (findIndex _ ht) as [i|].
  - destruct (nth_error hc i) as [p|] eqn:Np.
    + unfold ret. intros [= <- _]. left. exists p.
      split; [|reflexivity]. cbn [histClose Candles.c].
      eapply nth_error_In. exact Np.
    + unfold throw. discriminate.
  - unfold random, ret; cbv beta iota; intros [= <- _].
    right; cbn [stockPrice]; apply W; try lra; apply R.
Qed.

Lemma Forall2_Forall_r {A B : Type} (R : A -> B -> Prop) (P : B -> Prop)
    (l : list A) (m : list B) :
  Forall2 R l m -> (forall a b, In a l -> R a b -> P b) -> Forall P m.
Proof.
  induction 1 as [|a b l m H F IH]; intros G; constructor.
  - apply (G a b); [now left|exact H].
  - apply IH. intros a' b' I. apply G. now right.
Qed.

(** X13.  With draws in [0, 1) and a non-negative base price, the price
    of every row of a returned series is a closing price of the served
    candles, rounded to cents, or lies within a tenth of the base price
    (up to half a cent of rounding). *)
Theorem processSentimentData_prices
    (now tzMin : Z) (parseDate : string -> option Z) (rng : nat -> Q)
    (candleResponse : string -> Z -> Z -> Http Candles.t)
    (selectedStock : string) (news : list NewsItem) (quote : Quote.t)
    (days : Z) (s s' : Runtime) (rows : list SentimentData) :
  (forall k, (0 <= rng k < 1)%Q) -> (0 <= Quote.c quote)%Q ->
  processSentimentData now tzMin parseDate rng candleResponse selectedStock
    news quote days s = (Ok rows, s') ->
  Forall (priceExplained candleResponse selectedStock
            (getDateRange now tzMin days) (Quote.c quote)) rows.
Proof.
  intros R B. rewrite processSentimentData_unfold. cbv zeta.
  set (hist := fetchHistoricalData _ _ _ _). unfold bind.
  destruct (mapM _ (dailyTable now tzMin news days) s)
    as [[rows0|msg|] s1] eqn:E; try discriminate.
  unfold ret. intros [= <- <-].
  assert (F : Forall (priceExplained candleResponse selectedStock
                        (getDateRange now tzMin days) (Quote.c quote))
                     rows0).
  { eapply Forall2_Forall_r.
    - eapply (mapM_Ok_Forall2 _ (fun _ r =>
                priceExplained candleResponse selectedStock
                  (getDateRange now tzMin days) (Quote.c quote) r));
        [|exact E].
      intros e n r n' Er. unfold priceExplained. fold hist.
      eapply makeRow_price; eassumption.
    - intros a b _ H. exact H. }
  rewrite Forall_forall in *. intros r Hr. apply F.
  apply (Permutation_in _ (Array_sort_perm (compareDates parseDate) rows0)).
  exact Hr.
Qed.

Lemma processSentimentData_prices_witness :
  exists rows s',
    processSentimentData sampleNow 0 (parseDate2001 0) sampleRng
      (fun _ _ _ => Json sampleCandles) "AAPL" sampleNews sampleQuote 2
      sampleRuntime
    = (Ok rows, s') /\
    Forall (priceExplained (fun _ _ _ => Json sampleCandles) "AAPL"
              (getDateRange sampleNow 0 2) (Quote.c sampleQuote)) rows.
Proof.
  eexists _, _. split; [vm_compute; reflexivity|].
  eapply (processSentimentData_prices sampleNow 0 (parseDate2001 0)
            sampleRng (fun _ _ _ => Json sampleCandles) "AAPL" sampleNews
            sampleQuote 2 sampleRuntime);
    [exact sampleRng_unit|vm_compute; discriminate|vm_compute; reflexivity].
Defined.

Lemma contributions_In (tzMin : Z) (news : list NewsItem) (k : string)
    (v : Q) :
  In v (contributions tzMin news k) ->
  exists item s, In item news /\ sentiment item = Some s /\ v = val s.
Proof.
  unfold contributions. intros H. apply in_flat_map in H.
  destruct H as (item & I & H). exists item.
  destruct (sentiment item) as [s|]; [|contradiction].
  exists s. split; [exact I|]. split; [reflexivity|].
  destruct (String.eqb _ k); [|contradiction].
  destruct H as [<-|[]]. reflexivity.
Qed.

(** X14.  When the scores of the news lie between 0 and 1, the mean of
    every row of a returned series lies between -1 and 1. *)
Theorem processSentimentData_avg_range
    (now tzMin : Z) (parseDate : string -> option Z) (rng : nat -> Q)
    (candleResponse : string -> Z -> Z -> Http Candles.t)
    (selectedStock : string) (news : list NewsItem) (quote : Quote.t)
    (days : Z) (s s' : Runtime) (rows : list SentimentData) :
  unitScores news ->
  processSentimentData now tzMin parseDate rng candleResponse selectedStock
    news quote days s = (Ok rows, s') ->
  Forall (fun r => signedUnit (avgSentiment r)) rows.
Proof.
  intros U E.
  destruct (processSentimentData_rows_inv _ _ _ _ _ _ _ _ _ _ _ _ E)
    as (_ & rows0 & -> & F).
  assert (F0 : Forall (fun r => signedUnit (avgSentiment r)) rows0).
  { eapply Forall2_Forall_r; [exact F|].
    intros [k b] r I (_ & A & _). cbn [fst snd] in A. rewrite A.
    rewrite (dailyTable_entry now tzMin news days k b I).
    cbn [Bucket.sentiments]. apply average_bounds; [lra|].
    apply Forall_forall. intros v Hv.
    apply contributions_In in Hv. destruct Hv as (item & sv & I' & S' & ->).
    apply val_signedUnit. unfold unitScores in U.
    rewrite Forall_forall in U. exact (U item I' sv S'). }
  rewrite Forall_forall in *. intros r Hr. apply F0.
  apply (Permutation_in _ (Array_sort_perm (compareDates parseDate) rows0)).
  exact Hr.
Qed.

Lemma processSentimentData_avg_range_witness :
  exists rows s',
    processSentimentData sampleNow 0 (parseDate2001 0) sampleRng
      (fun _ _ _ => NotOk) "AAPL" sampleNews sampleQuote 2 sampleRuntime
    = (Ok rows, s') /\
    Forall (fun r => signedUnit (avgSentiment r)) rows.
Proof.
  eexists _, _. split; [vm_compute; reflexivity|].
  eapply (processSentimentData_avg_range sampleNow 0 (parseDate2001 0)
            sampleRng (fun _ _ _ => NotOk) "AAPL" sampleNews sampleQuote 2
            sampleRuntime); [|vm_compute; reflexivity].
  unfold unitScores, sampleNews.
  apply Forall_cons; [intros sv [= <-]; split; discriminate|].
  apply Forall_cons; [intros sv [= <-]; split; discriminate|].
  apply Forall_nil.
Defined.

(** ** The summary and the colours *)

Lemma countSentiment_total (acc : Dist.t) (item : NewsItem) :
  distTotal (countSentiment acc item)
  = (distTotal acc + if scored item then 1 else 0)%nat.
Proof.
  unfold countSentiment, scored, distTotal.
  destruct (sentiment item) as [sv|]; [|lia].
  destruct (String.eqb (label sv) "POSITIVE"); [cbn; lia|].
  destruct (String.eqb (label sv) "NEGATIVE"); cbn; lia.
Qed.

Lemma fold_countSentiment_total (news : list NewsItem) (acc : Dist.t) :
  distTotal (fold_left countSentiment news acc)
  = (distTotal acc + List.length (filter scored news))%nat.
Proof.
  revert acc. induction news as [|item news IH]; intros acc.
  - cbn. lia.
  - cbn [fold_left filter]. rewrite IH, countSentiment_total.
    destruct (scored item); cbn [List.length]; lia.
Qed.

Lemma stats_nil (now tzMin timeRange : Z) :
  stats now tzMin timeRange []
  = {| Stats.avgSentiment := 0; Stats.totalPosts := 0;
       Stats.sentimentDist :=
         {| Dist.positive := 0; Dist.negative := 0; Dist.neutral := 0 |} |}.
Proof. unfold stats. cbn [List.length Nat.eqb]. reflexivity. Qed.

Lemma stats_unfold (now tzMin timeRange : Z) (newsData : list NewsItem) :
  newsData <> [] ->
  stats now tzMin timeRange newsData
  = {| Stats.avgSentiment :=
         average (map statsSentimentValue
                      (filter (inRange now tzMin timeRange) newsData));
       Stats.totalPosts :=
         List.length (filter (inRange now tzMin timeRange) newsData);
       Stats.sentimentDist :=
         fold_left countSentiment
           (filter (inRange now tzMin timeRange) newsData)
           {| Dist.positive := 0; Dist.negative := 0; Dist.neutral := 0 |} |}.
Proof.
  destruct newsData as [|item news]; [contradiction|]. intros _.
  unfold stats, inRange. cbn [List.length Nat.eqb]. cbv zeta. reflexivity.
Qed.

Lemma stats_total_posts (now tzMin timeRange : Z)
    (newsData : list NewsItem) :
  Stats.totalPosts (stats now tzMin timeRange newsData)
  = List.length (filter (inRange now tzMin timeRange) newsData).
Proof.
  destruct newsData as [|item news].
  - rewrite stats_nil. reflexivity.
  - rewrite stats_unfold by discriminate.
    generalize (filter (inRange now tzMin timeRange) (item :: news)).
    intros shown. cbn [Stats.totalPosts]. reflexivity.
Qed.

Lemma stats_dist_total (now tzMin timeRange : Z)
    (newsData : list NewsItem) :
  distTotal (Stats.sentimentDist (stats now tzMin timeRange newsData))
  = List.length
      (filter scored (filter (inRange now tzMin timeRange) newsData)).
Proof.
  destruct newsData as [|item news].
  - rewrite stats_nil. reflexivity.
  - rewrite stats_unfold by discriminate.
    generalize (filter (inRange now tzMin timeRange) (item :: news)).
    intros shown. cbn [Stats.sentimentDist].
    rewrite fold_countSentiment_total. reflexivity.
Qed.

(** X18.  [stats]: the three counts of the distribution add up to the
    number of items of the range that carry a sentiment, which is at most
    the number of posts reported, itself at most the number of stored
    items; the pie data hold the same three counts. *)
Theorem stats_distribution (now tzMin timeRange : Z)
    (newsData : list NewsItem) :
  distTotal (Stats.sentimentDist (stats now tzMin timeRange newsData))
  = List.length
      (filter scored (filter (inRange now tzMin timeRange) newsData)) /\
  Stats.totalPosts (stats now tzMin timeRange newsData)
  = List.length (filter (inRange now tzMin timeRange) newsData) /\
  (distTotal (Stats.sentimentDist (stats now tzMin timeRange newsData))
   <= Stats.totalPosts (stats now tzMin timeRange newsData)
   <= List.length newsData)%nat /\
  list_sum (map snd (pieData (stats now tzMin timeRange newsData)))
  = distTotal (Stats.sentimentDist (stats now tzMin timeRange newsData)).
Proof.
  split; [apply stats_dist_total|]. split; [apply stats_total_posts|].
  split.
  - rewrite stats_dist_total, stats_total_posts.
    split; apply filter_length_le.
  - generalize (stats now tzMin timeRange newsData). intros st.
    unfold pieData, distTotal. cbn [map snd]. rewrite !list_sum_cons.
    cbn [list_sum fold_right]. lia.
Qed.

Lemma stats_avg (now tzMin timeRange : Z) (newsData : list NewsItem) :
  Stats.avgSentiment (stats now tzMin timeRange newsData)
  = overallSentiment (filter (inRange now tzMin timeRange) newsData).
Proof.
  destruct newsData as [|item news].
  - rewrite stats_nil. reflexivity.
  - rewrite stats_unfold by discriminate.
    generalize (filter (inRange now tzMin timeRange) (item :: news)).
    intros shown. cbn [Stats.avgSentiment]. unfold overallSentiment.
    reflexivity.
Qed.

(** X19.  [stats]: the average of the summary is the overall sentiment
    [fetchData] computes, taken over the items of the range; when no
    stored item is older than the range, the two numbers are the same
    and every stored item is a post. *)
Theorem stats_average (now tzMin timeRange : Z) (newsData : list NewsItem) :
  Stats.avgSentiment (stats now tzMin timeRange newsData)
  = overallSentiment (filter (inRange now tzMin timeRange) newsData) /\
  (Forall (fun item =>
             from (getDateRange now tzMin timeRange) <= datetime item)
          newsData ->
   Stats.avgSentiment (stats now tzMin timeRange newsData)
   = overallSentiment newsData /\
   Stats.totalPosts (stats now tzMin timeRange newsData)
   = List.length newsData).
Proof.
  split; [apply stats_avg|]. intros All.
  assert (F : filter (inRange now tzMin timeRange) newsData = newsData).
  { apply forallb_filter_id. apply forallb_forall. intros item I.
    rewrite Forall_forall in All. unfold inRange.
    apply Z.leb_le. apply All. exact I. }
  rewrite stats_avg, stats_total_posts, F. split; reflexivity.
Qed.

Lemma lessThan_Qlt (a b : Q) : lessThan a b = true <-> (a < b)%Q.
Proof.
  unfold lessThan. rewrite Qlt_alt. destruct (a ?= b)%Q; split; congruence.
Qed.

(** X20.  The colour of the badge of a scored item is the colour of the
    pie slice that counts it: counting the item adds one to exactly one
    of the three slices, and the fill of that slice is
    [sentimentColor] of the item's label. *)
Theorem badge_matches_slice (acc : Dist.t) (item : NewsItem)
    (sv : Sentiment) :
  sentiment item = Some sv ->
  cellFill (sliceOf (label sv)) = sentimentColor (label sv) /\
  (sliceOf (label sv) < 3)%nat /\
  forall index,
    nth index (slices (countSentiment acc item)) 0%nat
    = (nth index (slices acc) 0
       + if (index =? sliceOf (label sv))%nat then 1 else 0)%nat.
Proof.
  intros S. unfold countSentiment, sliceOf, sentimentColor. rewrite S.
  destruct (String.eqb (label sv) "POSITIVE");
    [|destruct (String.eqb (label sv) "NEGATIVE")].
  all: split; [reflexivity|]; split; [lia|].
  all: intros [|[|[|index]]]; cbn; lia.
Qed.

Lemma badge_matches_slice_witness :
  cellFill (sliceOf (label sampleNegative))
  = sentimentColor (label sampleNegative) /\
  (sliceOf (label sampleNegative) < 3)%nat /\
  forall index,
    nth index
      (slices (countSentiment
                 {| Dist.positive := 0; Dist.negative := 0;
                    Dist.neutral := 0 |} sampleScored)) 0%nat
    = (nth index
         (slices {| Dist.positive := 0; Dist.negative := 0;
                    Dist.neutral := 0 |}) 0
       + if (index =? sliceOf (label sampleNegative))%nat then 1 else 0)%nat.
Proof.
  apply (badge_matches_slice
           {| Dist.positive := 0; Dist.negative := 0; Dist.neutral := 0 |}
           sampleScored sampleNegative).
  reflexivity.
Defined.

(** X21.  The colour of a number agrees with the colour of a label: for
    a sentiment whose score exceeds 0.2, [sentimentColorValue] of its
    signed value is [sentimentColor] of its label.  The colour and the
    wording of the average score split the numbers at the same bounds:
    above 0.2, down to 0 exclusive, 0, down to -0.2, and below. *)
Theorem colours_agree (sv : Sentiment) (value : Q) :
  ((2 # 10 < score sv)%Q ->
   sentimentColorValue (val sv) = sentimentColor (label sv)) /\
  scoreColor value = sentimentColorValue value /\
  (scoreDescription value = "Strong Positive" <-> (2 # 10 < value)%Q) /\
  (scoreDescription value = "Mildly Positive"
   <-> (0 < value <= 2 # 10)%Q) /\
  (scoreDescription value = "Neutral" <-> (value == 0)%Q) /\
  (scoreDescription value = "Mildly Negative"
   <-> (- (2 # 10) <= value < 0)%Q) /\
  (scoreDescription value = "Strong Negative"
   <-> (value < - (2 # 10))%Q) /\
  (sentimentColorValue value = sentimentColor "POSITIVE"
   <-> (2 # 10 < value)%Q) /\
  (sentimentColorValue value = sentimentColor "NEGATIVE"
   <-> (value < - (2 # 10))%Q).
Proof.
  split.
  { intros H. unfold val, sentimentColor, sentimentColorValue.
    destruct (String.eqb (label sv) "POSITIVE").
    - assert (G : gt (score sv) (2 # 10) = true) by now apply gt_Qlt.
      rewrite G. reflexivity.
    - destruct (String.eqb (label sv) "NEGATIVE").
      + destruct (gt (- score sv) (2 # 10)) eqn:G.
        * apply gt_Qlt in G. lra.
        * assert (L : lessThan (- score sv) (- (2 # 10)) = true)
            by (apply lessThan_Qlt; lra).
          rewrite L. reflexivity.
      + reflexivity. }
  split; [reflexivity|].
  unfold scoreDescription, sentimentColorValue, sentimentColor.
  cbn [nthString nth COLORS String.eqb Ascii.eqb Bool.eqb].
  destruct (gt value (2 # 10)) eqn:G1;
    [apply gt_Qlt in G1
    |assert (N1 : ~ (2 # 10 < value)%Q)
       by (intros X; apply gt_Qlt in X; congruence)].
  - repeat split; try discriminate; try reflexivity; try lra;
      intros; try lra; auto.
  - destruct (gt value 0) eqn:G2;
      [apply gt_Qlt in G2
      |assert (N2 : ~ (0 < value)%Q)
         by (intros X; apply gt_Qlt in X; congruence)];
    (destruct (lessThan value (- (2 # 10))) eqn:L1;
       [apply lessThan_Qlt in L1
       |assert (M1 : ~ (value < - (2 # 10))%Q)
          by (intros X; apply lessThan_Qlt in X; congruence)]);
    try (destruct (lessThan value 0) eqn:L2;
       [apply lessThan_Qlt in L2
       |assert (M2 : ~ (value < 0)%Q)
          by (intros X; apply lessThan_Qlt in X; congruence)]).
    all: repeat split; try discriminate; try reflexivity; try lra;
      intros; try discriminate; try lra; try tauto.
Qed.

(** ** The search box *)

Lemma sampleResults_listable : listable sampleResults.
Proof.
  split; [cbn; lia|]. repeat (apply Forall_cons; [reflexivity|]).
  apply Forall_nil.
Qed.

Lemma filtered_listable (result : list SearchResult.t) :
  listable
    (firstn 10
       (filter (fun item => String.eqb (SearchResult.type item) "Common Stock")
               result)).
Proof.
  split; [apply firstn_le_length|].
  apply Forall_forall. intros item I.
  apply (Subseq_In _ _ _ (Subseq_firstn _ _)) in I.
  apply filter_In in I. destruct I as [_ I]. now apply String.eqb_eq.
Qed.

Lemma nil_listable : listable [].
Proof. split; [cbn; lia|apply Forall_nil]. Qed.

Lemma onlyShown_refl (u : State.t) : onlyShown u u.
Proof. repeat split. Qed.

Section SearchFacts.

Variable trim : string -> string.
Variable searchResponse : string -> Http (option (list SearchResult.t)).

Lemma searchCompanies_frame (query : string) (w : View.t) :
  listable (View.searchResults (searchCompanies trim searchResponse query w))
  /\ View.selectedStock (searchCompanies trim searchResponse query w)
     = View.selectedStock w
  /\ View.searchTerm (searchCompanies trim searchResponse query w)
     = View.searchTerm w
  /\ onlyShown (View.written w)
       (View.written (searchCompanies trim searchResponse query w)).
Proof.
  unfold searchCompanies.
  destruct (String.eqb (trim query) "").
  - cbn [setSearchResults View.searchResults View.selectedStock
           View.searchTerm View.written].
    split; [apply nil_listable|repeat split].
  - destruct (searchResponse query) as [msg| |[result|]];
      cbn [setShown setSearchResults View.searchResults View.selectedStock
             View.searchTerm View.written];
      (split; [first [apply filtered_listable|apply sampleResults_listable]|]);
      repeat split.
Qed.

(** X22.  [searchCompanies] lists at most ten results, all of them
    common stock, whatever the endpoint serves; it leaves the selected
    stock, the search term and the refreshed data alone.  A blank query
    empties the list and leaves the flag as it was, whatever the endpoint
    would serve; any other query raises the flag, and lists the three
    sample companies when no result list is served. *)
Theorem searchCompanies_listable (query : string) (w : View.t) :
  listable (View.searchResults (searchCompanies trim searchResponse query w))
  /\ View.selectedStock (searchCompanies trim searchResponse query w)
     = View.selectedStock w
  /\ View.searchTerm (searchCompanies trim searchResponse query w)
     = View.searchTerm w
  /\ onlyShown (View.written w)
       (View.written (searchCompanies trim searchResponse query w))
  /\ (trim query = "" ->
      View.searchResults (searchCompanies trim searchResponse query w) = [] /\
      View.written (searchCompanies trim searchResponse query w)
      = View.written w)
  /\ (trim query <> "" ->
      State.showSearchResults
        (View.written (searchCompanies trim searchResponse query w)) = true /\
      ((forall result, searchResponse query <> Json (Some result)) ->
       View.searchResults (searchCompanies trim searchResponse query w)
       = sampleResults)).
Proof.
  destruct (searchCompanies_frame query w) as (L & S & T & O).
  repeat (split; [assumption|]). unfold searchCompanies. split.
  - intros B. rewrite B. cbn. split; reflexivity.
  - intros B. destruct (String.eqb_spec (trim query) ""); [contradiction|].
    destruct (searchResponse query) as [msg| |[result|]]; cbn;
      (split; [reflexivity|]); intros F; try reflexivity.
    exfalso. exact (F result eq_refl).
Qed.

Lemma handleSearchInputChange_frame (value : string) (w : View.t) :
  listable (View.searchResults
              (handleSearchInputChange trim searchResponse value w))
  /\ View.selectedStock (handleSearchInputChange trim searchResponse value w)
     = View.selectedStock w
  /\ View.searchTerm (handleSearchInputChange trim searchResponse value w)
     = value
  /\ onlyShown (View.written w)
       (View.written (handleSearchInputChange trim searchResponse value w)).
Proof.
  unfold handleSearchInputChange. cbv zeta.
  destruct (2 <=? String.length value)%nat.
  - destruct (searchCompanies_frame value (setSearchTerm value w))
      as (L & S & T & O).
    repeat split; try assumption; try apply L; try apply O.
  - cbn [setShown setSearchResults setSearchTerm View.searchResults
           View.selectedStock View.searchTerm View.written].
    split; [apply nil_listable|repeat split].
Qed.

(** X23.  [handleSearchInputChange] stores the typed value as the search
    term and never changes the selected stock.  After it the list of
    results is rendered only if the value has at least two code units
    and is not blank; a shorter value empties the list and lowers the
    flag. *)
Theorem handleSearchInputChange_rendered (value : string) (w : View.t) :
  View.searchTerm (handleSearchInputChange trim searchResponse value w)
  = value /\
  View.selectedStock (handleSearchInputChange trim searchResponse value w)
  = View.selectedStock w /\
  (resultsRendered (handleSearchInputChange trim searchResponse value w)
   = true ->
   (2 <= String.length value)%nat /\ trim value <> "") /\
  ((String.length value < 2)%nat ->
   View.searchResults (handleSearchInputChange trim searchResponse value w)
   = [] /\
   State.showSearchResults
     (View.written (handleSearchInputChange trim searchResponse value w))
   = false).
Proof.
  destruct (handleSearchInputChange_frame value w) as (_ & S & T & _).
  split; [exact T|]. split; [exact S|].
  unfold handleSearchInputChange, resultsRendered. cbv zeta.
  destruct (Nat.leb_spec 2 (String.length value)) as [G|G].
  - split; [|lia]. intros R. split; [exact G|]. intros B.
    unfold searchCompanies in R. rewrite B in R.
    cbn [String.eqb setSearchResults setSearchTerm View.searchResults
           View.written List.length Nat.ltb Nat.leb] in R.
    rewrite andb_false_r in R. discriminate R.
  - split; [|intros _; split; reflexivity].
    cbn [setShown setSearchResults setSearchTerm View.searchResults
           View.written List.length Nat.ltb Nat.leb].
    rewrite andb_false_r. discriminate.
Qed.

(** X24.  Whatever the user types and picks, in any order and whatever
    the endpoint serves, the list of results stays listable (at most ten
    entries, all common stock) when it was so at the start; the handlers
    write no refreshed data; the selected stock is the symbol picked
    last, so typing alone never changes it. *)
Theorem search_box_invariant (events : list Event) (w : View.t) :
  listable (View.searchResults w) ->
  listable (View.searchResults
              (fold_left (handle trim searchResponse) events w)) /\
  onlyShown (View.written w)
    (View.written (fold_left (handle trim searchResponse) events w)) /\
  View.selectedStock (fold_left (handle trim searchResponse) events w)
  = lastPick events (View.selectedStock w).
Proof.
  revert w. induction events as [|e events IH]; intros w L.
  - cbn. split; [exact L|]. split; [apply onlyShown_refl|reflexivity].
  - cbn [fold_left]. unfold lastPick. cbn [fold_left].
    fold (lastPick events).
    assert (St : listable (View.searchResults (handle trim searchResponse w e))
                 /\ onlyShown (View.written w)
                      (View.written (handle trim searchResponse w e))
                 /\ View.selectedStock (handle trim searchResponse w e)
                    = match e with
                      | Typed _ => View.selectedStock w
                      | Picked symbol => symbol
                      | PickedBetter symbol => symbol
                      end).
    { destruct e as [value|symbol|symbol]; cbn [handle].
      - destruct (handleSearchInputChange_frame value w) as (L' & S & _ & O).
        auto.
      - cbn. split; [exact L|]. split; [repeat split|reflexivity].
      - cbn. split; [exact L|]. split; [repeat split|reflexivity]. }
    destruct St as (L' & O' & S').
    destruct (IH _ L') as (L2 & O2 & S2).
    split; [exact L2|]. split.
    + unfold onlyShown in *. intuition congruence.
    + rewrite S2, S'. reflexivity.
Qed.

End SearchFacts.

Lemma search_box_invariant_witness :
  listable (View.searchResults
              (fold_left (handle (fun q => q) (fun _ => NotOk))
                         [Typed "ap"; Picked "TSLA"] sampleView)) /\
  onlyShown (View.written sampleView)
    (View.written (fold_left (handle (fun q => q) (fun _ => NotOk))
                             [Typed "ap"; Picked "TSLA"] sampleView)) /\
  View.selectedStock (fold_left (handle (fun q => q) (fun _ => NotOk))
                                [Typed "ap"; Picked "TSLA"] sampleView)
  = lastPick [Typed "ap"; Picked "TSLA"] (View.selectedStock sampleView).
Proof.
  apply (search_box_invariant (fun q => q) (fun _ => NotOk)
           [Typed "ap"; Picked "TSLA"] sampleView).
  split; [cbn; lia|apply Forall_nil].
Defined.

(** ** The refresh, in every world *)

Lemma wp_settled {A : Type} (m : M A) (Q : A -> Runtime -> Prop)
    (E : string -> Runtime -> Prop) (s : Runtime) :
  settles m -> keepsUI m ->
  (forall a s', ui s' = ui s -> Q a s') ->
  (forall msg s', ui s' = ui s -> E msg s') ->
  wp m Q E s.
Proof.
  intros S K HQ HE. unfold wp. specialize (S s). specialize (K s).
  destruct (m s) as [[a|msg|] s']; cbn [fst snd] in *; auto.
Qed.

Lemma keepsUI_processSentimentData
    (now tzMin : Z) (parseDate : string -> option Z) (rng : nat -> Q)
    (candleResponse : string -> Z -> Z -> Http Candles.t)
    (selectedStock : string) (news : list NewsItem) (quote : Quote.t)
    (days : Z) :
  keepsUI (processSentimentData now tzMin parseDate rng candleResponse
             selectedStock news quote days).
Proof.
  intros s. rewrite processSentimentData_unfold. cbv zeta. revert s.
  apply keepsUI_bind.
  - apply keepsUI_mapM. intros e. apply keepsUI_makeRow.
  - intros rows. apply keepsUI_ret.
Qed.

Lemma wp_fetchStockQuote (quoteResponse : string -> Http Quote.t)
    (symbol : string) (Q : Quote.t -> Runtime -> Prop)
    (E : string -> Runtime -> Prop) (s : Runtime) :
  (forall quote, quoteResponse symbol = Json quote -> Q quote s) ->
  (forall msg, E msg s) ->
  wp (fetchStockQuote quoteResponse symbol) Q E s.
Proof.
  intros HQ HE. unfold wp, fetchStockQuote.
  destruct (quoteResponse symbol); cbn; auto.
Qed.

Section Refresh.

Variable now : Z.
Variable tzMin : Z.
Variable parseDate : string -> option Z.
Variable rng : nat -> Q.
Variable newsResponse : string -> Z -> Z -> Http (list NewsItem).
Variable quoteResponse : string -> Http Quote.t.
Variable candleResponse : string -> Z -> Z -> Http Candles.t.
Variable profileResponse : string -> Http Profile.t.
Variable peersResponse : string -> Http (list string).
Variable classifierResponse : string -> Http (option Sentiment).
Variable selectedStock : string.
Variable timeRange : Z.
Variable companyProfile : option Profile.t.

(** The ranking returns a sound ranking; of the component state it
    writes the company profile only, and only when the profile of the
    company is served. *)
Lemma wp_findCompaniesBetterSentiment_frame (currentSymbol : string)
    (baseline : Q) (Q : list Company.t -> Runtime -> Prop)
    (E : string -> Runtime -> Prop) (s : Runtime) :
  (forall ranking s',
     onlyProfile (ui s) (ui s') ->
     State.companyProfile (ui s')
     = match fetchCompanyProfile profileResponse currentSymbol with
       | Some profile => Some profile
       | None => State.companyProfile (ui s)
       end ->
     rankingSound currentSymbol baseline ranking -> Q ranking s') ->
  wp (findCompaniesBetterSentiment now tzMin rng newsResponse profileResponse
        peersResponse classifierResponse companyProfile currentSymbol
        baseline) Q E s.
Proof.
  intros H. unfold findCompaniesBetterSentiment. apply wp_tryCatch.
  destruct (fetchCompanyProfile profileResponse currentSymbol) as [profile|].
  - apply wp_bind, wp_setState, wp_bind.
    match goal with
    | |- wp _ _ _ ?st =>
        eapply wp_mono;
          [apply (wp_mapM _ (fun s' => ui s' = ui st)
                    (fun x c => Company.symbol c = x));
           [|reflexivity]| |]
    end.
    + intros x s0 _ U. apply wp_peerSentiment. intros c s' U' Ec.
      split; [congruence|exact Ec].
    + intros results s' [U F]. cbv beta. apply wp_ret.
      apply H; [rewrite U; repeat split|rewrite U; reflexivity|].
      apply (betterSentiment_sound currentSymbol baseline
               (firstn 6 (fetchPeerCompanies peersResponse companyProfile
                            currentSymbol)) results);
        [apply firstn_le_length| |exact F].
      intros I. apply (fetchPeerCompanies_not_self peersResponse
                         companyProfile currentSymbol).
      eapply Subseq_In; [apply Subseq_firstn|exact I].
    + intros msg s' X. exact X.
  - apply wp_throw, wp_ret, H; [repeat split; reflexivity|reflexivity|].
    apply demoCompanies_sound.
Qed.

Lemma wp_processSentimentData_any (news : list NewsItem) (quote : Quote.t)
    (days : Z) (Q : list SentimentData -> Runtime -> Prop)
    (E : string -> Runtime -> Prop) (s : Runtime) :
  (forall rows s', ui s' = ui s -> Q rows s') ->
  (forall msg s', ui s' = ui s -> E msg s') ->
  wp (processSentimentData now tzMin parseDate rng candleResponse
        selectedStock news quote days) Q E s.
Proof.
  apply wp_settled.
  - apply processSentimentData_settles.
  - apply keepsUI_processSentimentData.
Qed.

(** Neither path of the refresh opens the list of search results, and
    both settle. *)
Lemma wp_fetchDataLive_closed (s : Runtime) :
  State.showSearchResults (ui s) = false ->
  wp (fetchDataLive now tzMin parseDate rng newsResponse quoteResponse
        candleResponse profileResponse peersResponse classifierResponse
        selectedStock timeRange companyProfile)
     (fun _ s' => State.showSearchResults (ui s') = false)
     (fun _ s' => State.showSearchResults (ui s') = false) s.
Proof.
  intros P. unfold fetchDataLive.
  apply wp_bind, wp_fetchNews; [|intros msg; exact P]. intros news.
  apply wp_bind, wp_fetchStockQuote; [|intros msg; exact P]. intros quote _.
  apply wp_bind.
  eapply wp_mono;
    [apply (wp_mapM _ (fun s' => ui s' = ui s) (fun _ _ => True));
     [|reflexivity]| |].
  - intros item s0 _ U. apply wp_scoreHeadline. intros r s' U' _.
    split; [congruence|exact I].
  - intros scored s1 [U1 _]. cbv beta.
    apply wp_bind, wp_setState, wp_bind, wp_setState, wp_bind.
    apply wp_processSentimentData_any.
    + intros rows s2 U2.
      apply wp_bind, wp_setState, wp_bind, wp_setState.
      apply wp_bind, wp_findCompaniesBetterSentiment_frame.
      intros ranking s3 (_ & _ & _ & _ & _ & Sh & _) _ _. apply wp_setState.
      cbn in *. rewrite Sh, U2. cbn. rewrite U1. exact P.
    + intros msg s2 U2. rewrite U2. cbn. rewrite U1. exact P.
  - intros m s' X. exact X.
Qed.

Lemma wp_fetchDataFallback_closed (msg : string) (s : Runtime) :
  State.showSearchResults (ui s) = false ->
  wp (fetchDataFallback now tzMin parseDate rng newsResponse candleResponse
        profileResponse peersResponse classifierResponse selectedStock
        timeRange companyProfile msg)
     (fun _ s' => State.showSearchResults (ui s') = false)
     (fun _ s' => State.showSearchResults (ui s') = false) s.
Proof.
  intros P. unfold fetchDataFallback.
  apply wp_bind, wp_setState, wp_bind, wp_random, wp_bind.
  eapply wp_mono;
    [apply (wp_mapM _ (fun s' => State.showSearchResults (ui s') = false)
              (fun _ _ => True) noThrow); [|exact P]| |].
  - intros i s0 _ U. apply wp_demoNewsItem. intros item s' U'.
    split; [congruence|exact I].
  - intros demoNews s1 [U1 _]. cbv beta.
    apply wp_bind, wp_setState, wp_bind, wp_setState, wp_bind.
    apply wp_processSentimentData_any.
    + intros rows s2 U2.
      apply wp_bind, wp_setState, wp_bind, wp_setState, wp_bind, wp_setState.
      apply wp_bind, wp_findCompaniesBetterSentiment_frame.
      intros ranking s3 (_ & _ & _ & _ & _ & Sh & _) _ _. apply wp_setState.
      cbn in *. rewrite Sh, U2. cbn. exact U1.
    + intros m s2 U2. rewrite U2. cbn. exact U1.
  - intros m s' X. destruct X.
Qed.

(** X15.  [fetchData] settles in every world, whichever requests fail and
    whatever the candles hold; whether it returns or throws, the loading
    flag is cleared and the list of search results is closed. *)
Theorem fetchData_idle (s : Runtime) :
  wp (fetchData now tzMin parseDate rng newsResponse quoteResponse
        candleResponse profileResponse peersResponse classifierResponse
        selectedStock timeRange companyProfile)
     (fun _ s' => idle s') (fun _ s' => idle s') s.
Proof.
  unfold fetchData.
  apply wp_bind, wp_setState, wp_bind, wp_setState, wp_bind, wp_setState.
  apply wp_finally_setState, wp_tryCatch.
  eapply wp_mono; [apply wp_fetchDataLive_closed; reflexivity| |].
  - intros [] s1 P. split; [reflexivity|exact P].
  - intros msg s1 P. cbv beta.
    eapply wp_mono; [apply wp_fetchDataFallback_closed; exact P| |].
    + intros [] s2 P2. split; [reflexivity|exact P2].
    + intros m s2 P2. split; [reflexivity|exact P2].
Qed.

End Refresh.

(** A refresh that throws: the candles name a day of the series and hold
    no price, so the series cannot be built on either path; the loading
    flag is cleared all the same. *)
Example fetchData_rejected :
  exists msg s',
    fetchData sampleNow 0 (parseDate2001 0) sampleRng
      (fun _ _ _ => NotOk) (fun _ => NotOk)
      (fun _ _ _ =>
         Json {| Candles.c := Some []; Candles.t_ := Some [1004788800] |})
      (fun _ => NotOk) (fun _ => NotOk) (fun _ => NotOk) "AAPL" 7 None
      sampleRuntime
    = (Throw msg, s') /\
    idle s' /\ State.sentimentData (ui s') = [].
Proof.
  eexists _, _. split; [vm_compute; reflexivity|].
  repeat split.
Qed.

(** ** The state a refresh leaves *)

Lemma synthetic_counted (now tzMin timeRange : Z) (item : NewsItem) :
  0 <= timeRange ->
  synthetic (getDateRange now tzMin timeRange) timeRange item ->
  counted now tzMin timeRange item = true.
Proof.
  intros Ht ([L U] & sv & Sv & _). unfold counted. rewrite Sv.
  apply existsb_exists. exists (formatDate tzMin (datetime item)).
  split; [|apply String.eqb_refl].
  rewrite formatDate_dayLabel. fold (localDay tzMin (datetime item)).
  unfold windowLabels. apply in_map. apply dayRange_In.
  rewrite getDateRange_from, getDateRange_fromDate in L, U.
  revert L U. unfold localDay, midnight, Day, LocalTime, LocalTZA, msPerDay.
  generalize (today now tzMin). intros T L U.
  Z.div_mod_to_equations. lia.
Qed.

Section RefreshStates.

Variable now : Z.
Variable tzMin : Z.
Variable parseDate : string -> option Z.
Variable rng : nat -> Q.
Variable newsResponse : string -> Z -> Z -> Http (list NewsItem).
Variable quoteResponse : string -> Http Quote.t.
Variable candleResponse : string -> Z -> Z -> Http Candles.t.
Variable profileResponse : string -> Http Profile.t.
Variable peersResponse : string -> Http (list string).
Variable classifierResponse : string -> Http (option Sentiment).
Variable selectedStock : string.
Variable timeRange : Z.
Variable companyProfile : option Profile.t.

Hypothesis timeRange_selectable : In timeRange (map fst TIME_RANGES).
Hypothesis candles_aligned :
  forall sym f t, candlesAligned (candleResponse sym f t).

Lemma wp_processSentimentData_run (news : list NewsItem) (quote : Quote.t)
    (Q : list SentimentData -> Runtime -> Prop)
    (E : string -> Runtime -> Prop) (s : Runtime) :
  (forall rows s',
     processSentimentData now tzMin parseDate rng candleResponse
       selectedStock news quote timeRange s = (Ok rows, s') ->
     ui s' = ui s -> Q rows s') ->
  wp (processSentimentData now tzMin parseDate rng candleResponse
        selectedStock news quote timeRange) Q E s.
Proof.
  intros H.
  destruct (processSentimentData_rows now tzMin parseDate rng candleResponse
              selectedStock news quote timeRange s candles_aligned)
    as (rows0 & s' & Er & U & F).
  unfold wp. rewrite Er. apply H; [exact Er|exact U].
Qed.

Lemma wp_fetchDataLive_state (body : list NewsItem) (quote : Quote.t)
    (Q : unit -> Runtime -> Prop) (E : string -> Runtime -> Prop)
    (s : Runtime) :
  fetchNews now tzMin newsResponse selectedStock timeRange s
  = (Ok body, s) ->
  quoteResponse selectedStock = Json quote ->
  (forall s',
     State.stockQuote (ui s') = Some quote ->
     Forall2 scoredFrom body (State.newsData (ui s')) ->
     State.currentSentiment (ui s')
     = overallSentiment (State.newsData (ui s')) ->
     rankingSound selectedStock (State.currentSentiment (ui s'))
       (State.companiesWithBetterSentiment (ui s')) ->
     State.error (ui s') = State.error (ui s) ->
     State.companyProfile (ui s')
     = match fetchCompanyProfile profileResponse selectedStock with
       | Some profile => Some profile
       | None => State.companyProfile (ui s)
       end ->
     Q tt s') ->
  wp (fetchDataLive now tzMin parseDate rng newsResponse quoteResponse
        candleResponse profileResponse peersResponse classifierResponse
        selectedStock timeRange companyProfile) Q E s.
Proof.
  intros En Eq H. unfold fetchDataLive.
  apply wp_bind. unfold wp at 1. rewrite En.
  apply wp_bind. unfold fetchStockQuote. rewrite Eq. apply wp_ret.
  apply wp_bind.
  eapply wp_mono;
    [apply (wp_mapM _ (fun s' => ui s' = ui s) scoredFrom);
     [|reflexivity]| |].
  - intros item s0 _ U. apply wp_scoreHeadline. intros r s' U' Sc.
    split; [congruence|exact Sc].
  - intros scored s1 [U1 F]. cbv beta.
    apply wp_bind, wp_setState, wp_bind, wp_setState, wp_bind.
    apply wp_processSentimentData_run. intros rows s2 _ U2.
    apply wp_bind, wp_setState, wp_bind, wp_setState.
    apply wp_bind, wp_findCompaniesBetterSentiment_frame.
    intros ranking s3 (Sn & Sq & _ & _ & Se & _ & _ & Sc) Sp R.
    apply wp_setState.
    apply H; cbn in *.
    + rewrite Sq, U2. reflexivity.
    + rewrite Sn, U2. exact F.
    + rewrite Sc, Sn, U2. reflexivity.
    + rewrite Sc. exact R.
    + rewrite Se, U2. cbn. now rewrite U1.
    + rewrite Sp, U2. cbn. now rewrite U1.
  - intros m s' X. exact X.
Qed.

(** X16.  With candles that carry a price for each timestamp and both
    top-level requests served, the refresh returns; it stores the served quote and the fetched news, in
    order, each item with a sentiment attached; the current sentiment is
    the overall sentiment of the stored news, the stored ranking is
    sound for the selected stock and that sentiment, and no error is
    set.  The stored profile is the served profile of the selected
    stock; when none is served, the profile stored before stays. *)
Theorem fetchData_live_state (s : Runtime) :
  topLevelServed newsResponse quoteResponse selectedStock
    (getDateRange now tzMin timeRange) ->
  exists news quote s',
    fetchNews now tzMin newsResponse selectedStock timeRange s
    = (Ok news, s) /\
    fetchStockQuote quoteResponse selectedStock s = (Ok quote, s) /\
    fetchData now tzMin parseDate rng newsResponse quoteResponse
      candleResponse profileResponse peersResponse classifierResponse
      selectedStock timeRange companyProfile s = (Ok tt, s') /\
    State.stockQuote (ui s') = Some quote /\
    Forall2 scoredFrom news (State.newsData (ui s')) /\
    State.currentSentiment (ui s')
    = overallSentiment (State.newsData (ui s')) /\
    rankingSound selectedStock (State.currentSentiment (ui s'))
      (State.companiesWithBetterSentiment (ui s')) /\
    State.error (ui s') = None /\
    State.companyProfile (ui s')
    = match fetchCompanyProfile profileResponse selectedStock with
      | Some profile => Some profile
      | None => State.companyProfile (ui s)
      end.
Proof.
  intros [[nb En] [qb Eq]].
  set (news := firstn 50
                 (filter (fun item => negb (String.eqb (headline item) ""))
                         nb)).
  assert (Fn : forall s0,
            fetchNews now tzMin newsResponse selectedStock timeRange s0
            = (Ok news, s0)).
  { intros s0. unfold fetchNews. rewrite En. reflexivity. }
  exists news, qb.
  destruct (wp_run
              (fetchData now tzMin parseDate rng newsResponse quoteResponse
                 candleResponse profileResponse peersResponse
                 classifierResponse selectedStock timeRange companyProfile)
              (fun _ s' =>
                 State.stockQuote (ui s') = Some qb /\
                 Forall2 scoredFrom news (State.newsData (ui s')) /\
                 State.currentSentiment (ui s')
                 = overallSentiment (State.newsData (ui s')) /\
                 rankingSound selectedStock (State.currentSentiment (ui s'))
                   (State.companiesWithBetterSentiment (ui s')) /\
                 State.error (ui s') = None /\
                 State.companyProfile (ui s')
                 = match fetchCompanyProfile profileResponse selectedStock
                   with
                   | Some profile => Some profile
                   | None => State.companyProfile (ui s)
                   end) s) as ([] & s' & E & P).
  - unfold fetchData.
    apply wp_bind, wp_setState, wp_bind, wp_setState, wp_bind, wp_setState.
    apply wp_finally_setState, wp_tryCatch.
    apply (wp_fetchDataLive_state news qb); [apply Fn|exact Eq|].
    intros s1 Hq Hn Hc Hr He Hp. cbn in *. auto 10.
  - exists s'. split; [apply Fn|].
    split; [unfold fetchStockQuote; rewrite Eq; reflexivity|].
    split; [exact E|exact P].
Qed.

Lemma wp_demoNewsItem_synthetic (i : nat)
    (Q : NewsItem -> Runtime -> Prop) (E : string -> Runtime -> Prop)
    (s : Runtime) :
  (forall n, (0 <= rng n < 1)%Q) ->
  (forall item s',
     ui s' = ui s ->
     syntheticAt (getDateRange now tzMin timeRange) i item ->
     Q item s') ->
  wp (demoNewsItem rng selectedStock
        (from (getDateRange now tzMin timeRange)) i) Q E s.
Proof.
  intros R H. unfold demoNewsItem.
  apply wp_bind, wp_random, wp_bind, wp_random, wp_ret.
  apply H; [reflexivity|]. unfold syntheticAt. cbn [datetime sentiment].
  split; [reflexivity|].
  eexists. split; [reflexivity|]. cbn [label score]. split.
  - pose proof (R (draws (drawn s))). lra.
  - apply pickLabel_closed, R.
Qed.

Lemma syntheticAt_synthetic (i : nat) (item : NewsItem) :
  Z.of_nat i < timeRange * 3 ->
  syntheticAt (getDateRange now tzMin timeRange) i item ->
  synthetic (getDateRange now tzMin timeRange) timeRange item.
Proof.
  intros Hi (D & S). split; [|exact S]. rewrite D.
  pose proof (Nat.div_mod_eq i 3) as Dm.
  pose proof (Nat.mod_upper_bound i 3 ltac:(discriminate)) as M.
  lia.
Qed.

Lemma syntheticAt_localDay (i : nat) (item : NewsItem) :
  syntheticAt (getDateRange now tzMin timeRange) i item ->
  localDay tzMin (datetime item)
  = today now tzMin - timeRange + Z.of_nat (i / 3).
Proof.
  intros (D & _). apply localDay_bounds. rewrite D.
  rewrite getDateRange_from, getDateRange_fromDate.
  pose proof (Nat.mod_upper_bound i 3 ltac:(discriminate)) as M.
  pose proof (midnight_seconds tzMin (today now tzMin - timeRange)) as Ms.
  unfold midnight, msPerDay in *.
  set (m := (today now tzMin - timeRange) * 86400000 - LocalTZA tzMin) in *.
  nia.
Qed.

(** The facts the fallback hands on: the synthetic news, the quote and
    the run that built the stored series. *)
Lemma wp_fetchDataFallback_state (msg : string)
    (Q : unit -> Runtime -> Prop) (s : Runtime) :
  (forall n, (0 <= rng n < 1)%Q) ->
  (forall s',
     Forall2 (syntheticAt (getDateRange now tzMin timeRange))
             (seq 0 (Z.to_nat (timeRange * 3))) (State.newsData (ui s')) ->
     (exists q sa sb,
        State.stockQuote (ui s') = Some q /\
        (150 <= Quote.c q < 200)%Q /\
        processSentimentData now tzMin parseDate rng candleResponse
          selectedStock (State.newsData (ui s')) q timeRange sa
        = (Ok (State.sentimentData (ui s')), sb)) ->
     State.currentSentiment (ui s') = (2 # 10)%Q ->
     rankingSound selectedStock (2 # 10)
       (State.companiesWithBetterSentiment (ui s')) ->
     State.error (ui s') = Some msg ->
     State.companyProfile (ui s')
     = match fetchCompanyProfile profileResponse selectedStock with
       | Some profile => Some profile
       | None => Some (demoProfile selectedStock)
       end ->
     Q tt s') ->
  wp (fetchDataFallback now tzMin parseDate rng newsResponse candleResponse
        profileResponse peersResponse classifierResponse selectedStock
        timeRange companyProfile msg) Q noThrow s.
Proof.
  intros R H. unfold fetchDataFallback.
  apply wp_bind, wp_setState, wp_bind, wp_random, wp_bind.
  match goal with
  | |- wp _ _ _ ?st =>
      eapply wp_mono;
        [apply (wp_mapM _ (fun s' => ui s' = ui st)
                  (syntheticAt (getDateRange now tzMin timeRange))
                  noThrow); [|reflexivity]| |]
  end.
  - intros i s0 _ U.
    apply wp_demoNewsItem_synthetic; [exact R|].
    intros item s' U' Sy. split; [congruence|exact Sy].
  - intros demoNews s1 [U1 F]. cbv beta.
    apply wp_bind, wp_setState, wp_bind, wp_setState, wp_bind.
    apply wp_processSentimentData_run. intros rows s2 Er U2.
    apply wp_bind, wp_setState, wp_bind, wp_setState, wp_bind, wp_setState.
    apply wp_bind, wp_findCompaniesBetterSentiment_frame.
    intros ranking s3 (Sn & Sq & Sd & _ & Se & _ & _ & Sc) Sp Rk.
    apply wp_setState.
    apply H; cbn in *.
    + rewrite Sn, U2. exact F.
    + rewrite Sq, Sd, Sn, U2. cbn. eexists _, _, _.
      split; [reflexivity|]. split; [|exact Er]. cbn [Quote.c].
      pose proof (R (draws s)). lra.
    + rewrite Sc. reflexivity.
    + exact Rk.
    + rewrite Se, U2. cbn. rewrite U1. reflexivity.
    + rewrite Sp. reflexivity.
  - intros m s' X. exact X.
Qed.

(** Every run of a refresh whose news or quote request fails ends in a
    state with the facts of the fallback. *)
Lemma fetchData_fallback_run (s : Runtime) :
  (forall n, (0 <= rng n < 1)%Q) ->
  ~ topLevelServed newsResponse quoteResponse selectedStock
      (getDateRange now tzMin timeRange) ->
  exists s',
    fetchData now tzMin parseDate rng newsResponse quoteResponse
      candleResponse profileResponse peersResponse classifierResponse
      selectedStock timeRange companyProfile s = (Ok tt, s') /\
    Forall2 (syntheticAt (getDateRange now tzMin timeRange))
            (seq 0 (Z.to_nat (timeRange * 3))) (State.newsData (ui s')) /\
    (exists q sa sb,
       State.stockQuote (ui s') = Some q /\
       (150 <= Quote.c q < 200)%Q /\
       processSentimentData now tzMin parseDate rng candleResponse
         selectedStock (State.newsData (ui s')) q timeRange sa
       = (Ok (State.sentimentData (ui s')), sb)) /\
    State.currentSentiment (ui s') = (2 # 10)%Q /\
    rankingSound selectedStock (2 # 10)
      (State.companiesWithBetterSentiment (ui s')) /\
    State.companyProfile (ui s')
    = match fetchCompanyProfile profileResponse selectedStock with
      | Some profile => Some profile
      | None => Some (demoProfile selectedStock)
      end.
Proof.
  intros R N.
  match goal with
  | |- exists s', ?run = _ /\ @?P s' =>
      destruct (wp_run
                  (fetchData now tzMin parseDate rng newsResponse
                     quoteResponse candleResponse profileResponse
                     peersResponse classifierResponse selectedStock
                     timeRange companyProfile)
                  (fun _ s' => P s') s) as ([] & s' & E & X);
        [|exists s'; split; [exact E|exact X]]
  end.
  unfold fetchData.
  apply wp_bind, wp_setState, wp_bind, wp_setState, wp_bind, wp_setState.
  apply wp_finally_setState, wp_tryCatch.
  match goal with
  | |- wp _ _ _ ?st =>
      destruct (fetchDataLive_unserved now tzMin parseDate rng
                  newsResponse quoteResponse candleResponse
                  profileResponse peersResponse classifierResponse
                  selectedStock timeRange companyProfile st N)
        as (msg & El)
  end.
  unfold wp at 1. rewrite El.
  apply wp_fetchDataFallback_state; [exact R|].
  intros s1 Hn Hq Hc Hr _ Hp. cbn in *. auto 10.
Qed.

Lemma synthetic_news (news : list NewsItem) :
  Forall2 (syntheticAt (getDateRange now tzMin timeRange))
          (seq 0 (Z.to_nat (timeRange * 3))) news ->
  Z.of_nat (List.length news) = 3 * timeRange /\
  Forall (synthetic (getDateRange now tzMin timeRange) timeRange) news.
Proof.
  intros F. pose proof (timeRange_window timeRange timeRange_selectable) as W.
  split.
  - rewrite <- (Forall2_length F), length_seq. lia.
  - assert (G : forall l, (forall i, In i l -> Z.of_nat i < timeRange * 3) ->
                Forall2 (syntheticAt (getDateRange now tzMin timeRange)) l
                        news ->
                Forall (synthetic (getDateRange now tzMin timeRange)
                          timeRange) news).
    { clear F. intros l Hl F. induction F as [|i item l news Hi F IH];
        constructor.
      - apply (syntheticAt_synthetic i); [apply Hl; now left|exact Hi].
      - apply IH. intros i' I'. apply Hl. now right. }
    apply (G (seq 0 (Z.to_nat (timeRange * 3))));
      [intros i Hi; apply in_seq in Hi; lia|exact F].
Qed.

(** X17.  With the ranges the component offers, candles that carry a
    price for each timestamp and draws in [0, 1), a refresh whose news or
    quote request fails returns with synthetic content: three news items
    for each day of the range before today, all of them counted in the
    stored series; a quote with a price in [150, 200); the current
    sentiment 0.2, whatever the synthetic news say; a ranking that is
    sound for the selected stock and 0.2; and the served profile of the
    selected stock, or the demo profile when none is served. *)
Theorem fetchData_fallback_state (s : Runtime) :
  (forall n, (0 <= rng n < 1)%Q) ->
  ~ topLevelServed newsResponse quoteResponse selectedStock
      (getDateRange now tzMin timeRange) ->
  exists s',
    fetchData now tzMin parseDate rng newsResponse quoteResponse
      candleResponse profileResponse peersResponse classifierResponse
      selectedStock timeRange companyProfile s = (Ok tt, s') /\
    Z.of_nat (List.length (State.newsData (ui s'))) = 3 * timeRange /\
    Forall (synthetic (getDateRange now tzMin timeRange) timeRange)
           (State.newsData (ui s')) /\
    (exists q, State.stockQuote (ui s') = Some q /\
               (150 <= Quote.c q < 200)%Q) /\
    State.currentSentiment (ui s') = (2 # 10)%Q /\
    rankingSound selectedStock (2 # 10)
      (State.companiesWithBetterSentiment (ui s')) /\
    list_sum (map volume (State.sentimentData (ui s')))
    = List.length (State.newsData (ui s')) /\
    State.companyProfile (ui s')
    = match fetchCompanyProfile profileResponse selectedStock with
      | Some profile => Some profile
      | None => Some (demoProfile selectedStock)
      end.
Proof.
  intros R N. pose proof (timeRange_window timeRange timeRange_selectable) as W.
  destruct (fetchData_fallback_run s R N)
    as (s' & E & F & (q & sa & sb & Eq & Rq & Er) & Hc & Hr & Hp).
  destruct (synthetic_news _ F) as (Ln & Fs).
  exists s'. split; [exact E|]. split; [exact Ln|]. split; [exact Fs|].
  split; [exists q; auto|]. split; [exact Hc|]. split; [exact Hr|].
  split; [|exact Hp].
  destruct (processSentimentData_rows_inv _ _ _ _ _ _ _ _ _ _ _ _ Er)
    as (_ & rows0 & -> & F0).
  rewrite (rows_volumes _ _ _ F0).
  rewrite dailyTable_volumes by lia. f_equal.
  apply forallb_filter_id. apply forallb_forall. intros item Hi.
  rewrite Forall_forall in Fs.
  apply (synthetic_counted now tzMin timeRange item); [lia|auto].
Qed.

Lemma count_thirds (n j : nat) :
  List.length (filter (fun i => (i / 3 =? j)%nat) (seq 0 (3 * n)))
  = if (j <? n)%nat then 3%nat else 0%nat.
Proof.
  induction n as [|n IH]; [reflexivity|].
  replace (3 * S n)%nat with (3 * n + 3)%nat by lia.
  rewrite seq_app, filter_app, length_app, IH. cbn [seq filter Nat.add].
  assert (D0 : ((3 * n) / 3 = n)%nat).
  { pose proof (Nat.div_mod_eq (3 * n) 3).
    pose proof (Nat.mod_upper_bound (3 * n) 3 ltac:(discriminate)). lia. }
  assert (D1 : (S (3 * n) / 3 = n)%nat).
  { pose proof (Nat.div_mod_eq (S (3 * n)) 3).
    pose proof (Nat.mod_upper_bound (S (3 * n)) 3 ltac:(discriminate)). lia. }
  assert (D2 : (S (S (3 * n)) / 3 = n)%nat).
  { pose proof (Nat.div_mod_eq (S (S (3 * n))) 3).
    pose proof (Nat.mod_upper_bound (S (S (3 * n))) 3 ltac:(discriminate)).
    lia. }
  rewrite D0, D1, D2.
  destruct (Nat.eqb_spec n j) as [->|Ne].
  - destruct (Nat.ltb_spec j j); [lia|].
    destruct (Nat.ltb_spec j (S j)); [|lia]. reflexivity.
  - destruct (Nat.ltb_spec j n), (Nat.ltb_spec j (S n)); cbn; lia.
Qed.

Lemma synthetic_contributions (l : list nat) (news : list NewsItem)
    (j : nat) :
  Forall2 (syntheticAt (getDateRange now tzMin timeRange)) l news ->
  (forall i, In i l -> Z.of_nat i < timeRange * 3) ->
  Z.of_nat j <= timeRange ->
  List.length
    (contributions tzMin news
       (dayLabel (today now tzMin - timeRange + Z.of_nat j)))
  = List.length (filter (fun i => (i / 3 =? j)%nat) l).
Proof.
  pose proof (timeRange_window timeRange timeRange_selectable) as W.
  intros F. induction F as [|i item l news Hi F IH]; intros Hl Hj;
    [reflexivity|].
  rewrite contributions_cons, length_app, IH;
    [|intros i' I'; apply Hl; now right|exact Hj].
  cbn [filter]. pose proof (syntheticAt_localDay i item Hi) as Ld.
  destruct Hi as (_ & sv & -> & _).
  rewrite formatDate_dayLabel. fold (localDay tzMin (datetime item)).
  rewrite Ld.
  assert (Bi : Z.of_nat (i / 3) < timeRange).
  { pose proof (Hl i (or_introl eq_refl)).
    pose proof (Nat.div_mod_eq i 3).
    pose proof (Nat.mod_upper_bound i 3 ltac:(discriminate)). lia. }
  destruct (Nat.eqb_spec (i / 3) j) as [->|Ne].
  - rewrite String.eqb_refl. reflexivity.
  - destruct (String.eqb_spec
                (dayLabel (today now tzMin - timeRange + Z.of_nat (i / 3)))
                (dayLabel (today now tzMin - timeRange + Z.of_nat j)))
      as [Eq|_]; [exfalso|reflexivity].
    destruct (Z.lt_trichotomy (Z.of_nat (i / 3)) (Z.of_nat j))
      as [L|[L|L]]; [|lia|].
    + apply (dayLabel_window
               (today now tzMin - timeRange + Z.of_nat (i / 3))
               (today now tzMin - timeRange + Z.of_nat j)); [lia|exact Eq].
    + apply (dayLabel_window
               (today now tzMin - timeRange + Z.of_nat j)
               (today now tzMin - timeRange + Z.of_nat (i / 3)));
        [lia|symmetry; exact Eq].
Qed.

(** X25.  In the state a failed refresh leaves, under the conditions of
    X17 and on a host whose time zone keeps one offset [tzMin] from UTC
    over the range, the stored series shows three news items on each day
    of the range before today and none today.  In such a zone the range,
    the labels of the times of the range and the steps of the day loop
    are those of the fixed offset (X1, [Zoned_formatDate_fixed],
    [Zoned_setDate_fixed]).  The synthetic items are dated in steps of
    86400 seconds from the start of the range, so a day of 23 or 25
    hours inside the range shifts them against the local days. *)
Theorem fetchData_fallback_days (s : Runtime) :
  (forall n, (0 <= rng n < 1)%Q) ->
  ~ topLevelServed newsResponse quoteResponse selectedStock
      (getDateRange now tzMin timeRange) ->
  exists s',
    fetchData now tzMin parseDate rng newsResponse quoteResponse
      candleResponse profileResponse peersResponse classifierResponse
      selectedStock timeRange companyProfile s = (Ok tt, s') /\
    Forall (syntheticRow now tzMin (Z.to_nat timeRange))
           (State.sentimentData (ui s')).
Proof.
  intros R N. pose proof (timeRange_window timeRange timeRange_selectable) as W.
  destruct (fetchData_fallback_run s R N)
    as (s' & E & F & (q & sa & sb & _ & _ & Er) & _).
  exists s'. split; [exact E|].
  destruct (processSentimentData_rows_inv _ _ _ _ _ _ _ _ _ _ _ _ Er)
    as (_ & rows0 & -> & F0).
  apply Forall_forall. intros r Hr.
  apply (Permutation_in _ (Array_sort_perm (compareDates parseDate) rows0))
    in Hr.
  assert (G : exists k b,
            In (k, b) (dailyTable now tzMin (State.newsData (ui s'))
                         timeRange) /\
            date r = k /\ volume r = Bucket.volume b).
  { clear -F0 Hr. induction F0 as [|[k b] r0 d rs (Hd & _ & Hv) F0 IH];
      [contradiction|].
    destruct Hr as [<-|Hr].
    - exists k, b. split; [now left|auto].
    - destruct (IH Hr) as (k' & b' & I' & P). exists k', b'.
      split; [now right|exact P]. }
  destruct G as (k & b & I & Ed & Ev).
  pose proof (dailyTable_entry now tzMin _ timeRange k b I) as Eb.
  assert (Ik : In k (windowLabels now tzMin timeRange)).
  { apply (dailyTable_keys_In now tzMin (State.newsData (ui s')) timeRange).
    unfold dict_keys. apply (in_map fst) in I. exact I. }
  unfold windowLabels in Ik. apply in_map_iff in Ik.
  destruct Ik as (D & <- & HD). apply dayRange_In in HD.
  exists (Z.to_nat (D - (today now tzMin - timeRange))).
  replace (today now tzMin - Z.of_nat (Z.to_nat timeRange)
           + Z.of_nat (Z.to_nat (D - (today now tzMin - timeRange))))
    with D by lia.
  split; [lia|]. split; [exact Ed|].
  rewrite Ev, Eb. cbn [Bucket.volume].
  replace D with (today now tzMin - timeRange
                  + Z.of_nat (Z.to_nat (D - (today now tzMin - timeRange))))
    at 1 by lia.
  rewrite (synthetic_contributions (seq 0 (Z.to_nat (timeRange * 3))));
    [|exact F|intros i Hi; apply in_seq in Hi; lia|lia].
  replace (Z.to_nat (timeRange * 3)) with (3 * Z.to_nat timeRange)%nat by lia.
  apply count_thirds.
Qed.

(** X26.  In the state a failed refresh leaves, under the conditions of
    X17, the summary counts every synthetic item: the number of posts
    and the three counts of the distribution together are three times
    the range. *)
Theorem fetchData_fallback_summary (s : Runtime) :
  (forall n, (0 <= rng n < 1)%Q) ->
  ~ topLevelServed newsResponse quoteResponse selectedStock
      (getDateRange now tzMin timeRange) ->
  exists s',
    fetchData now tzMin parseDate rng newsResponse quoteResponse
      candleResponse profileResponse peersResponse classifierResponse
      selectedStock timeRange companyProfile s = (Ok tt, s') /\
    Z.of_nat (Stats.totalPosts
                (stats now tzMin timeRange (State.newsData (ui s'))))
    = 3 * timeRange /\
    Z.of_nat (distTotal
                (Stats.sentimentDist
                   (stats now tzMin timeRange (State.newsData (ui s')))))
    = 3 * timeRange.
Proof.
  intros R N.
  destruct (fetchData_fallback_run s R N) as (s' & E & F & _).
  destruct (synthetic_news _ F) as (Ln & Fs).
  exists s'. split; [exact E|].
  assert (In1 : filter (inRange now tzMin timeRange) (State.newsData (ui s'))
                = State.newsData (ui s')).
  { apply forallb_filter_id. apply forallb_forall. intros item I.
    rewrite Forall_forall in Fs. destruct (Fs item I) as ([L _] & _).
    unfold inRange. apply Z.leb_le. exact L. }
  assert (In2 : filter scored (State.newsData (ui s'))
                = State.newsData (ui s')).
  { apply forallb_filter_id. apply forallb_forall. intros item I.
    rewrite Forall_forall in Fs. destruct (Fs item I) as (_ & sv & Sv & _).
    unfold scored. rewrite Sv. reflexivity. }
  rewrite stats_total_posts, stats_dist_total, In1, In2. split; exact Ln.
Qed.

(** X30.  In the state a failed refresh leaves, under the conditions of
    X17, every company of the stored ranking is shown in the colour of a
    strong positive sentiment: its sentiment is above the baseline 0.2
    at which [sentimentColorValue] turns green. *)
Theorem fetchData_fallback_ranking_green (s : Runtime) :
  (forall n, (0 <= rng n < 1)%Q) ->
  ~ topLevelServed newsResponse quoteResponse selectedStock
      (getDateRange now tzMin timeRange) ->
  exists s',
    fetchData now tzMin parseDate rng newsResponse quoteResponse
      candleResponse profileResponse peersResponse classifierResponse
      selectedStock timeRange companyProfile s = (Ok tt, s') /\
    Forall (fun company =>
              sentimentColorValue (Company.sentiment company)
              = sentimentColor "POSITIVE")
           (State.companiesWithBetterSentiment (ui s')).
Proof.
  intros R N.
  destruct (fetchData_fallback_run s R N)
    as (s' & E & _ & _ & _ & (_ & Above & _) & _).
  exists s'. split; [exact E|].
  eapply Forall_impl; [|exact Above].
  intros company G. cbv beta in G. unfold sentimentColorValue.
  apply gt_Qlt in G. rewrite G. reflexivity.
Qed.

End RefreshStates.

Lemma fetchData_live_state_witness :
  exists news quote s',
    fetchNews sampleNow 0 (fun _ _ _ => Json sampleNews) "AAPL" 1
      sampleRuntime = (Ok news, sampleRuntime) /\
    fetchStockQuote (fun _ => Json sampleQuote) "AAPL" sampleRuntime
    = (Ok quote, sampleRuntime) /\
    fetchData sampleNow 0 (parseDate2001 0) sampleRng
      (fun _ _ _ => Json sampleNews) (fun _ => Json sampleQuote)
      (fun _ _ _ => Json sampleCandles) (fun _ => Json sampleProfile)
      (fun _ => Json ["MSFT"; "GOOGL"]) sampleClassifier "AAPL" 1 None
      sampleRuntime = (Ok tt, s') /\
    State.stockQuote (ui s') = Some quote /\
    Forall2 scoredFrom news (State.newsData (ui s')) /\
    State.currentSentiment (ui s')
    = overallSentiment (State.newsData (ui s')) /\
    rankingSound "AAPL" (State.currentSentiment (ui s'))
      (State.companiesWithBetterSentiment (ui s')) /\
    State.error (ui s') = None /\
    State.companyProfile (ui s')
    = match fetchCompanyProfile (fun _ => Json sampleProfile) "AAPL" with
      | Some profile => Some profile
      | None => State.companyProfile (ui sampleRuntime)
      end.
Proof.
  apply (fetchData_live_state sampleNow 0 (parseDate2001 0) sampleRng
           (fun _ _ _ => Json sampleNews) (fun _ => Json sampleQuote)
           (fun _ _ _ => Json sampleCandles) (fun _ => Json sampleProfile)
           (fun _ => Json ["MSFT"; "GOOGL"]) sampleClassifier "AAPL" 1 None).
  - intros sym f t. cbn. lia.
  - split; eexists; reflexivity.
Defined.

Lemma fetchData_fallback_state_witness :
  exists s',
    fetchData sampleNow 0 (parseDate2001 0) sampleRng (fun _ _ _ => NotOk)
      (fun _ => NotOk) (fun _ _ _ => NotOk) (fun _ => NotOk)
      (fun _ => NotOk) (fun _ => NotOk) "AAPL" 7 None sampleRuntime
    = (Ok tt, s') /\
    Z.of_nat (List.length (State.newsData (ui s'))) = 3 * 7 /\
    Forall (synthetic (getDateRange sampleNow 0 7) 7)
           (State.newsData (ui s')) /\
    (exists q, State.stockQuote (ui s') = Some q /\
               (150 <= Quote.c q < 200)%Q) /\
    State.currentSentiment (ui s') = (2 # 10)%Q /\
    rankingSound "AAPL" (2 # 10)
      (State.companiesWithBetterSentiment (ui s')) /\
    list_sum (map volume (State.sentimentData (ui s')))
    = List.length (State.newsData (ui s')) /\
    State.companyProfile (ui s')
    = match fetchCompanyProfile (fun _ => @NotOk Profile.t) "AAPL" with
      | Some profile => Some profile
      | None => Some (demoProfile "AAPL")
      end.
Proof.
  apply (fetchData_fallback_state sampleNow 0 (parseDate2001 0) sampleRng
           (fun _ _ _ => NotOk) (fun _ => NotOk) (fun _ _ _ => NotOk)
           (fun _ => NotOk) (fun _ => NotOk) (fun _ => NotOk) "AAPL" 7 None).
  - cbn. auto.
  - intros sym f t. exact I.
  - exact sampleRng_unit.
  - intros [[body H] _]. discriminate H.
Defined.

Lemma fetchData_fallback_days_witness :
  exists s',
    fetchData sampleNow 0 (parseDate2001 0) sampleRng (fun _ _ _ => NotOk)
      (fun _ => NotOk) (fun _ _ _ => NotOk) (fun _ => NotOk)
      (fun _ => NotOk) (fun _ => NotOk) "AAPL" 7 None sampleRuntime
    = (Ok tt, s') /\
    Forall (syntheticRow sampleNow 0 (Z.to_nat 7))
           (State.sentimentData (ui s')).
Proof.
  apply (fetchData_fallback_days sampleNow 0 (parseDate2001 0) sampleRng
           (fun _ _ _ => NotOk) (fun _ => NotOk) (fun _ _ _ => NotOk)
           (fun _ => NotOk) (fun _ => NotOk) (fun _ => NotOk) "AAPL" 7 None).
  - cbn. auto.
  - intros sym f t. exact I.
  - exact sampleRng_unit.
  - intros [[body H] _]. discriminate H.
Defined.

Lemma fetchData_fallback_summary_witness :
  exists s',
    fetchData sampleNow 0 (parseDate2001 0) sampleRng (fun _ _ _ => NotOk)
      (fun _ => NotOk) (fun _ _ _ => NotOk) (fun _ => NotOk)
      (fun _ => NotOk) (fun _ => NotOk) "AAPL" 7 None sampleRuntime
    = (Ok tt, s') /\
    Z.of_nat (Stats.totalPosts
                (stats sampleNow 0 7 (State.newsData (ui s'))))
    = 3 * 7 /\
    Z.of_nat (distTotal
                (Stats.sentimentDist
                   (stats sampleNow 0 7 (State.newsData (ui s')))))
    = 3 * 7.
Proof.
  apply (fetchData_fallback_summary sampleNow 0 (parseDate2001 0) sampleRng
           (fun _ _ _ => NotOk) (fun _ => NotOk) (fun _ _ _ => NotOk)
           (fun _ => NotOk) (fun _ => NotOk) (fun _ => NotOk) "AAPL" 7 None).
  - cbn. auto.
  - intros sym f t. exact I.
  - exact sampleRng_unit.
  - intros [[body H] _]. discriminate H.
Defined.

Lemma fetchData_fallback_ranking_green_witness :
  exists s',
    fetchData sampleNow 0 (parseDate2001 0) sampleRng (fun _ _ _ => NotOk)
      (fun _ => NotOk) (fun _ _ _ => NotOk) (fun _ => NotOk)
      (fun _ => NotOk) (fun _ => NotOk) "AAPL" 7 None sampleRuntime
    = (Ok tt, s') /\
    Forall (fun company =>
              sentimentColorValue (Company.sentiment company)
              = sentimentColor "POSITIVE")
           (State.companiesWithBetterSentiment (ui s')).
Proof.
  apply (fetchData_fallback_ranking_green sampleNow 0 (parseDate2001 0)
           sampleRng (fun _ _ _ => NotOk) (fun _ => NotOk)
           (fun _ _ _ => NotOk) (fun _ => NotOk) (fun _ => NotOk)
           (fun _ => NotOk) "AAPL" 7 None).
  - intros sym f t. exact I.
  - exact sampleRng_unit.
  - intros [[body H] _]. discriminate H.
Defined.

(** ** Which candle prices a row *)

Lemma hasSlash_uint (d : Decimal.uint) :
  hasSlash (NilEmpty.string_of_uint d) = false.
Proof. induction d; cbn; auto. Qed.

Lemma decimal_noSlash (n : Z) : 0 < n -> hasSlash (decimal n) = false.
Proof.
  destruct n as [|p|p]; try lia. intros _. unfold decimal.
  cbn [Z.to_int NilZero.string_of_int NilZero.string_of_uint].
  pose proof (DecimalPos.Unsigned.to_uint_nonnil p) as N.
  destruct (Pos.to_uint p) eqn:E; try contradiction;
    unfold NilZero.string_of_uint; apply hasSlash_uint.
Qed.

Lemma slash_split (u u' v v' : string) :
  hasSlash u = false -> hasSlash u' = false ->
  u ++ String "/" v = u' ++ String "/" v' -> u = u' /\ v = v'.
Proof.
  revert u'. induction u as [|c u IH]; intros [|c' u'] H H' E;
    cbn [append hasSlash] in *.
  - injection E as E. auto.
  - injection E as Ec E. subst c'. cbn in H'. discriminate H'.
  - injection E as Ec E. subst c. cbn in H. discriminate H.
  - injection E as Ec E. subst c'.
    apply orb_false_iff in H, H'. destruct H as [_ H], H' as [_ H'].
    destruct (IH u' H H' E) as [-> ->]. auto.
Qed.

Lemma Day_MakeDay (t : Z) :
  Day t = MakeDay (YearFromTime t) (MonthFromTime t) (DateFromTime t).
Proof.
  unfold MakeDay, MonthFromTime, DateFromTime, DateFromDayInYear,
    YearFromTime, DayWithinYear. lia.
Qed.

Lemma MonthFromTime_range (t : Z) : 0 <= MonthFromTime t <= 11.
Proof. exact (MonthFromDay_range (Day t)). Qed.

Lemma DateFromTime_range (t : Z) : 1 <= DateFromTime t <= 31.
Proof. exact (DateFromDay_range (Day t)). Qed.

(** Two times after the year 0 print as the same date exactly when they
    fall on the same local day. *)
Lemma toLocaleDateString_same_day (tzMin tv1 tv2 : Z) :
  0 < YearFromTime (LocalTime tzMin tv1) ->
  0 < YearFromTime (LocalTime tzMin tv2) ->
  String.eqb (toLocaleDateString tzMin (Some tv1))
             (toLocaleDateString tzMin (Some tv2))
  = (Day (LocalTime tzMin tv1) =? Day (LocalTime tzMin tv2)).
Proof.
  intros Y1 Y2. unfold toLocaleDateString.
  set (t1 := LocalTime tzMin tv1) in *. set (t2 := LocalTime tzMin tv2) in *.
  pose proof (MonthFromTime_range t1). pose proof (MonthFromTime_range t2).
  pose proof (DateFromTime_range t1). pose proof (DateFromTime_range t2).
  destruct (Z.eqb_spec (Day t1) (Day t2)) as [E|N].
  - apply String.eqb_eq. unfold MonthFromTime, DateFromTime, YearFromTime.
    now rewrite E.
  - apply String.eqb_neq. intros E. apply N.
    change ("/" ++ ?x) with (String "/" x) in E.
    apply slash_split in E; try (apply decimal_noSlash; lia).
    destruct E as [Em E].
    change ("/" ++ ?x) with (String "/" x) in E.
    apply slash_split in E; try (apply decimal_noSlash; lia).
    destruct E as [Ed Ey].
    apply decimal_inj in Em; try lia.
    apply decimal_inj in Ed; try lia.
    apply decimal_inj in Ey; try lia.
    rewrite (Day_MakeDay t1), (Day_MakeDay t2).
    replace (MonthFromTime t1) with (MonthFromTime t2) by lia.
    now rewrite Ed, Ey.
Qed.

Lemma toLocaleDateString_valid (tzMin tv : Z) :
  0 < YearFromTime (LocalTime tzMin tv) ->
  String.eqb (toLocaleDateString tzMin (Some tv))
             (toLocaleDateString tzMin None) = false.
Proof.
  intros Y. apply String.eqb_neq. unfold toLocaleDateString. intros E.
  pose proof (MonthFromTime_range (LocalTime tzMin tv)) as M.
  assert (S : hasSlash "Invalid Date" = false) by reflexivity.
  rewrite <- E in S. clear E.
  assert (G : forall u v, hasSlash (u ++ String "/" v) = true).
  { intros u v. induction u as [|c u IH]; cbn [append hasSlash].
    - reflexivity.
    - rewrite IH. apply orb_true_r. }
  change ("/" ++ ?x) with (String "/" x) in S. rewrite G in S.
  discriminate S.
Qed.

Lemma findIndex_ext {A : Type} (p q : A -> bool) (l : list A) :
  (forall x, In x l -> p x = q x) -> findIndex p l = findIndex q l.
Proof.
  induction l as [|x l IH]; intros H; [reflexivity|].
  cbn [findIndex]. rewrite (H x (or_introl eq_refl)).
  rewrite IH; [reflexivity|]. intros y Hy. apply H. now right.
Qed.

Lemma findIndex_none {A : Type} (p : A -> bool) (l : list A) :
  (forall x, In x l -> p x = false) -> findIndex p l = None.
Proof.
  induction l as [|x l IH]; intros H; [reflexivity|].
  cbn [findIndex]. rewrite (H x (or_introl eq_refl)).
  rewrite IH; [reflexivity|]. intros y Hy. apply H. now right.
Qed.

(** X27.  With candles served (times after the year 0), the price of a
    row is the close of the first candle on the local day the host reads
    from the row's label; when the host reads no date, or no candle is on
    that day, the price is the base price varied by a draw, between 95%
    and 105%; when the candle has no close the row throws. *)
Theorem priceFor_candle_of_day (tzMin : Z) (parseDate : string -> option Z)
    (rng : nat -> Q) (hc : list Q) (ht : list Z) (basePrice : Q)
    (date : string) (s : Runtime) :
  (forall t, In t ht -> 0 < YearFromTime (LocalTime tzMin (t * 1000))) ->
  (forall tv, parseDate date = Some tv ->
              0 < YearFromTime (LocalTime tzMin tv)) ->
  priceFor tzMin parseDate rng
    (Some {| Candles.c := Some hc; Candles.t_ := Some ht |}) basePrice date s
  = match candleOfDay tzMin parseDate ht date with
    | Some index =>
        match nth_error hc index with
        | Some p => (Ok p, s)
        | None => (Throw "Cannot read properties of undefined", s)
        end
    | None =>
        (Ok (basePrice * ((95 # 100) + rng (draws s) * (1 # 10)))%Q, drawn s)
    end.
Proof.
  intros Hc Hd. unfold priceFor, candleOfDay.
  destruct (parseDate date) as [tv|] eqn:P.
  - rewrite (findIndex_ext _
               (fun t => localDay tzMin t =? Day (LocalTime tzMin tv))).
    + destruct (findIndex _ ht) as [i|]; [|reflexivity].
      destruct (nth_error hc i); reflexivity.
    + intros t It. apply toLocaleDateString_same_day; [now apply Hc|].
      now apply Hd.
  - rewrite findIndex_none; [reflexivity|].
    intros t It. apply toLocaleDateString_valid. now apply Hc.
Qed.

Lemma priceFor_candle_of_day_witness :
  priceFor 0 (parseDate2001 0) sampleRng
    (Some {| Candles.c := Some [100; 101]%Q;
             Candles.t_ := Some [1793577600; 1793664000] |})
    100 "Nov 3" sampleRuntime
  = match candleOfDay 0 (parseDate2001 0) [1793577600; 1793664000] "Nov 3"
    with
    | Some index =>
        match nth_error [100; 101]%Q index with
        | Some p => (Ok p, sampleRuntime)
        | None =>
            (Throw "Cannot read properties of undefined", sampleRuntime)
        end
    | None =>
        (Ok (100 * ((95 # 100) + sampleRng (draws sampleRuntime) * (1 # 10)))%Q,
         drawn sampleRuntime)
    end.
Proof.
  apply (priceFor_candle_of_day 0 (parseDate2001 0) sampleRng [100; 101]%Q
           [1793577600; 1793664000] 100 "Nov 3" sampleRuntime).
  - intros t [<-|[<-|[]]]; vm_compute; reflexivity.
  - intros tv [= <-]. vm_compute. reflexivity.
Defined.

(** The candles of 2 and 3 November 2026 price no row of the series of
    3 November 2026 on a host that reads the labels as days of 2001. *)
Example candles_of_the_range_unused :
  candleOfDay 0 (parseDate2001 0) [1793577600; 1793664000] "Nov 2" = None /\
  candleOfDay 0 (parseDate2001 0) [1793577600; 1793664000] "Nov 3" = None /\
  localDay 0 1793577600 = localDay 0 (1793707200 - 86400) /\
  windowLabels sampleNow 0 1 = ["Nov 2"; "Nov 3"].
Proof. repeat split; vm_compute; reflexivity. Qed.

(** ** What a refresh reads of the state it starts from *)

Lemma overwrites_weaken {A : Type} (m : M A) (W W' : Field -> Prop) :
  overwrites m W -> (forall X, W' X -> W X) -> overwrites m W'.
Proof.
  intros H I s1 s2 D. destruct (H s1 s2 D) as (R & Dr & Ag).
  split; [exact R|]. split; [exact Dr|].
  intros X [P|[P Ok1]]; apply Ag; [now left|right; split; auto].
Qed.

Lemma overwrites_ret {A : Type} (a : A) : overwrites (ret a) noField.
Proof.
  intros s1 s2 D. cbn. split; [reflexivity|]. split; [exact D|].
  intros X [P|[[] _]]. exact P.
Qed.

Lemma overwrites_throw {A : Type} (msg : string) (W : Field -> Prop) :
  overwrites (@throw A msg) W.
Proof.
  intros s1 s2 D. cbn. split; [reflexivity|]. split; [exact D|].
  intros X [P|[_ [a Ea]]]; [exact P|discriminate Ea].
Qed.

Lemma overwrites_random (rng : nat -> Q) : overwrites (random rng) noField.
Proof.
  intros s1 s2 D. cbn. rewrite D. split; [reflexivity|].
  split; [reflexivity|]. intros X [P|[[] _]]. exact P.
Qed.

Lemma overwrites_bind {A B : Type} (m : M A) (k : A -> M B)
    (W1 W2 : Field -> Prop) :
  overwrites m W1 -> (forall a, overwrites (k a) W2) ->
  overwrites (bind m k) (fun X => W1 X \/ W2 X).
Proof.
  intros Hm Hk s1 s2 D. destruct (Hm s1 s2 D) as (R & Dr & Ag).
  unfold bind.
  destruct (m s1) as [[a|msg|] t1], (m s2) as [[a'|msg'|] t2];
    cbn [fst snd] in *; try discriminate R.
  - injection R as <-. destruct (Hk a t1 t2 Dr) as (R' & Dr' & Ag').
    split; [exact R'|]. split; [exact Dr'|].
    intros X [P|[[P|P] Ok1]]; apply Ag'.
    + left. apply Ag. now left.
    + left. apply Ag. right. split; [exact P|eauto].
    + right. split; [exact P|exact Ok1].
  - injection R as <-. split; [reflexivity|]. split; [exact Dr|].
    intros X [P|[_ [b Eb]]]; [|discriminate Eb]. apply Ag. now left.
  - split; [reflexivity|]. split; [exact Dr|].
    intros X [P|[_ [b Eb]]]; [|discriminate Eb]. apply Ag. now left.
Qed.

Lemma overwrites_tryCatch {A : Type} (m : M A) (handler : string -> M A)
    (W1 W2 : Field -> Prop) :
  overwrites m W1 -> (forall msg, overwrites (handler msg) W2) ->
  overwrites (tryCatch m handler) (fun X => W1 X /\ W2 X).
Proof.
  intros Hm Hh s1 s2 D. destruct (Hm s1 s2 D) as (R & Dr & Ag).
  unfold tryCatch.
  destruct (m s1) as [[a|msg|] t1], (m s2) as [[a'|msg'|] t2];
    cbn [fst snd] in *; try discriminate R.
  - split; [exact R|]. split; [exact Dr|].
    intros X [P|[[P _] Ok1]]; apply Ag; [now left|right; split; eauto].
  - injection R as <-. destruct (Hh msg t1 t2 Dr) as (R' & Dr' & Ag').
    split; [exact R'|]. split; [exact Dr'|].
    intros X [P|[[_ P] Ok1]]; apply Ag'.
    + left. apply Ag. now left.
    + right. split; [exact P|exact Ok1].
  - split; [reflexivity|]. split; [exact Dr|].
    intros X [P|[_ [b Eb]]]; [|discriminate Eb]. apply Ag. now left.
Qed.

Lemma overwrites_mapM {A B : Type} (f : A -> M B) (l : list A) :
  (forall x, overwrites (f x) noField) -> overwrites (mapM f l) noField.
Proof.
  intros H. induction l as [|x l IH]; cbn [mapM].
  - apply overwrites_ret.
  - eapply overwrites_weaken.
    + apply overwrites_bind; [apply H|]. intros y.
      apply overwrites_bind; [apply IH|]. intros ys. apply overwrites_ret.
    + intros X [].
Qed.

Lemma overwrites_setState (f : State.t -> State.t) (W : Field -> Prop) :
  (forall X u1 u2, agree X u1 u2 \/ W X -> agree X (f u1) (f u2)) ->
  overwrites (setState f) W.
Proof.
  intros H s1 s2 D. cbn. split; [reflexivity|]. split; [exact D|].
  intros X [P|[P _]]; apply H; auto.
Qed.

Lemma overwrites_finally {A : Type} (m : M A) (f : State.t -> State.t)
    (W : Field -> Prop) :
  overwrites m W ->
  (forall X u1 u2, agree X u1 u2 -> agree X (f u1) (f u2)) ->
  overwrites (finally m (setState f)) W.
Proof.
  intros Hm Hf s1 s2 D. destruct (Hm s1 s2 D) as (R & Dr & Ag).
  unfold finally, setState.
  destruct (m s1) as [r1 t1], (m s2) as [r2 t2]. cbn [fst snd ui draws] in *.
  split; [exact R|]. split; [exact Dr|].
  intros X P. apply Hf, Ag. exact P.
Qed.

Section Blind.

Variable now : Z.
Variable tzMin : Z.
Variable parseDate : string -> option Z.
Variable rng : nat -> Q.
Variable newsResponse : string -> Z -> Z -> Http (list NewsItem).
Variable quoteResponse : string -> Http Quote.t.
Variable candleResponse : string -> Z -> Z -> Http Candles.t.
Variable profileResponse : string -> Http Profile.t.
Variable peersResponse : string -> Http (list string).
Variable classifierResponse : string -> Http (option Sentiment).
Variable selectedStock : string.
Variable timeRange : Z.
Variable companyProfile : option Profile.t.

Lemma overwrites_fetchNews (symbol : string) (days : Z) :
  overwrites (fetchNews now tzMin newsResponse symbol days) noField.
Proof.
  unfold fetchNews. destruct (newsResponse symbol _ _);
    first [apply overwrites_throw|apply overwrites_ret].
Qed.

Lemma overwrites_fetchStockQuote (symbol : string) :
  overwrites (fetchStockQuote quoteResponse symbol) noField.
Proof.
  unfold fetchStockQuote. destruct (quoteResponse symbol);
    first [apply overwrites_throw|apply overwrites_ret].
Qed.

Lemma overwrites_bind_none {A B : Type} (m : M A) (k : A -> M B) :
  overwrites m noField -> (forall a, overwrites (k a) noField) ->
  overwrites (bind m k) noField.
Proof.
  intros Hm Hk. eapply overwrites_weaken.
  - apply overwrites_bind; [exact Hm|exact Hk].
  - intros X [].
Qed.

Lemma overwrites_tryCatch_none {A : Type} (m : M A)
    (handler : string -> M A) :
  overwrites m noField -> (forall msg, overwrites (handler msg) noField) ->
  overwrites (tryCatch m handler) noField.
Proof.
  intros Hm Hh. eapply overwrites_weaken.
  - apply overwrites_tryCatch; [exact Hm|exact Hh].
  - intros X [].
Qed.

Lemma overwrites_analyzeSentiment (text : string) :
  overwrites (analyzeSentiment rng classifierResponse text) noField.
Proof.
  unfold analyzeSentiment. destruct (classifierResponse text);
    try apply overwrites_ret;
    (apply overwrites_bind_none; [apply overwrites_random|]; intros r1;
     apply overwrites_bind_none; [apply overwrites_random|]; intros r2;
     apply overwrites_ret).
Qed.

Lemma overwrites_scoreHeadline (item : NewsItem) :
  overwrites (scoreHeadline rng classifierResponse item) noField.
Proof.
  unfold scoreHeadline.
  apply overwrites_bind_none; [apply overwrites_analyzeSentiment|].
  intros sv. apply overwrites_ret.
Qed.

Lemma overwrites_makeRow (hist : option Candles.t) (basePrice : Q)
    (e : string * Bucket.t) :
  overwrites (makeRow tzMin parseDate rng hist basePrice e) noField.
Proof.
  destruct e as [k b]. unfold makeRow.
  apply overwrites_bind_none; [|intros p; apply overwrites_ret].
  unfold priceFor.
  destruct hist as [[[hc|] [ht|]]|];
    try (apply overwrites_bind_none; [apply overwrites_random|];
         intros r; apply overwrites_ret).
  destruct (findIndex _ ht) as [i|].
  - destruct (nth_error hc i);
      first [apply overwrites_ret|apply overwrites_throw].
  - apply overwrites_bind_none; [apply overwrites_random|].
    intros r; apply overwrites_ret.
Qed.

Lemma overwrites_processSentimentData (news : list NewsItem)
    (quote : Quote.t) (days : Z) :
  overwrites (processSentimentData now tzMin parseDate rng candleResponse
                selectedStock news quote days) noField.
Proof.
  intros s1 s2 D. rewrite !processSentimentData_unfold. cbv zeta.
  revert s1 s2 D.
  apply overwrites_bind_none.
  - apply overwrites_mapM. intros e. apply overwrites_makeRow.
  - intros rows. apply overwrites_ret.
Qed.

Lemma overwrites_peerSentiment (symbol : string) :
  overwrites (peerSentiment now tzMin rng newsResponse profileResponse
                classifierResponse symbol) noField.
Proof.
  unfold peerSentiment. apply overwrites_tryCatch_none.
  - apply overwrites_bind_none; [apply overwrites_fetchNews|].
    intros news. destruct (List.length news =? 0)%nat.
    + apply overwrites_ret.
    + apply overwrites_bind_none.
      * apply overwrites_mapM. intros item. apply overwrites_scoreHeadline.
      * intros scored. apply overwrites_ret.
  - intros msg. apply overwrites_bind_none; [apply overwrites_random|].
    intros r. apply overwrites_ret.
Qed.

Lemma overwrites_findCompaniesBetterSentiment (currentSymbol : string)
    (baseline : Q) :
  overwrites (findCompaniesBetterSentiment now tzMin rng newsResponse
                profileResponse peersResponse classifierResponse
                companyProfile currentSymbol baseline) noField.
Proof.
  unfold findCompaniesBetterSentiment. apply overwrites_tryCatch_none.
  - destruct (fetchCompanyProfile profileResponse currentSymbol) as [p|];
      [|apply overwrites_throw].
    apply overwrites_bind_none.
    + apply overwrites_setState. setter_agrees.
    + intros []. apply overwrites_bind_none.
      * apply overwrites_mapM. intros x. apply overwrites_peerSentiment.
      * intros results. apply overwrites_ret.
  - intros msg. apply overwrites_ret.
Qed.

Lemma overwrites_demoNewsItem (from : Z) (i : nat) :
  overwrites (demoNewsItem rng selectedStock from i) noField.
Proof.
  unfold demoNewsItem.
  apply overwrites_bind_none; [apply overwrites_random|]. intros r1.
  apply overwrites_bind_none; [apply overwrites_random|]. intros r2.
  apply overwrites_ret.
Qed.

Lemma overwrites_fetchDataLive :
  overwrites (fetchDataLive now tzMin parseDate rng newsResponse
                quoteResponse candleResponse profileResponse peersResponse
                classifierResponse selectedStock timeRange companyProfile)
             refreshed.
Proof.
  unfold fetchDataLive. eapply overwrites_weaken.
  - apply overwrites_bind; [apply overwrites_fetchNews|]. intros news.
    apply overwrites_bind; [apply overwrites_fetchStockQuote|]. intros quote.
    apply overwrites_bind;
      [apply overwrites_mapM; intros item; apply overwrites_scoreHeadline|].
    intros scored.
    apply overwrites_bind;
      [apply (overwrites_setState _ (eq StockQuote)); setter_agrees|].
    intros [].
    apply overwrites_bind;
      [apply (overwrites_setState _ (eq NewsData)); setter_agrees|].
    intros [].
    apply overwrites_bind; [apply overwrites_processSentimentData|].
    intros rows.
    apply overwrites_bind;
      [apply (overwrites_setState _ (eq SentimentSeries)); setter_agrees|].
    intros [].
    apply overwrites_bind;
      [apply (overwrites_setState _ (eq CurrentSentiment)); setter_agrees|].
    intros [].
    apply overwrites_bind;
      [apply overwrites_findCompaniesBetterSentiment|].
    intros ranking.
    apply (overwrites_setState _ (eq Companies)); setter_agrees.
  - unfold refreshed. intros X H. cbv beta.
    repeat (destruct H as [H|H]; [subst X; tauto|]). subst X. tauto.
Qed.

Lemma overwrites_fetchDataFallback (msg : string) :
  overwrites (fetchDataFallback now tzMin parseDate rng newsResponse
                candleResponse profileResponse peersResponse
                classifierResponse selectedStock timeRange companyProfile
                msg)
             refreshed.
Proof.
  unfold fetchDataFallback. eapply overwrites_weaken.
  - apply overwrites_bind;
      [apply (overwrites_setState _ (eq Error)); setter_agrees|].
    intros [].
    apply overwrites_bind; [apply overwrites_random|]. intros r.
    apply overwrites_bind;
      [apply overwrites_mapM; intros i; apply overwrites_demoNewsItem|].
    intros demoNews.
    apply overwrites_bind;
      [apply (overwrites_setState _ (eq NewsData)); setter_agrees|].
    intros [].
    apply overwrites_bind;
      [apply (overwrites_setState _ (eq StockQuote)); setter_agrees|].
    intros [].
    apply overwrites_bind; [apply overwrites_processSentimentData|].
    intros rows.
    apply overwrites_bind;
      [apply (overwrites_setState _ (eq SentimentSeries)); setter_agrees|].
    intros [].
    apply overwrites_bind;
      [apply (overwrites_setState _ (eq CurrentSentiment)); setter_agrees|].
    intros [].
    apply overwrites_bind;
      [apply (overwrites_setState _ (eq CompanyProfile)); setter_agrees|].
    intros [].
    apply overwrites_bind;
      [apply overwrites_findCompaniesBetterSentiment|].
    intros ranking.
    apply (overwrites_setState _ (eq Companies)); setter_agrees.
  - unfold refreshed. intros X H. cbv beta.
    repeat (destruct H as [H|H]; [subst X; tauto|]). subst X. tauto.
Qed.

(** With the closure fixed, [fetchData] reads nothing of the state it
    starts from, and overwrites every variable but the company profile. *)
Lemma overwrites_fetchData :
  overwrites
    (fetchData now tzMin parseDate rng newsResponse quoteResponse
       candleResponse profileResponse peersResponse classifierResponse
       selectedStock timeRange companyProfile)
    (fun X => X <> CompanyProfile).
Proof.
  unfold fetchData. eapply overwrites_weaken.
  - apply overwrites_bind;
      [apply (overwrites_setState _ (eq Loading)); setter_agrees|].
    intros [].
    apply overwrites_bind;
      [apply (overwrites_setState _ (eq Error)); setter_agrees|].
    intros [].
    apply overwrites_bind;
      [apply (overwrites_setState _ (eq ShowSearchResults));
       setter_agrees|].
    intros [].
    apply overwrites_finally.
    + apply overwrites_tryCatch;
        [apply overwrites_fetchDataLive|apply overwrites_fetchDataFallback].
    + intros X u1 u2 P. destruct X; cbn in *; auto.
  - unfold refreshed. intros X N. cbv beta. destruct X; try tauto.
Qed.

End Blind.

(** X28.  Of the state of the render that starts it, a refresh reads the
    company profile alone, and only on the way to the fallback lists of
    [fetchPeerCompanies].  Take two states with the same number of draws
    made, such that the fallback lists are not used or the two hold the
    same profile.  The runs the effect starts from them give the same
    result and make the same draws; the states they leave agree on every
    variable the two agreed on, and, when the runs return, on every
    variable of [State.t] but the company profile. *)
Theorem fetchData_overwrites
    (now tzMin : Z) (parseDate : string -> option Z) (rng : nat -> Q)
    (newsResponse : string -> Z -> Z -> Http (list NewsItem))
    (quoteResponse : string -> Http Quote.t)
    (candleResponse : string -> Z -> Z -> Http Candles.t)
    (profileResponse : string -> Http Profile.t)
    (peersResponse : string -> Http (list string))
    (classifierResponse : string -> Http (option Sentiment))
    (selectedStock : string) (timeRange : Z) (s1 s2 : Runtime) :
  draws s1 = draws s2 ->
  fallbackPeersUnused profileResponse peersResponse selectedStock \/
  State.companyProfile (ui s1) = State.companyProfile (ui s2) ->
  let run :=
    fetchDataEffect now tzMin parseDate rng newsResponse quoteResponse
      candleResponse profileResponse peersResponse classifierResponse
      selectedStock timeRange in
  fst (run s1) = fst (run s2) /\
  draws (snd (run s1)) = draws (snd (run s2)) /\
  (forall X,
     agree X (ui s1) (ui s2) -> agree X (ui (snd (run s1))) (ui (snd (run s2))))
  /\
  (fst (run s1) = Ok tt ->
   forall X,
     X <> CompanyProfile -> agree X (ui (snd (run s1))) (ui (snd (run s2)))).
Proof.
  intros D H run. unfold run, fetchDataEffect.
  rewrite (fetchData_closure now tzMin parseDate rng newsResponse
             quoteResponse candleResponse profileResponse peersResponse
             classifierResponse selectedStock timeRange
             (State.companyProfile (ui s1)) (State.companyProfile (ui s2)) H).
  destruct (overwrites_fetchData now tzMin parseDate rng newsResponse
              quoteResponse candleResponse profileResponse peersResponse
              classifierResponse selectedStock timeRange
              (State.companyProfile (ui s2)) s1 s2 D) as (R & Dr & Ag).
  split; [exact R|]. split; [exact Dr|]. split.
  - intros X P. apply Ag. now left.
  - intros Ok1 X N. apply Ag. right. split; [exact N|eauto].
Qed.

(** Two states that differ in every variable, the profile included, in
    a world that serves the peers: the runs leave the same series, news,
    quote, sentiment, ranking, error and flags. *)
Lemma fetchData_overwrites_witness :
  let run :=
    fetchDataEffect sampleNow 0 (parseDate2001 0) sampleRng samplePeerNews
      (fun _ => Json sampleQuote) (fun _ _ _ => Json sampleCandles)
      (fun _ => Json sampleProfile) (fun _ => Json ["MSFT"; "GOOGL"])
      sampleClassifier "AAPL" 1 in
  fst (run sampleRuntime) = Ok tt /\
  forall X,
    X <> CompanyProfile ->
    agree X (ui (snd (run sampleRuntime)))
            (ui (snd (run {| draws := 0; ui := sampleLaterState |}))).
Proof.
  intros run.
  assert (E : fst (run sampleRuntime) = Ok tt) by (vm_compute; reflexivity).
  split; [exact E|].
  apply (fetchData_overwrites sampleNow 0 (parseDate2001 0) sampleRng
           samplePeerNews (fun _ => Json sampleQuote)
           (fun _ _ _ => Json sampleCandles) (fun _ => Json sampleProfile)
           (fun _ => Json ["MSFT"; "GOOGL"]) sampleClassifier "AAPL" 1
           sampleRuntime {| draws := 0; ui := sampleLaterState |}
           eq_refl (or_introl (or_intror (ex_intro _ _ eq_refl)))).
  exact E.
Defined.

(** The condition is needed.  With the profile served and the peers
    request failing, the run from a state without a profile ranks no
    company, and the run from a state that holds the profile ranks the
    peers of the Technology list, the draws made being the same. *)
Example fetchData_reads_profile :
  let run :=
    fetchDataEffect sampleNow 0 (parseDate2001 0) sampleRng samplePeerNews
      (fun _ => Json sampleQuote) (fun _ _ _ => Json sampleCandles)
      (fun _ => Json sampleProfile) (fun _ => NotOk) sampleClassifier
      "AAPL" 1 in
  fst (run sampleRuntime) = Ok tt /\
  fst (run {| draws := 0; ui := sampleLaterState |}) = Ok tt /\
  State.companiesWithBetterSentiment (ui (snd (run sampleRuntime))) = [] /\
  map Company.symbol
    (State.companiesWithBetterSentiment
       (ui (snd (run {| draws := 0; ui := sampleLaterState |}))))
  = ["MSFT"; "GOOGL"; "IBM"].
Proof. repeat split; vm_compute; reflexivity. Qed.

(** ** The error a refresh reports *)

Section ErrorReported.

Variable now : Z.
Variable tzMin : Z.
Variable parseDate : string -> option Z.
Variable rng : nat -> Q.
Variable newsResponse : string -> Z -> Z -> Http (list NewsItem).
Variable quoteResponse : string -> Http Quote.t.
Variable candleResponse : string -> Z -> Z -> Http Candles.t.
Variable profileResponse : string -> Http Profile.t.
Variable peersResponse : string -> Http (list string).
Variable classifierResponse : string -> Http (option Sentiment).
Variable selectedStock : string.
Variable timeRange : Z.
Variable companyProfile : option Profile.t.

Hypothesis timeRange_selectable : In timeRange (map fst TIME_RANGES).
Hypothesis candles_aligned :
  forall sym f t, candlesAligned (candleResponse sym f t).

Lemma fetchDataLive_throws (s : Runtime) :
  ~ topLevelServed newsResponse quoteResponse selectedStock
      (getDateRange now tzMin timeRange) ->
  exists msg,
    fetchDataLive now tzMin parseDate rng newsResponse quoteResponse
      candleResponse profileResponse peersResponse classifierResponse
      selectedStock timeRange companyProfile s
    = (Throw msg, s) /\
    (failsWith (newsResponse selectedStock
                  (from (getDateRange now tzMin timeRange))
                  (to (getDateRange now tzMin timeRange)))
               "Failed to fetch news" msg \/
     failsWith (quoteResponse selectedStock)
               "Failed to fetch stock quote" msg).
Proof.
  intros N. unfold fetchDataLive, bind, fetchNews, fetchStockQuote.
  destruct (newsResponse selectedStock _ _) as [m| |nb] eqn:En;
    [eexists; split; [reflexivity|left; reflexivity]
    |eexists; split; [reflexivity|left; reflexivity]|].
  unfold ret. cbv beta iota.
  destruct (quoteResponse selectedStock) as [m| |qb] eqn:Eq;
    [eexists; split; [reflexivity|right; reflexivity]
    |eexists; split; [reflexivity|right; reflexivity]|].
  exfalso. apply N. split; eauto.
Qed.

(** X29.  For each range the component offers and candles that carry a
    price for each timestamp, the error a refresh leaves is absent when
    the news and the quote request are both served; otherwise it is the
    message of one of the requests that failed: 'Failed to fetch news'
    or 'Failed to fetch stock quote' for a status that is not ok, the
    platform's message for a network failure.  No failure of a later
    request (classifier, candles, profile, peers) is ever reported. *)
Theorem fetchData_error_reported (s : Runtime) :
  exists s',
    fetchData now tzMin parseDate rng newsResponse quoteResponse
      candleResponse profileResponse peersResponse classifierResponse
      selectedStock timeRange companyProfile s = (Ok tt, s') /\
    ((topLevelServed newsResponse quoteResponse selectedStock
        (getDateRange now tzMin timeRange) /\
      State.error (ui s') = None) \/
     (exists msg,
        State.error (ui s') = Some msg /\
        (failsWith (newsResponse selectedStock
                      (from (getDateRange now tzMin timeRange))
                      (to (getDateRange now tzMin timeRange)))
                   "Failed to fetch news" msg \/
         failsWith (quoteResponse selectedStock)
                   "Failed to fetch stock quote" msg))).
Proof.
  match goal with
  | |- exists s', ?run = _ /\ @?P s' =>
      destruct (wp_run
                  (fetchData now tzMin parseDate rng newsResponse
                     quoteResponse candleResponse profileResponse
                     peersResponse classifierResponse selectedStock
                     timeRange companyProfile)
                  (fun _ s' => P s') s) as ([] & s' & E & X);
        [|exists s'; split; [exact E|exact X]]
  end.
  unfold fetchData.
  apply wp_bind, wp_setState, wp_bind, wp_setState, wp_bind, wp_setState.
  apply wp_finally_setState, wp_tryCatch.
  destruct (topLevelServed_dec now tzMin newsResponse quoteResponse
              selectedStock timeRange) as [S|N].
  - apply (wp_fetchDataLive_served now tzMin parseDate rng newsResponse
             quoteResponse candleResponse profileResponse peersResponse
             classifierResponse selectedStock timeRange companyProfile
             timeRange_selectable candles_aligned); [exact S|].
    intros s1 Ee _. left. split; [exact S|]. cbn in *. exact Ee.
  - match goal with
    | |- wp _ _ _ ?st =>
        destruct (fetchDataLive_throws st N) as (msg & El & Fm)
    end.
    unfold wp at 1. rewrite El.
    apply (wp_fetchDataFallback now tzMin parseDate rng newsResponse
             candleResponse profileResponse peersResponse
             classifierResponse selectedStock timeRange companyProfile
             timeRange_selectable candles_aligned).
    intros s1 Ee _. right. exists msg. split; [|exact Fm].
    cbn in *. exact Ee.
Qed.

End ErrorReported.

Lemma fetchData_error_reported_witness :
  exists s',
    fetchData sampleNow 0 (parseDate2001 0) sampleRng
      (fun _ _ _ => Json sampleNews) (fun _ => NotOk)
      (fun _ _ _ => NotOk) (fun _ => NotOk) (fun _ => NotOk)
      (fun _ => NotOk) "AAPL" 7 None sampleRuntime
    = (Ok tt, s') /\
    ((topLevelServed (fun _ _ _ => Json sampleNews)
        (fun _ => @NotOk Quote.t) "AAPL" (getDateRange sampleNow 0 7) /\
      State.error (ui s') = None) \/
     (exists msg,
        State.error (ui s') = Some msg /\
        (failsWith (Json sampleNews) "Failed to fetch news" msg \/
         failsWith (@NotOk Quote.t) "Failed to fetch stock quote" msg))).
Proof.
  apply (fetchData_error_reported sampleNow 0 (parseDate2001 0) sampleRng
           (fun _ _ _ => Json sampleNews) (fun _ => NotOk)
           (fun _ _ _ => NotOk) (fun _ => NotOk) (fun _ => NotOk)
           (fun _ => NotOk) "AAPL" 7 None).
  - cbn. auto.
  - intros sym f t. exact I.
Defined.
